(** * ironic-staging-drivers: the Intel Node Manager command codec
      ([intel_nm/nm_commands.py]) and the partitioning, memory and
      clean-step helpers of the Ansible deploy driver ([ansible/deploy.py]).

    The Python functions are embedded shallowly: a Python value is a
    [pyval], a dict a [gmap string pyval], an exception a constructor of
    [exn] carried by [result]; the one function that mutates its argument
    ([set_policy]) runs in a state-and-error monad over the policy dict. *)

From Stdlib Require Import ZArith Ascii String List.
From Stdlib.Strings Require Import Byte.
From stdpp Require Import gmap strings list fin_maps pretty.

#[local] Set Warnings "-register-all".
#[local] Open Scope string_scope.
#[local] Open Scope Z_scope.

(** ** The Python runtime the two modules rely on *)

Module Py.

(** Values: what JSON, YAML and the codec's dicts hold. *)
Inductive pyval :=
| VNone
| VBool (b : bool)
| VInt (z : Z)
| VStr (s : string)
| VList (l : list pyval)
| VDict (d : gmap string pyval).

(** Exceptions that the modelled code raises or lets through. The reason of
    an [InvalidParameterValue] is the value that is "not an integer value."
    or the exception that was caught. *)
Inductive exn :=
| IndexError
| KeyError
| ValueError
| TypeError
| AttributeError
| OverflowError
| StructError                               (* struct.error *)
| IOError                                   (* open() failed *)
| YAMLError                                 (* yaml.safe_load failed *)
| IPMIFailure (msg : string)
| MissingParameterValue (error_msg : string) (missing_info : list string)
| InvalidParameterValue (param : string) (reason : pyval + exn)
| NodeCleaningFailure (node : string) (reason : exn).

Inductive result (A : Type) :=
| Ok (a : A)
| Raise (e : exn).
Arguments Ok {A} a.
Arguments Raise {A} e.

#[global] Instance result_ret : MRet result := λ A a, Ok a.
#[global] Instance result_bind : MBind result := λ A B f r,
  match r with Ok a => f a | Raise e => Raise e end.
#[global] Instance result_fmap : FMap result := λ A B f r,
  match r with Ok a => Ok (f a) | Raise e => Raise e end.

(** [try: ... except: ...] with a handler on the exception. *)
Definition try_except {A} (body : result A) (handler : exn → result A) : result A :=
  match body with Ok a => Ok a | Raise e => handler e end.

(** Truth value of an object ([if x], [not x], [x or y]). *)
Definition truthy (v : pyval) : bool :=
  match v with
  | VNone => false
  | VBool b => b
  | VInt z => negb (z =? 0)
  | VStr s => negb (String.eqb s "")
  | VList l => match l with [] => false | _ => true end
  | VDict d => negb (Nat.eqb (size d) 0)
  end.

(** [isinstance(x, int)]: [bool] is a subclass of [int]. *)
Definition isinstance_int (v : pyval) : option Z :=
  match v with
  | VInt z => Some z
  | VBool b => Some (Z.b2z b)
  | _ => None
  end.

(** [x == s] for a string literal [s]. *)
Definition eq_str (v : pyval) (s : string) : bool :=
  match v with VStr t => String.eqb t s | _ => false end.

(** [d[k]] and [d.get(k)], [d.get(k, default)] on a dict. *)
Definition getitem `{Countable K} {V} (d : gmap K V) (k : K) : result V :=
  match d !! k with Some v => Ok v | None => Raise KeyError end.

Definition dict_get (d : gmap string pyval) (k : string) : pyval :=
  default VNone (d !! k).

Definition dict_get_default (d : gmap string pyval) (k : string) (dflt : pyval) : pyval :=
  default dflt (d !! k).

(** [x[k]] for a value [x] and a string key: a dict looks the key up, a
    list or a string wants an integer index, the rest cannot be subscripted. *)
Definition val_getitem (x : pyval) (k : string) : result pyval :=
  match x with
  | VDict d => getitem d k
  | _ => Raise TypeError
  end.

(** [l[i]] for a non-negative literal index. *)
Definition index {A} (l : list A) (i : nat) : result A :=
  match l !! i with Some x => Ok x | None => Raise IndexError end.

(** *** Characters and digits *)

Definition is_space (a : ascii) : bool :=
  let n := nat_of_ascii a in
  ((9 <=? n)%nat && (n <=? 13)%nat) || (n =? 32)%nat.

Fixpoint lstrip (s : list ascii) : list ascii :=
  match s with
  | [] => []
  | a :: s' => if is_space a then lstrip s' else s
  end.

Definition strip (s : string) : list ascii :=
  rev (lstrip (rev (lstrip (list_ascii_of_string s)))).

Definition lower_ascii (a : ascii) : ascii :=
  let n := nat_of_ascii a in
  if ((65 <=? n)%nat && (n <=? 90)%nat)%bool then ascii_of_nat (n + 32) else a.

Definition lower (s : list ascii) : string :=
  string_of_list_ascii (map lower_ascii s).

Definition digit_val (base : Z) (a : ascii) : option Z :=
  let n := Z.of_nat (nat_of_ascii a) in
  let d := if (48 <=? n) && (n <=? 57) then Some (n - 48)
           else if (97 <=? n) && (n <=? 122) then Some (n - 87)
           else if (65 <=? n) && (n <=? 90) then Some (n - 55)
           else None in
  match d with
  | Some v => if v <? base then Some v else None
  | None => None
  end.

Fixpoint digits_val (base : Z) (acc : Z) (l : list ascii) : option Z :=
  match l with
  | [] => Some acc
  | a :: l' =>
      match digit_val base a with
      | Some d => digits_val base (base * acc + d) l'
      | None => None
      end
  end.

(** The literal accepted by [int(s)] and [int(s, 16)]: surrounding
    whitespace, an optional sign, for base 16 an optional [0x]/[0X], then at
    least one digit. (Digit-group underscores, accepted from Python 3.6 on,
    are not: the module targets Python 2.7/3.4.) *)
Definition int_literal (base : Z) (s : string) : result Z :=
  let body := strip s in
  let '(neg, body) :=
    match body with
    | "-"%char :: r => (true, r)
    | "+"%char :: r => (false, r)
    | _ => (false, body)
    end in
  let body :=
    if base =? 16 then
      match body with
      | "0"%char :: "x"%char :: r => r
      | "0"%char :: "X"%char :: r => r
      | _ => body
      end
    else body in
  match body with
  | [] => Raise ValueError
  | _ =>
      match digits_val base 0 body with
      | Some v => Ok (if neg then - v else v)
      | None => Raise ValueError
      end
  end.

(** [int(x)]. *)
Definition int (v : pyval) : result Z :=
  match v with
  | VInt z => Ok z
  | VBool b => Ok (Z.b2z b)
  | VStr s => int_literal 10 s
  | VNone | VList _ | VDict _ => Raise TypeError
  end.

(** [int(x, 16)] on a string. *)
Definition int16 (s : string) : result Z := int_literal 16 s.

(** [str(n)] for an integer. *)
Definition str_int (z : Z) : string := pretty z.

(** One hexadecimal digit, lower or upper case. *)
Definition hex_digit (upper : bool) (d : Z) : ascii :=
  if d <? 10 then ascii_of_nat (Z.to_nat (48 + d))
  else ascii_of_nat (Z.to_nat ((if upper then 55 else 87) + d)).

(** Hexadecimal digits of a positive number, most significant first. *)
Fixpoint hex_digits_fuel (fuel : nat) (upper : bool) (n : Z) (acc : list ascii) : list ascii :=
  match fuel with
  | O => acc
  | S fuel' =>
      let acc' := hex_digit upper (n mod 16) :: acc in
      if n / 16 =? 0 then acc' else hex_digits_fuel fuel' upper (n / 16) acc'
  end.

Definition hex_digits (upper : bool) (n : Z) : list ascii :=
  hex_digits_fuel (S (Z.to_nat (Z.log2 n))) upper n [].

(** ['{:02X}'.format(n)]: upper-case digits, a sign for negatives, padded
    with zeros to width two (the sign counts for the width). *)
Definition format_02X (n : Z) : string :=
  if n <? 0 then string_of_list_ascii ("-"%char :: hex_digits true (- n))
  else
    let ds := hex_digits true n in
    string_of_list_ascii (match ds with [d] => ["0"%char; d] | _ => ds end).

(** *** Bytes *)

(** [binascii.hexlify]: two lower-case digits per byte. *)
Definition hexlify_byte (b : byte) : string :=
  let n := Z.of_N (Byte.to_N b) in
  String (hex_digit false (n / 16)) (String (hex_digit false (n mod 16)) "").

Definition hexlify (data : list byte) : string :=
  fold_right (λ b acc, hexlify_byte b +:+ acc) "" data.

(** [bytearray(ints)]: every item must be in [range(0, 256)]. *)
Fixpoint bytearray (l : list Z) : result (list byte) :=
  match l with
  | [] => Ok []
  | z :: l' =>
      if (0 <=? z) && (z <? 256) then
        match Byte.of_N (Z.to_N z) with
        | Some b => bs ← bytearray l'; Ok (b :: bs)
        | None => Raise ValueError
        end
      else Raise ValueError
  end.

(** Little-endian unsigned fields of [struct.pack] / [struct.unpack]. *)
Fixpoint le_bytes (n : nat) (z : Z) : list byte :=
  match n with
  | O => []
  | S n' =>
      default x00 (Byte.of_N (Z.to_N (z mod 256))) :: le_bytes n' (z / 256)
  end.

Fixpoint le_value (bs : list byte) : Z :=
  match bs with
  | [] => 0
  | b :: bs' => Z.of_N (Byte.to_N b) + 256 * le_value bs'
  end.

(** One unsigned field of [n] bytes: the argument must be an integer that
    fits, otherwise [struct.error]. *)
Definition pack_field (n : nat) (v : pyval) : result (list byte) :=
  match isinstance_int v with
  | Some z =>
      if (0 <=? z) && (z <? 256 ^ Z.of_nat n) then Ok (le_bytes n z)
      else Raise StructError
  | None => Raise StructError
  end.

(** [struct.pack('<...', v1, ..., vk)] for a format of unsigned fields given
    by their sizes ([H] is 2, [I] is 4). *)
Fixpoint struct_pack (fmt : list nat) (vs : list pyval) : result (list byte) :=
  match fmt, vs with
  | [], [] => Ok []
  | n :: fmt', v :: vs' =>
      b ← pack_field n v; bs ← struct_pack fmt' vs'; Ok (b ++ bs)%list
  | _, _ => Raise StructError
  end.

Fixpoint unpack_fields (fmt : list nat) (bs : list byte) : list Z :=
  match fmt with
  | [] => []
  | n :: fmt' => le_value (take n bs) :: unpack_fields fmt' (drop n bs)
  end.

(** [struct.unpack('<...', data)]: the data must have exactly the size of
    the format. *)
Definition struct_unpack (fmt : list nat) (bs : list byte) : result (list Z) :=
  if (length bs =? fold_right Nat.add 0 fmt)%nat then Ok (unpack_fields fmt bs)
  else Raise StructError.

(** [b.decode()] of the ASCII output of [hexlify]: the same characters. *)
Definition decode (s : string) : string := s.

(** [s.find(sub)]: the first index, or -1. *)
Definition find (s sub : string) : Z :=
  match String.index 0 sub s with
  | Some i => Z.of_nat i
  | None => -1
  end.

(** [s[a:b]] for [0 <= a <= b]. *)
Definition slice (s : string) (a b : nat) : string :=
  String.substring a (b - a) s.

(** [s[i]] for a non-negative index: a one-character string. *)
Definition str_index (s : string) (i : nat) : result string :=
  match String.get i s with
  | Some c => Ok (String c "")
  | None => Raise IndexError
  end.

End Py.

(** ** [intel_nm/nm_commands.py] *)

Module NM.
Import Py.

Definition INTEL_NM_DOMAINS : gmap string Z :=
  {[ "platform" := 0x00; "cpu" := 0x01; "memory" := 0x02;
     "protection" := 0x03; "io" := 0x04 ]}.

Definition INTEL_NM_TRIGGERS : gmap string Z :=
  {[ "none" := 0x00; "temperature" := 0x01; "power" := 0x02;
     "reset" := 0x03; "boot" := 0x04 ]}.

Definition INTEL_NM_CPU_CORRECTION : gmap string Z :=
  {[ "auto" := 0x00; "unagressive" := 0x20; "aggressive" := 0x40 ]}.

Definition INTEL_NM_STORAGE : gmap string Z :=
  {[ "persistent" := 0x00; "volatile" := 0x80 ]}.

Definition INTEL_NM_ACTIONS : gmap string Z :=
  {[ "alert" := 0x00; "shutdown" := 0x01 ]}.

Definition INTEL_NM_POWER_DOMAIN : gmap string Z :=
  {[ "primary" := 0x00; "secondary" := 0x80 ]}.

Definition INTEL_NM_BOOT_MODE : gmap string Z :=
  {[ "power" := 0x00; "performance" := 0x01 ]}.

(** An [OrderedDict]: the order of the pairs is the iteration order. *)
Definition INTEL_NM_DAYS : list (string * Z) :=
  [ ("monday", 0x01); ("tuesday", 0x02); ("wednesday", 0x04);
    ("thursday", 0x08); ("friday", 0x10); ("saturday", 0x20);
    ("sunday", 0x40) ].

Definition VERSIONS : gmap Z string :=
  {[ 0x01 := "1.0"; 0x02 := "1.5"; 0x03 := "2.0"; 0x04 := "2.5";
     0x05 := "3.0" ]}.

Definition IPMI_VERSIONS : gmap Z string :=
  {[ 0x01 := "1.0"; 0x02 := "2.0"; 0x03 := "3.0" ]}.

Definition _reverse_dict (d : gmap string Z) : gmap Z string :=
  list_to_map ((λ kv, (kv.2, kv.1)) <$> map_to_list d).

Definition INTEL_NM_DOMAINS_REV := _reverse_dict INTEL_NM_DOMAINS.
Definition INTEL_NM_TRIGGERS_REV := _reverse_dict INTEL_NM_TRIGGERS.
Definition INTEL_NM_CPU_CORRECTION_REV := _reverse_dict INTEL_NM_CPU_CORRECTION.
Definition INTEL_NM_STORAGE_REV := _reverse_dict INTEL_NM_STORAGE.
Definition INTEL_NM_ACTIONS_REV := _reverse_dict INTEL_NM_ACTIONS.
Definition INTEL_NM_POWER_DOMAIN_REV := _reverse_dict INTEL_NM_POWER_DOMAIN.

Definition INTEL_NM_NETFN : string := "0x2E".
Definition INTEL_NM_ID : list string := ["0x57"; "0x01"; "0x00"].

Definition INTEL_NM_POLICY_CONTROL : string := "0xC0".
Definition INTEL_NM_POLICY_SET : string := "0xC1".
Definition INTEL_NM_POLICY_GET : string := "0xC2".
Definition INTEL_NM_SUSPEND_SET : string := "0xC5".
Definition INTEL_NM_SUSPEND_GET : string := "0xC6".
Definition INTEL_NM_CAPABILITIES_GET : string := "0xC9".
Definition INTEL_NM_VERSION_GET : string := "0xCA".

(** The three decode failures the wrapper reports. *)
Definition msg_wrong_length : string :=
  "Data from Intel Node Manager has wrong length.".
Definition msg_corrupted : string :=
  "Data from Intel Node Manager is corrupted.".
Definition msg_cannot_convert : string :=
  "Data from Intel Node Manager cannot be converted.".

(** The decorator: [IndexError] and [struct.error], [KeyError] and
    [ValueError] become [IPMIFailure]; anything else passes through. *)
Definition _handle_parsing_error {A} (func : list string → result A)
    (raw_data : list string) : result A :=
  try_except (func raw_data) (λ e,
    match e with
    | IndexError | StructError => Raise (IPMIFailure msg_wrong_length)
    | KeyError => Raise (IPMIFailure msg_corrupted)
    | ValueError => Raise (IPMIFailure msg_cannot_convert)
    | _ => Raise e
    end).

(** ['0x{:02X}'.format(x)]: integers (and booleans) take the [X] format
    code, a string rejects it, other objects have no such format. *)
Definition _hex (x : pyval) : result string :=
  match x with
  | VInt n => Ok ("0x" +:+ format_02X n)
  | VBool b => Ok ("0x" +:+ format_02X (Z.b2z b))
  | VStr _ => Raise ValueError
  | VNone | VList _ | VDict _ => Raise TypeError
  end.

Fixpoint _raw_to_int (raw_data : list string) : result (list Z) :=
  match raw_data with
  | [] => Ok []
  | x :: rest => n ← int16 x; ns ← _raw_to_int rest; Ok (n :: ns)
  end.

(** Slices of two characters of the [hexlify] output. *)
Fixpoint _bytehex (data : string) : list string :=
  match data with
  | EmptyString => []
  | String a EmptyString => [String a ""]
  | String a (String b rest) => String a (String b "") :: _bytehex rest
  end.

Definition _hexarray (data : list byte) : list string :=
  (λ x, "0x" +:+ x) <$> _bytehex (hexlify data).

(** The second argument of [_append_to_command]: a list (or tuple), or a
    single value, which is wrapped into a list. *)
Inductive cmd_data :=
| One (x : string)
| Many (l : list string).

Definition _append_to_command (cmd : list string) (data : cmd_data) : list string :=
  let data := match data with One x => [x] | Many l => l end in
  (cmd ++ data)%list.

Definition _add_to_dict (data_dict : gmap string pyval) (values : list Z)
    (names : list string) : gmap string pyval :=
  list_to_map (zip names (VInt <$> values)) ∪ data_dict.

Definition _create_command_head (command : string) : list string :=
  let cmd := [INTEL_NM_NETFN; command] in
  _append_to_command cmd (Many INTEL_NM_ID).

(** [INTEL_NM_DAYS[day]]: the first pair with that key. *)
Fixpoint ordered_getitem (d : list (string * Z)) (k : string) : result Z :=
  match d with
  | [] => Raise KeyError
  | (k', v) :: d' => if String.eqb k' k then Ok v else ordered_getitem d' k
  end.

Fixpoint _days_compose_from (pattern : Z) (days : list string) : result Z :=
  match days with
  | [] => Ok pattern
  | day :: rest =>
      flag ← ordered_getitem INTEL_NM_DAYS day;
      _days_compose_from (Z.lor pattern flag) rest
  end.

Definition _days_compose (days : list string) : result Z :=
  _days_compose_from 0 days.

(** The condition [pattern & INTEL_NM_DAYS[day]] of the comprehension; the
    lookup cannot fail there, [day] being a key of the table. *)
Definition day_selected (pattern : Z) (day : string) : bool :=
  match ordered_getitem INTEL_NM_DAYS day with
  | Ok flag => truthy (VInt (Z.land pattern flag))
  | Raise _ => false
  end.

Definition _days_parse (pattern : Z) : list string :=
  List.filter (day_selected pattern) (INTEL_NM_DAYS.*1).

(** *** Commands that read and update their argument

    [set_policy] stores defaults into the dict it is given, so it is a
    computation over that dict: it returns a result and the dict as the
    call leaves it, also when it raises. *)

Definition policyM (A : Type) : Type :=
  gmap string pyval → result A * gmap string pyval.

#[global] Instance policyM_ret : MRet policyM := λ A a p, (Ok a, p).
#[global] Instance policyM_bind : MBind policyM := λ A B f m p,
  match m p with
  | (Ok a, p') => f a p'
  | (Raise e, p') => (Raise e, p')
  end.

(** [k in policy], [policy[k] = v], [policy[k]], and a computation that
    does not touch the dict. *)
Definition contains (k : string) : policyM bool :=
  λ p, (Ok (match p !! k with Some _ => true | None => false end), p).
Definition setitem (k : string) (v : pyval) : policyM unit :=
  λ p, (Ok tt, <[k := v]> p).
Definition subscript (k : string) : policyM pyval :=
  λ p, (getitem p k, p).
Definition lift {A} (r : result A) : policyM A :=
  λ p, (r, p).

(** [TABLE[x]] for a value [x]: only a string can be a key of the tables;
    a list or a dict is not hashable. *)
Definition table_getitem (t : gmap string Z) (x : pyval) : result Z :=
  match x with
  | VStr s => getitem t s
  | VList _ | VDict _ => Raise TypeError
  | VNone | VBool _ | VInt _ => Raise KeyError
  end.

Definition set_policy : policyM (list string) :=
  (* NM defaults *)
  has ← contains "cpu_power_correction";
  (if negb has then setitem "cpu_power_correction" (VStr "auto") else mret tt);;
  has ← contains "storage";
  (if negb has then setitem "storage" (VStr "persistent") else mret tt);;
  trigger ← subscript "policy_trigger";
  (if eq_str trigger "none" || eq_str trigger "boot"
   then setitem "trigger_limit" (VInt 0) else mret tt);;

  let cmd := _create_command_head INTEL_NM_POLICY_SET in
  (* [A | 0x10 if c else 0x00] is [(A | 0x10) if c else 0x00] *)
  enable ← subscript "enable";
  byte0 ← (if truthy enable then
             domain_id ← subscript "domain_id";
             domain ← lift (table_getitem INTEL_NM_DOMAINS domain_id);
             mret (Z.lor domain 0x10)
           else mret 0x00);
  h ← lift (_hex (VInt byte0));
  let cmd := _append_to_command cmd (One h) in
  policy_id ← subscript "policy_id";
  h ← lift (_hex policy_id);
  let cmd := _append_to_command cmd (One h) in
  (* 0x10 is policy add flag *)
  trigger ← subscript "policy_trigger";
  trigger ← lift (table_getitem INTEL_NM_TRIGGERS trigger);
  correction ← subscript "cpu_power_correction";
  correction ← lift (table_getitem INTEL_NM_CPU_CORRECTION correction);
  storage ← subscript "storage";
  storage ← lift (table_getitem INTEL_NM_STORAGE storage);
  h ← lift (_hex (VInt (Z.lor (Z.lor (Z.lor trigger correction) storage) 0x10)));
  let cmd := _append_to_command cmd (One h) in
  action ← subscript "action";
  action ← lift (table_getitem INTEL_NM_ACTIONS action);
  power_domain ← subscript "power_domain";
  power_domain ← lift (table_getitem INTEL_NM_POWER_DOMAIN power_domain);
  h ← lift (_hex (VInt (Z.lor action power_domain)));
  let cmd := _append_to_command cmd (One h) in

  target_limit ← subscript "target_limit";
  limit ← match isinstance_int target_limit with
          | Some _ => mret target_limit
          | None =>
              target_limit ← subscript "target_limit";
              boot_mode ← lift (val_getitem target_limit "boot_mode");
              let mode := if eq_str boot_mode "power" then 0x00 else 0x01 in
              target_limit ← subscript "target_limit";
              cores ← lift (val_getitem target_limit "cores_disabled");
              match isinstance_int cores with
              | Some c =>
                  let cores_disabled := Z.shiftl c 1 in
                  mret (VInt (Z.lor mode cores_disabled))
              | None => lift (Raise TypeError)
              end
          end;

  correction_time ← subscript "correction_time";
  trigger_limit ← subscript "trigger_limit";
  reporting_period ← subscript "reporting_period";
  policy_values ← lift (struct_pack [2; 4; 2; 2]%nat
                          [limit; correction_time; trigger_limit; reporting_period]);
  let cmd := _append_to_command cmd (Many (_hexarray policy_values)) in

  mret cmd.

(** *** Parsers of raw responses *)

Definition parse_policy_body (raw_data : list string) : result (gmap string pyval) :=
  let policy : gmap string pyval := ∅ in
  raw_int ← _raw_to_int raw_data;

  b ← index raw_int 3; v ← getitem INTEL_NM_DOMAINS_REV (Z.land b 0x0F);
  let policy := <["domain_id" := VStr v]> policy in
  b ← index raw_int 3;
  let policy := <["enabled" := VBool (truthy (VInt (Z.land b 0x10)))]> policy in
  b ← index raw_int 3;
  let policy := <["per_domain_enabled" := VBool (truthy (VInt (Z.land b 0x20)))]> policy in
  b ← index raw_int 3;
  let policy := <["global_enabled" := VBool (truthy (VInt (Z.land b 0x40)))]> policy in
  b ← index raw_int 3;
  let policy := <["created_by_nm" := VBool (negb (truthy (VInt (Z.land b 0x80))))]> policy in
  b ← index raw_int 4; v ← getitem INTEL_NM_TRIGGERS_REV (Z.land b 0x0F);
  let policy := <["policy_trigger" := VStr v]> policy in
  b ← index raw_int 4;
  let policy := <["power_policy" := VBool (truthy (VInt (Z.land b 0x10)))]> policy in
  b ← index raw_int 4;
  power_correction ← getitem INTEL_NM_CPU_CORRECTION_REV (Z.land b 0x60);
  let policy := <["cpu_power_correction" := VStr power_correction]> policy in
  b ← index raw_int 4; v ← getitem INTEL_NM_STORAGE_REV (Z.land b 0x80);
  let policy := <["storage" := VStr v]> policy in
  b ← index raw_int 5; v ← getitem INTEL_NM_ACTIONS_REV (Z.land b 0x01);
  let policy := <["action" := VStr v]> policy in
  b ← index raw_int 5; v ← getitem INTEL_NM_POWER_DOMAIN_REV (Z.land b 0x80);
  let policy := <["power_domain" := VStr v]> policy in
  data ← bytearray (drop 6 raw_int);
  policy_values ← struct_unpack [2; 4; 2; 2]%nat data;
  let policy_names := ["target_limit"; "correction_time"; "trigger_limit";
                       "reporting_period"] in
  let policy := _add_to_dict policy policy_values policy_names in

  Ok policy.

Definition parse_policy := _handle_parsing_error parse_policy_body.

(** The loop of [parse_policy_suspend] over [range(policy_num)]. *)
Fixpoint parse_policy_suspend_loop (raw_int : list Z) (nums : list nat)
    (suspends : list (gmap string pyval)) : result (list (gmap string pyval)) :=
  match nums with
  | [] => Ok suspends
  | num :: rest =>
      let base := (num * 3 + 4)%nat in
      start ← index raw_int base;
      stop ← index raw_int (base + 1);
      days ← index raw_int (base + 2);
      let suspend : gmap string pyval :=
        {[ "start" := VInt start; "stop" := VInt stop;
           "days" := VList (VStr <$> _days_parse days) ]} in
      parse_policy_suspend_loop raw_int rest (suspends ++ [suspend])
  end.

Definition parse_policy_suspend_body (raw_data : list string)
    : result (list (gmap string pyval)) :=
  let suspends := [] in
  raw_int ← _raw_to_int raw_data;

  policy_num ← index raw_int 3;
  parse_policy_suspend_loop raw_int (seq 0 (Z.to_nat policy_num)) suspends.

Definition parse_policy_suspend := _handle_parsing_error parse_policy_suspend_body.

Definition parse_capabilities_body (raw_data : list string) : result (gmap string pyval) :=
  let capabilities : gmap string pyval := ∅ in
  raw_int ← _raw_to_int raw_data;

  b ← index raw_int 3;
  let capabilities := <["max_policies" := VInt b]> capabilities in
  data ← bytearray (take 16 (drop 4 raw_int));
  capabilities_values ← struct_unpack [2; 2; 4; 4; 2; 2]%nat data;
  let capabilities_names := ["max_limit_value"; "min_limit_value";
                             "min_correction_time"; "max_correction_time";
                             "min_reporting_period"; "max_reporting_period"] in
  let capabilities := _add_to_dict capabilities capabilities_values capabilities_names in
  b ← index raw_int 20; v ← getitem INTEL_NM_DOMAINS_REV (Z.land b 0x0F);
  let capabilities := <["domain_id" := VStr v]> capabilities in
  b ← index raw_int 20; power_domain ← getitem INTEL_NM_POWER_DOMAIN_REV (Z.land b 0x80);
  let capabilities := <["power_domain" := VStr power_domain]> capabilities in

  Ok capabilities.

Definition parse_capabilities := _handle_parsing_error parse_capabilities_body.

Definition parse_version_body (raw_data : list string) : result (gmap string pyval) :=
  let version : gmap string pyval := ∅ in
  raw_int ← _raw_to_int raw_data;

  b ← index raw_int 3;
  let version := <["nm" := VStr (default "unknown" (VERSIONS !! b))]> version in
  b ← index raw_int 4;
  let version := <["ipmi" := VStr (default "unknown" (IPMI_VERSIONS !! b))]> version in
  b ← index raw_int 5;
  let version := <["patch" := VStr (str_int b)]> version in
  b6 ← index raw_int 6; b7 ← index raw_int 7;
  let version := <["firmware" := VStr (str_int b6 +:+ "." +:+ str_int b7)]> version in

  Ok version.

Definition parse_version := _handle_parsing_error parse_version_body.

(** [parse_slave_and_channel], given the bytes that [bin_fp.read()] returns.
    [hexlify] gives a byte string, which Python 3 decodes to text; the text
    operations are the same on both. [None] is the value of a call that
    falls off the end of the function. *)
Definition parse_slave_and_channel (PY3 : bool) (content : list byte)
    : result (option (string * string)) :=
  let prefix := "5701000d01" in
  let data_str := hexlify content in
  let data_str := if PY3 then decode data_str else data_str in
  let oem_id_index := find data_str prefix in
  if negb (oem_id_index =? -1) then
    let i := Z.to_nat oem_id_index in
    let ret := slice data_str (i + String.length prefix)
                              (i + String.length prefix + 4) in
    c ← str_index ret 2;
    Ok (Some ("0x" +:+ slice ret 0 2, "0x0" +:+ c))
  else Ok None.

End NM.

(** ** [ansible/deploy.py] *)

Module Deploy.
Import Py.

(** The options of [CONF] that the modelled functions read. *)
Record conf := {
  ansible_extra_memory : Z;
  ansible_playbooks_path : string;
  pxe_default_ephemeral_format : string;
  tempdir : string
}.

Record node := {
  uuid : string;
  instance_info : gmap string pyval;
  driver_info : gmap string pyval
}.

Record task := {
  task_node : node;
  context : pyval
}.

Definition DEFAULT_CLEAN_STEPS : string := "clean_steps.yaml".

Definition DISK_LAYOUT_PARAMS : list string := ["root_gb"; "swap_mb"; "ephemeral_gb"].

(** [units.Mi]. *)
Definition Mi : Z := 2 ^ 20.

(** [os.path.join(a, b)] of [posixpath]. *)
Definition os_path_join (a b : string) : string :=
  if String.prefix "/" b then b
  else if String.eqb a "" || String.eqb (slice a (String.length a - 1) (String.length a)) "/"
       then a +:+ b
       else a +:+ "/" +:+ b.

(** [check_for_missing_params] of ironic's [deploy_utils]: every value of
    the dict that is false ([None], zero, empty) is reported as missing. *)
Definition check_for_missing_params (info_dict : gmap string pyval)
    (error_msg : string) : result unit :=
  let missing_info :=
    (List.filter (λ kv : string * pyval, negb (truthy kv.2)) (map_to_list info_dict)).*1 in
  match missing_info with
  | [] => Ok tt
  | _ => Raise (MissingParameterValue error_msg missing_info)
  end.

(** [strutils.bool_from_string(subject, strict=True)] of oslo.utils: a
    boolean is returned as it is, anything else is turned into text,
    stripped and lower-cased, and must be one of the accepted words. A list
    or a dict prints with brackets and is never one of them. *)
Definition TRUE_STRINGS : list string := ["1"; "t"; "true"; "on"; "y"; "yes"].
Definition FALSE_STRINGS : list string := ["0"; "f"; "false"; "off"; "n"; "no"].

Definition bool_from_string (subject : pyval) : result bool :=
  match subject with
  | VBool b => Ok b
  | VList _ | VDict _ => Raise ValueError
  | _ =>
      let text := match subject with
                  | VStr s => s
                  | VInt z => str_int z
                  | _ => "None"
                  end in
      let lowered := lower (strip text) in
      if existsb (String.eqb lowered) TRUE_STRINGS then Ok true
      else if existsb (String.eqb lowered) FALSE_STRINGS then Ok false
      else Raise ValueError
  end.

(** Rounding of an integer to the 53 significant bits of a float, ties to
    even: what [a / b] goes through on Python 3. *)
Definition round53 (n : Z) : Z :=
  let a := Z.abs n in
  let k := Z.log2 a - 52 in
  if k <=? 0 then n
  else
    let q := Z.shiftr a k in
    let r := Z.land a (Z.ones k) in
    let half := Z.shiftl 1 (k - 1) in
    let q' := if (half <? r) || ((r =? half) && Z.odd q) then q + 1 else q in
    Z.sgn n * Z.shiftl q' k.

(** [int(n / units.Mi)]. On Python 2 [/] on integers is the floor division
    and [int] changes nothing; on Python 3 it is the correctly rounded float
    quotient (exact scaling by a power of two of the rounded numerator),
    which [int] truncates; a quotient beyond the float range raises. *)
Definition int_div_Mi (PY3 : bool) (n : Z) : result Z :=
  if PY3 then
    let q := Z.quot (round53 n) Mi in
    if Z.abs q <? 2 ^ 1024 then Ok q else Raise OverflowError
  else Ok (n / Mi).

Section deploy.

(** The configuration, the interpreter, and the services called at the
    boundary: the size the image service reports for an image, the scheme
    [urlparse] finds in a URL, and [yaml.safe_load] on the file at a path
    (which raises when the file cannot be opened or parsed). *)
Variable CONF : conf.
Variable PY3 : bool.
Variable download_size : pyval → pyval → result Z.
Variable urlparse_scheme : pyval → result string.
Variable load_yaml : string → result pyval.

Definition _get_configdrive_path (basename : string) : string :=
  os_path_join (tempdir CONF) (basename +:+ ".cndrive").

Definition _calculate_memory_req (task : task) : result Z :=
  image_source ← getitem (instance_info (task_node task)) "image_source";
  image_size ← download_size (context task) image_source;
  mib ← int_div_Mi PY3 image_size;
  Ok (mib + ansible_extra_memory CONF).

(** The loop over [DISK_LAYOUT_PARAMS]: only [ValueError] is caught. *)
Fixpoint coerce_params (params : list string) (i_info : gmap string pyval)
    : result (gmap string pyval) :=
  match params with
  | [] => Ok i_info
  | param :: rest =>
      v ← getitem i_info param;
      n ← try_except (int v) (λ e,
             match e with
             | ValueError => Raise (InvalidParameterValue param (inl v))
             | _ => Raise e
             end);
      coerce_params rest (<[param := VInt n]> i_info)
  end.

(** [d.pop(k)]. *)
Definition pop (d : gmap string pyval) (k : string) : result (pyval * gmap string pyval) :=
  v ← getitem d k; Ok (v, delete k d).

(** [k * x] for an integer literal [k]. *)
Definition mul_int (k : Z) (x : pyval) : result pyval :=
  match isinstance_int x with
  | Some z => Ok (VInt (k * z))
  | None => Raise TypeError
  end.

(** [x != 0]. *)
Definition ne_zero (x : pyval) : bool :=
  match isinstance_int x with
  | Some z => negb (z =? 0)
  | None => true
  end.

(** [dict(name=..., size_mib=..., boot=..., swap=...)]. *)
Definition partition (name : string) (size_mib : pyval) (boot swap : string) : pyval :=
  VDict {[ "name" := VStr name; "size_mib" := size_mib;
           "boot" := VStr boot; "swap" := VStr swap ]}.

(** Returns the dict and the files written ([open(path, 'w').write(text)]). *)
Definition _parse_partitioning_info (node : node)
    : result (gmap string pyval * list (string * pyval)) :=
  let info := instance_info node in
  let i_info : gmap string pyval := ∅ in

  let i_info := <["root_gb" := dict_get info "root_gb"]> i_info in
  let error_msg := "'root_gb' is missing in node's instance_info" in
  check_for_missing_params i_info error_msg;;

  let i_info := <["swap_mb" := dict_get_default info "swap_mb" (VInt 0)]> i_info in
  let i_info := <["ephemeral_gb" := dict_get_default info "ephemeral_gb" (VInt 0)]> i_info in

  i_info ← coerce_params DISK_LAYOUT_PARAMS i_info;

  '(root_gb, i_info) ← pop i_info "root_gb";
  size_mib ← mul_int 1024 root_gb;
  let partitions := [partition "root" size_mib "yes" "no"] in
  swap_mb ← getitem i_info "swap_mb";
  '(partitions, i_info) ←
    (if truthy swap_mb then
       '(swap_mb, i_info) ← pop i_info "swap_mb";
       Ok ((partitions ++ [partition "swap" swap_mb "no" "yes"])%list, i_info)
     else Ok (partitions, i_info));

  ephemeral_gb ← getitem i_info "ephemeral_gb";
  '(partitions, i_info) ←
    (if ne_zero ephemeral_gb then
       '(ephemeral_gb, i_info) ← pop i_info "ephemeral_gb";
       size_mib ← mul_int 1024 ephemeral_gb;
       let partitions := (partitions ++ [partition "ephemeral" size_mib "no" "no"])%list in
       let i_info := <["ephemeral_format" := dict_get info "ephemeral_format"]> i_info in
       ephemeral_format ← getitem i_info "ephemeral_format";
       let i_info :=
         if negb (truthy ephemeral_format)
         then <["ephemeral_format" := VStr (pxe_default_ephemeral_format CONF)]> i_info
         else i_info in
       let preserve_ephemeral := dict_get_default info "preserve_ephemeral" (VBool false) in
       b ← try_except (bool_from_string preserve_ephemeral) (λ e,
             match e with
             | ValueError => Raise (InvalidParameterValue "preserve_ephemeral" (inr e))
             | _ => Raise e
             end);
       let i_info := <["preserve_ephemeral" := VBool b]> i_info in
       let i_info := <["preserve_ephemeral" := VStr (if b then "yes" else "no")]> i_info in
       Ok (partitions, i_info)
     else Ok (partitions, i_info));

  let i_info := <["ironic_partitions" := VList partitions]> i_info in
  let configdrive := dict_get info "configdrive" in
  if truthy configdrive then
    scheme ← urlparse_scheme configdrive;
    if String.eqb scheme "http" || String.eqb scheme "https" then
      Ok (<["configdrive" := configdrive]> i_info, [])
    else
      Ok (<["configdrive" := VStr "file"]> i_info,
          [(_get_configdrive_path (uuid node), configdrive)])
  else Ok (i_info, []).

(** [for params in internal_steps]: a list gives its items, a dict its
    keys, a string its characters; nothing else can be iterated. *)
Definition iterate (x : pyval) : result (list pyval) :=
  match x with
  | VList l => Ok l
  | VDict d => Ok (VStr <$> (map_to_list d).*1)
  | VStr s => Ok ((λ c, VStr (String c "")) <$> list_ascii_of_string s)
  | VNone | VBool _ | VInt _ => Raise TypeError
  end.

(** [x.get(k)] and [x.get(k, default)]: only a dict has the method. *)
Definition method_get (x : pyval) (k : string) (dflt : pyval) : result pyval :=
  match x with
  | VDict d => Ok (dict_get_default d k dflt)
  | _ => Raise AttributeError
  end.

(** [override.get(name)]: a list or a dict cannot be hashed; of the values
    that can, only a string is a key of the dict. *)
Definition override_get (override : gmap string pyval) (name : pyval) : result pyval :=
  match name with
  | VStr s => Ok (dict_get override s)
  | VList _ | VDict _ => Raise TypeError
  | VNone | VBool _ | VInt _ => Ok VNone
  end.

Fixpoint clean_steps_loop (interface : option string) (override : gmap string pyval)
    (internal_steps : list pyval) (steps : list pyval) : result (list pyval) :=
  match internal_steps with
  | [] => Ok steps
  | params :: rest =>
      name ← method_get params "name" VNone;
      clean_if ← val_getitem params "interface";
      if match interface with
         | Some i => negb (eq_str clean_if i)
         | None => false
         end
      then clean_steps_loop interface override rest steps
      else
        new_priority ← override_get override name;
        priority ← match new_priority with
                   | VNone => val_getitem params "priority"
                   | _ => Ok new_priority
                   end;
        abortable ← method_get params "abortable" (VBool false);
        argsinfo ← method_get params "argsinfo" VNone;
        tags ← method_get params "tags" (VList []);
        let step := VDict {[ "step" := name; "priority" := priority;
                             "abortable" := abortable; "argsinfo" := argsinfo;
                             "interface" := clean_if; "tags" := tags ]} in
        clean_steps_loop interface override rest (steps ++ [step])
  end.

Definition _get_clean_steps (task : task) (interface : option string)
    (override_priorities : option (gmap string pyval)) : result (list pyval) :=
  let clean_steps_file :=
    dict_get_default (driver_info (task_node task)) "clean_steps" (VStr DEFAULT_CLEAN_STEPS) in
  path ← match clean_steps_file with
         | VStr f => Ok (os_path_join (ansible_playbooks_path CONF) f)
         | _ => Raise TypeError
         end;
  internal_steps ← try_except (load_yaml path) (λ e,
                     Raise (NodeCleaningFailure (uuid (task_node task)) e));

  let steps := [] in
  let override := match override_priorities with
                  | Some o => if truthy (VDict o) then o else ∅
                  | None => ∅
                  end in
  items ← iterate internal_steps;
  clean_steps_loop interface override items steps.

End deploy.

End Deploy.

(** ** [intel_nm/nm_commands.py]: the requests *)

Module Requests.
Import Py NM.

(** [len(x)]. *)
Definition len (x : pyval) : result Z :=
  match x with
  | VList l => Ok (Z.of_nat (length l))
  | VDict d => Ok (Z.of_nat (size d))
  | VStr s => Ok (Z.of_nat (String.length s))
  | VNone | VBool _ | VInt _ => Raise TypeError
  end.

Definition _add_domain_policy_id (cmd : list string) (data : gmap string pyval)
    : result (list string) :=
  domain_id ← getitem data "domain_id";
  domain ← table_getitem INTEL_NM_DOMAINS domain_id;
  h ← _hex (VInt domain);
  let cmd := _append_to_command cmd (One h) in
  policy_id ← getitem data "policy_id";
  h ← _hex policy_id;
  let cmd := _append_to_command cmd (One h) in
  Ok cmd.

(** [INTEL_NM_DAYS[day]] for a value [day]: only a string can be a key of
    the table; a list or a dict is not hashable. *)
Definition days_getitem (day : pyval) : result Z :=
  match day with
  | VStr s => ordered_getitem INTEL_NM_DAYS s
  | VList _ | VDict _ => Raise TypeError
  | VNone | VBool _ | VInt _ => Raise KeyError
  end.

(** [_days_compose] as [set_policy_suspend] calls it, on the value it finds
    under ["days"]: the loop runs over what that value iterates to. *)
Fixpoint _days_compose_items (pattern : Z) (days : list pyval) : result Z :=
  match days with
  | [] => Ok pattern
  | day :: rest =>
      flag ← days_getitem day;
      _days_compose_items (Z.lor pattern flag) rest
  end.

Definition _days_compose_value (days : pyval) : result Z :=
  items ← Deploy.iterate days;
  _days_compose_items 0 items.

(** The loop of [set_policy_suspend] over the periods. *)
Fixpoint set_policy_suspend_loop (cmd : list string) (periods : list pyval)
    : result (list string) :=
  match periods with
  | [] => Ok cmd
  | period :: rest =>
      start ← val_getitem period "start";
      h ← _hex start;
      let cmd := _append_to_command cmd (One h) in
      stop ← val_getitem period "stop";
      h ← _hex stop;
      let cmd := _append_to_command cmd (One h) in
      days ← val_getitem period "days";
      pattern ← _days_compose_value days;
      h ← _hex (VInt pattern);
      let cmd := _append_to_command cmd (One h) in
      set_policy_suspend_loop cmd rest
  end.

Definition set_policy_suspend (suspend : gmap string pyval) : result (list string) :=
  let cmd := _create_command_head INTEL_NM_SUSPEND_SET in
  cmd ← _add_domain_policy_id cmd suspend;
  periods ← getitem suspend "periods";
  n ← len periods;
  h ← _hex (VInt n);
  let cmd := _append_to_command cmd (One h) in

  items ← Deploy.iterate periods;
  set_policy_suspend_loop cmd items.

Definition get_capabilities (data : gmap string pyval) : result (list string) :=
  let cmd := _create_command_head INTEL_NM_CAPABILITIES_GET in
  domain_id ← getitem data "domain_id";
  domain ← table_getitem INTEL_NM_DOMAINS domain_id;
  h ← _hex (VInt domain);
  let cmd := _append_to_command cmd (One h) in
  let power_policy := 0x10 in
  trigger ← getitem data "policy_trigger";
  trigger ← table_getitem INTEL_NM_TRIGGERS trigger;
  power_domain ← getitem data "power_domain";
  power_domain ← table_getitem INTEL_NM_POWER_DOMAIN power_domain;
  h ← _hex (VInt (Z.lor (Z.lor trigger power_policy) power_domain));
  let cmd := _append_to_command cmd (One h) in

  Ok cmd.

(** How a call ends: as a [result] says, or, when it reads a local
    variable that no statement has bound, with [UnboundLocalError]. *)
Inductive outcome (A : Type) :=
| Ends (r : result A)
| UnboundLocalError (name : string).
Arguments Ends {A} r.
Arguments UnboundLocalError {A} name.

(** The branches on the scope bind [flags], [domain_id] and [policy_id];
    there is no [else], so another scope binds none of them. *)
Definition control_policies (control_data : gmap string pyval)
    : outcome (list string) :=
  let cmd := _create_command_head INTEL_NM_POLICY_CONTROL in

  match getitem control_data "enable" with
  | Raise e => Ends (Raise e)
  | Ok enable =>
  match getitem control_data "scope" with
  | Raise e => Ends (Raise e)
  | Ok scope =>

  let bound : result (option (string * pyval * pyval)) :=
    if eq_str scope "global" then
      let flags := if truthy enable then "0x01" else "0x00" in
      Ok (Some (flags, VInt 0, VInt 0))
    else if eq_str scope "domain" then
      let flags := if truthy enable then "0x03" else "0x02" in
      domain_id ← getitem control_data "domain_id";
      domain_id ← table_getitem INTEL_NM_DOMAINS domain_id;
      Ok (Some (flags, VInt domain_id, VInt 0))
    else if eq_str scope "policy" then
      let flags := if truthy enable then "0x05" else "0x04" in
      domain_id ← getitem control_data "domain_id";
      domain_id ← table_getitem INTEL_NM_DOMAINS domain_id;
      policy_id ← getitem control_data "policy_id";
      Ok (Some (flags, VInt domain_id, policy_id))
    else Ok None in

  match bound with
  | Raise e => Ends (Raise e)
  | Ok None => UnboundLocalError "flags"
  | Ok (Some (flags, domain_id, policy_id)) =>
      Ends (let cmd := _append_to_command cmd (One flags) in
            h ← _hex domain_id;
            let cmd := _append_to_command cmd (One h) in
            h ← _hex policy_id;
            let cmd := _append_to_command cmd (One h) in
            Ok cmd)
  end
  end
  end.

Definition get_policy (data : gmap string pyval) : result (list string) :=
  let cmd := _create_command_head INTEL_NM_POLICY_GET in
  cmd ← _add_domain_policy_id cmd data;

  Ok cmd.

Definition remove_policy (data : gmap string pyval) : result (list string) :=
  let cmd := _create_command_head INTEL_NM_POLICY_SET in
  cmd ← _add_domain_policy_id cmd data;
  (* first 0 is remove policy, extra will be ignored *)
  let cmd := _append_to_command cmd (Many (replicate 12 "0x00")) in

  Ok cmd.

Definition get_policy_suspend (data : gmap string pyval) : result (list string) :=
  let cmd := _create_command_head INTEL_NM_SUSPEND_GET in
  cmd ← _add_domain_policy_id cmd data;

  Ok cmd.

Definition remove_policy_suspend (data : gmap string pyval) : result (list string) :=
  let cmd := _create_command_head INTEL_NM_SUSPEND_SET in
  cmd ← _add_domain_policy_id cmd data;
  (* remove suspend *)
  let cmd := _append_to_command cmd (One "0x00") in

  Ok cmd.

Definition get_version (data : pyval) : list string :=
  let cmd := _create_command_head INTEL_NM_VERSION_GET in

  cmd.

End Requests.

(** ** [ansible/deploy.py]: what the driver passes to the helpers *)

Module Driver.
Import Py Deploy.

Definition DEFAULT_PLAYBOOKS : gmap string string :=
  {[ "deploy" := "deploy.yaml"; "clean" := "clean.yaml" ]}.

(** The one exception that [_parse_ansible_driver_info] raises, with its
    message template and the keyword that fills it. *)
Inductive ironic_exception :=
| IronicException (message : string) (action : string).

Definition _parse_ansible_driver_info (node : node) (action : string)
    : ironic_exception + (pyval * pyval * pyval) :=
  let user := dict_get_default (driver_info node) "deploy_username" (VStr "ansible") in
  let key := dict_get (driver_info node) "deploy_key_file" in
  let default_playbook := match DEFAULT_PLAYBOOKS !! action with
                          | Some playbook => VStr playbook
                          | None => VNone
                          end in
  let playbook :=
    dict_get_default (driver_info node) (action +:+ "_playbook") default_playbook in
  if negb (truthy playbook) then
    inl (IronicException "Failed to set ansible playbook for action %(action)s" action)
  else inr (playbook, user, key).

Section driver.

(** The configuration and the file system, as for [_get_clean_steps], and
    the option [CONF.deploy.erase_devices_priority]: an integer, or [None]
    when it is not set. *)
Variable CONF : conf.
Variable load_yaml : string → result pyval.
Variable erase_devices_priority : pyval.

(** [AnsibleDeploy.get_clean_steps]. *)
Definition get_clean_steps (task : task) : result (list pyval) :=
  let new_priorities : gmap string pyval :=
    {[ "erase_devices" := erase_devices_priority ]} in
  _get_clean_steps CONF load_yaml task (Some "deploy") (Some new_priorities).

End driver.

End Driver.

(** * Notions used in the statements *)

Import Py NM Deploy.

(** ** Results and failures *)

(** [only P r]: if [r] raises, the exception satisfies [P]. *)
Definition only {A} (P : exn → Prop) (r : result A) : Prop :=
  match r with
  | Ok _ => True
  | Raise e => P e
  end.

(** The exceptions a parser body can raise. *)
Definition raw_fault (e : exn) : Prop :=
  e = IndexError ∨ e = StructError ∨ e = KeyError ∨ e = ValueError.

(** How the wrapped parser answers for a given answer of its body: a
    value is returned as it is, each of the four raw faults becomes the
    [IPMIFailure] of its cause, and the body raises nothing else. *)
Definition classified {A} (body wrapped : result A) : Prop :=
  match body with
  | Ok a => wrapped = Ok a
  | Raise IndexError | Raise StructError =>
      wrapped = Raise (IPMIFailure msg_wrong_length)
  | Raise KeyError => wrapped = Raise (IPMIFailure msg_corrupted)
  | Raise ValueError => wrapped = Raise (IPMIFailure msg_cannot_convert)
  | Raise _ => False
  end.

(** A capabilities response of full length with zero fields and a given
    last byte, for the examples. *)
Definition capabilities_response (last : string) : list string :=
  (["0x57"; "0x01"; "0x00"; "0x10"] ++ replicate 16 "0x00" ++ [last])%list.

(** ** Nodes and tasks of the examples *)

(** The configuration and the task of the examples: an extra memory of 10,
    an image source whose size the image service gives. *)
Definition example_conf : conf :=
  {| ansible_extra_memory := 10; ansible_playbooks_path := "/etc/playbooks";
     pxe_default_ephemeral_format := "ext4"; tempdir := "/tmp" |}.

Definition example_task (instance_info : gmap string pyval) : task :=
  {| task_node := {| uuid := "1be26c0b-03f2-4d2e-ae87-c02d7f33c123";
                     instance_info := instance_info;
                     driver_info := ∅ |};
     context := VNone |}.

(** The bytes of the prefix 5701000d01 of a Node Manager discovery record. *)
Definition NM_PREFIX : list byte := [x57; x01; x00; x0d; x01].

(** ** Partition plans *)

(** The plan the sizes call for: root, then swap and ephemeral when their
    size is not zero. *)
Definition partition_plan (root_gb swap_mb ephemeral_gb : Z) : list pyval :=
  (partition "root" (VInt (1024 * root_gb)) "yes" "no" ::
   (if swap_mb =? 0 then [] else [partition "swap" (VInt swap_mb) "no" "yes"]) ++
   (if ephemeral_gb =? 0 then []
    else [partition "ephemeral" (VInt (1024 * ephemeral_gb)) "no" "no"]))%list.

(** The failure for a missing [root_gb]. *)
Definition root_gb_missing : exn :=
  MissingParameterValue "'root_gb' is missing in node's instance_info" ["root_gb"].

(** The node of [example_task]. *)
Definition example_node (instance_info : gmap string pyval) : node :=
  task_node (example_task instance_info).

(** ** Entries of a clean-steps file *)

(** [override_priorities or {}]. *)
Definition override_of (override_priorities : option (gmap string pyval))
    : gmap string pyval :=
  match override_priorities with
  | Some o => if truthy (VDict o) then o else ∅
  | None => ∅
  end.

(** The entry is skipped by the interface filter. *)
Definition filtered_out (interface : option string) (clean_if : pyval) : bool :=
  match interface with
  | Some i => negb (eq_str clean_if i)
  | None => false
  end.

(** The name of the entry can be looked up in a dict. *)
Definition name_hashable (params : gmap string pyval) : bool :=
  match dict_get params "name" with
  | VList _ | VDict _ => false
  | _ => true
  end.

(** The entry makes the loop look up a key it does not have: it has no
    [interface], or it passes the filter, has no override priority for its
    name and has no [priority]. *)
Definition lacks_required_key (interface : option string)
    (override : gmap string pyval) (params : gmap string pyval) : bool :=
  match params !! "interface" with
  | None => true
  | Some clean_if =>
      if filtered_out interface clean_if then false
      else match override_get override (dict_get params "name") with
           | Ok VNone => match params !! "priority" with None => true | Some _ => false end
           | _ => false
           end
  end.

(** The step made from an entry that has its keys, if it is not skipped. *)
Definition clean_step_of (interface : option string)
    (override : gmap string pyval) (params : gmap string pyval) : option pyval :=
  let name := dict_get params "name" in
  let clean_if := dict_get params "interface" in
  if filtered_out interface clean_if then None
  else
    let priority := match override_get override name with
                    | Ok VNone | Raise _ => dict_get params "priority"
                    | Ok new_priority => new_priority
                    end in
    Some (VDict {[ "step" := name; "priority" := priority;
                   "abortable" := dict_get_default params "abortable" (VBool false);
                   "argsinfo" := dict_get params "argsinfo";
                   "interface" := clean_if;
                   "tags" := dict_get_default params "tags" (VList []) ]}).

(** The exceptions the loop over the entries can raise. *)
Definition entry_fault (e : exn) : Prop :=
  e = KeyError ∨ e = TypeError ∨ e = AttributeError.

(** A file system with one clean-steps file. *)
Definition load_example (internal_steps : pyval) (path : string) : result pyval :=
  if String.eqb path "/etc/playbooks/clean_steps.yaml" then Ok internal_steps
  else Raise IOError.

(** ** The two parts of [set_policy] *)

(** The statements of [set_policy] that store the defaults into the dict. *)
Definition apply_defaults : policyM unit :=
  has ← contains "cpu_power_correction";
  (if negb has then setitem "cpu_power_correction" (VStr "auto") else mret tt);;
  has ← contains "storage";
  (if negb has then setitem "storage" (VStr "persistent") else mret tt);;
  trigger ← subscript "policy_trigger";
  (if eq_str trigger "none" || eq_str trigger "boot"
   then setitem "trigger_limit" (VInt 0) else mret tt).

(** The dict that [apply_defaults] leaves. *)
Definition with_defaults (policy : gmap string pyval) : gmap string pyval :=
  let policy := match policy !! "cpu_power_correction" with
                | Some _ => policy
                | None => <["cpu_power_correction" := VStr "auto"]> policy
                end in
  let policy := match policy !! "storage" with
                | Some _ => policy
                | None => <["storage" := VStr "persistent"]> policy
                end in
  match policy !! "policy_trigger" with
  | Some trigger =>
      if eq_str trigger "none" || eq_str trigger "boot"
      then <["trigger_limit" := VInt 0]> policy else policy
  | None => policy
  end.

(** A computation that leaves the dict as it finds it. *)
Definition reads {A} (m : policyM A) : Prop := ∀ policy, (m policy).2 = policy.

(** The statements of [set_policy] after the defaults. *)
Definition build_command : policyM (list string) :=
  let cmd := _create_command_head INTEL_NM_POLICY_SET in
  enable ← subscript "enable";
  byte0 ← (if truthy enable then
             domain_id ← subscript "domain_id";
             domain ← lift (table_getitem INTEL_NM_DOMAINS domain_id);
             mret (Z.lor domain 0x10)
           else mret 0x00);
  h ← lift (_hex (VInt byte0));
  let cmd := _append_to_command cmd (One h) in
  policy_id ← subscript "policy_id";
  h ← lift (_hex policy_id);
  let cmd := _append_to_command cmd (One h) in
  trigger ← subscript "policy_trigger";
  trigger ← lift (table_getitem INTEL_NM_TRIGGERS trigger);
  correction ← subscript "cpu_power_correction";
  correction ← lift (table_getitem INTEL_NM_CPU_CORRECTION correction);
  storage ← subscript "storage";
  storage ← lift (table_getitem INTEL_NM_STORAGE storage);
  h ← lift (_hex (VInt (Z.lor (Z.lor (Z.lor trigger correction) storage) 0x10)));
  let cmd := _append_to_command cmd (One h) in
  action ← subscript "action";
  action ← lift (table_getitem INTEL_NM_ACTIONS action);
  power_domain ← subscript "power_domain";
  power_domain ← lift (table_getitem INTEL_NM_POWER_DOMAIN power_domain);
  h ← lift (_hex (VInt (Z.lor action power_domain)));
  let cmd := _append_to_command cmd (One h) in
  target_limit ← subscript "target_limit";
  limit ← match isinstance_int target_limit with
          | Some _ => mret target_limit
          | None =>
              target_limit ← subscript "target_limit";
              boot_mode ← lift (val_getitem target_limit "boot_mode");
              let mode := if eq_str boot_mode "power" then 0x00 else 0x01 in
              target_limit ← subscript "target_limit";
              cores ← lift (val_getitem target_limit "cores_disabled");
              match isinstance_int cores with
              | Some c =>
                  let cores_disabled := Z.shiftl c 1 in
                  mret (VInt (Z.lor mode cores_disabled))
              | None => lift (Raise TypeError)
              end
          end;
  correction_time ← subscript "correction_time";
  trigger_limit ← subscript "trigger_limit";
  reporting_period ← subscript "reporting_period";
  policy_values ← lift (struct_pack [2; 4; 2; 2]%nat
                          [limit; correction_time; trigger_limit; reporting_period]);
  let cmd := _append_to_command cmd (Many (_hexarray policy_values)) in
  mret cmd.

(** A disabled policy on the cpu domain, without the optional keys. *)
Definition example_policy (enable : bool) : gmap string pyval :=
  {[ "domain_id" := VStr "cpu"; "policy_id" := VInt 10; "enable" := VBool enable;
     "policy_trigger" := VStr "none"; "action" := VStr "alert";
     "power_domain" := VStr "primary"; "target_limit" := VInt 100;
     "correction_time" := VInt 2000; "trigger_limit" := VInt 7;
     "reporting_period" := VInt 5 ]}.

(** ** Policies as typed records *)

(** The number a byte stands for. *)
Definition byte_value (b : byte) : Z := Z.of_N (Byte.to_N b).

(** A policy as a record of typed fields; [cpu_power_correction] and
    [storage] are the values in force, given or default. *)
Record policy_fields := {
  p_domain_id : string;
  p_policy_id : Z;
  p_enable : bool;
  p_policy_trigger : string;
  p_cpu_power_correction : string;
  p_storage : string;
  p_action : string;
  p_power_domain : string;
  p_target_limit : Z;
  p_correction_time : Z;
  p_trigger_limit : Z;
  p_reporting_period : Z
}.

(** The dict [policy] holds the fields [f]. *)
Record holds (policy : gmap string pyval) (f : policy_fields) : Prop := {
  h_domain_id : policy !! "domain_id" = Some (VStr (p_domain_id f));
  h_policy_id : policy !! "policy_id" = Some (VInt (p_policy_id f));
  h_enable : policy !! "enable" = Some (VBool (p_enable f));
  h_policy_trigger : policy !! "policy_trigger" = Some (VStr (p_policy_trigger f));
  h_cpu_power_correction :
    default (VStr "auto") (policy !! "cpu_power_correction")
    = VStr (p_cpu_power_correction f);
  h_storage :
    default (VStr "persistent") (policy !! "storage") = VStr (p_storage f);
  h_action : policy !! "action" = Some (VStr (p_action f));
  h_power_domain : policy !! "power_domain" = Some (VStr (p_power_domain f));
  h_target_limit : policy !! "target_limit" = Some (VInt (p_target_limit f));
  h_correction_time : policy !! "correction_time" = Some (VInt (p_correction_time f));
  h_trigger_limit : policy !! "trigger_limit" = Some (VInt (p_trigger_limit f));
  h_reporting_period :
    policy !! "reporting_period" = Some (VInt (p_reporting_period f))
}.

(** The names are in the tables and the numbers fit their packed fields. *)
Record valid (f : policy_fields) : Prop := {
  v_domain_id : is_Some (INTEL_NM_DOMAINS !! p_domain_id f);
  v_policy_trigger : is_Some (INTEL_NM_TRIGGERS !! p_policy_trigger f);
  v_cpu_power_correction : is_Some (INTEL_NM_CPU_CORRECTION !! p_cpu_power_correction f);
  v_storage : is_Some (INTEL_NM_STORAGE !! p_storage f);
  v_action : is_Some (INTEL_NM_ACTIONS !! p_action f);
  v_power_domain : is_Some (INTEL_NM_POWER_DOMAIN !! p_power_domain f);
  v_target_limit : 0 ≤ p_target_limit f < 2 ^ 16;
  v_correction_time : 0 ≤ p_correction_time f < 2 ^ 32;
  v_trigger_limit : 0 ≤ p_trigger_limit f < 2 ^ 16;
  v_reporting_period : 0 ≤ p_reporting_period f < 2 ^ 16
}.

(** The trigger limit that is sent: 0 for the triggers none and boot. *)
Definition sent_trigger_limit (f : policy_fields) : Z :=
  if String.eqb (p_policy_trigger f) "none" || String.eqb (p_policy_trigger f) "boot"
  then 0 else p_trigger_limit f.

(** The code of a name in a table (0 for a name that is not in it). *)
Definition code (table : gmap string Z) (name : string) : Z :=
  default 0 (table !! name).

(** The packed values of a policy. *)
Definition packed_values (f : policy_fields) : list byte :=
  (le_bytes 2 (p_target_limit f) ++ le_bytes 4 (p_correction_time f) ++
   le_bytes 2 (sent_trigger_limit f) ++ le_bytes 2 (p_reporting_period f))%list.

(** The three bytes of flags and codes as [set_policy] computes them: the
    first is the domain code with bit 0x10 when the policy is enabled, and
    zero when it is not. *)
Definition first_byte (f : policy_fields) : Z :=
  if p_enable f then Z.lor (code INTEL_NM_DOMAINS (p_domain_id f)) 0x10 else 0x00.

Definition trigger_byte_of (f : policy_fields) : Z :=
  Z.lor (Z.lor (Z.lor (code INTEL_NM_TRIGGERS (p_policy_trigger f))
                      (code INTEL_NM_CPU_CORRECTION (p_cpu_power_correction f)))
               (code INTEL_NM_STORAGE (p_storage f))) 0x10.

Definition action_byte_of (f : policy_fields) : Z :=
  Z.lor (code INTEL_NM_ACTIONS (p_action f))
        (code INTEL_NM_POWER_DOMAIN (p_power_domain f)).

(** The command of a policy. *)
Definition command_of (f : policy_fields) : list string :=
  (["0x2E"; "0xC1"; "0x57"; "0x01"; "0x00";
    "0x" +:+ format_02X (first_byte f);
    "0x" +:+ format_02X (p_policy_id f);
    "0x" +:+ format_02X (trigger_byte_of f);
    "0x" +:+ format_02X (action_byte_of f)] ++ _hexarray (packed_values f))%list.

(** The response to "get policy" for the policy that a "set policy"
    command installs: the manufacturer id, the byte of the domain and
    flags, then the bytes that follow the policy id. *)
Definition policy_response (cmd : list string) : list string :=
  (INTEL_NM_ID ++ take 1 (drop 5 cmd) ++ drop 7 cmd)%list.

(** The fields of [example_policy true]. *)
Definition example_fields : policy_fields :=
  {| p_domain_id := "cpu"; p_policy_id := 10; p_enable := true;
     p_policy_trigger := "none"; p_cpu_power_correction := "auto";
     p_storage := "persistent"; p_action := "alert"; p_power_domain := "primary";
     p_target_limit := 100; p_correction_time := 2000; p_trigger_limit := 7;
     p_reporting_period := 5 |}.

(** ** Days and reverse tables *)

Import Requests Driver.

(** A day is a key of the table of days. *)
Definition known_day (d : string) : Prop := d ∈ INTEL_NM_DAYS.*1.

(** No value of the dict occurs under two keys. *)
Definition no_repeated_value (d : gmap string Z) : Prop := NoDup (map_to_list d).*2.

(** ** Calls that return *)

Definition returns {A} (r : result A) : bool :=
  match r with Ok _ => true | Raise _ => false end.

(** ** Suspend periods as typed records *)

Record suspend_period := {
  s_start : Z;
  s_stop : Z;
  s_days : list string
}.

(** The dict of a period, as [set_policy_suspend] takes it. *)
Definition period_dict (p : suspend_period) : pyval :=
  VDict {[ "start" := VInt (s_start p); "stop" := VInt (s_stop p);
           "days" := VList (VStr <$> s_days p) ]}.

(** The dict of a period, as [parse_policy_suspend] gives it: the days are
    those of the table that the period names, in table order. *)
Definition parsed_period (p : suspend_period) : gmap string pyval :=
  {[ "start" := VInt (s_start p); "stop" := VInt (s_stop p);
     "days" := VList (VStr <$> List.filter (λ d, bool_decide (d ∈ s_days p))
                                           (INTEL_NM_DAYS.*1)) ]}.

(** The times are not negative and the days are in the table. *)
Definition valid_period (p : suspend_period) : Prop :=
  0 ≤ s_start p ∧ 0 ≤ s_stop p ∧ Forall known_day (s_days p).

(** The response to "get policy suspend" for the periods that a "set policy
    suspend" command installs: the manufacturer id, then the number of
    periods and the periods, which follow the policy id in the command. *)
Definition suspend_response (cmd : list string) : list string :=
  (INTEL_NM_ID ++ drop 7 cmd)%list.

(** The pattern of a list of days of the table. *)
Definition days_pattern (days : list string) : Z :=
  match _days_compose days with Ok pattern => pattern | Raise _ => 0 end.

(** The three numbers sent for a period, and the text of a number. *)
Definition period_numbers (p : suspend_period) : list Z :=
  [s_start p; s_stop p; days_pattern (s_days p)].

Definition hex_text (n : Z) : string := "0x" +:+ format_02X n.

(** Two suspend periods: working hours on monday and friday, given out of
    order, and most of sunday. *)
Definition example_periods : list suspend_period :=
  [ {| s_start := 8; s_stop := 18; s_days := ["friday"; "monday"] |};
    {| s_start := 0; s_stop := 240; s_days := ["sunday"] |} ].

Definition example_suspend : gmap string pyval :=
  {[ "domain_id" := VStr "cpu"; "policy_id" := VInt 10;
     "periods" := VList (period_dict <$> example_periods) ]}.

(** ** Requests *)

(** The keys that [control_policies] reads for a scope. *)
Definition scope_reads (scope : pyval) : list string :=
  if eq_str scope "domain" then ["enable"; "scope"; "domain_id"]
  else if eq_str scope "policy" then ["enable"; "scope"; "domain_id"; "policy_id"]
  else ["enable"; "scope"].

(** The number of a scope in the flags of a control request. *)
Definition scope_code (scope : string) : Z :=
  if String.eqb scope "global" then 0
  else if String.eqb scope "domain" then 1
  else 2.

(** A request to disable the policies of the memory domain, and a
    capabilities request. *)
Definition example_control : gmap string pyval :=
  {[ "enable" := VInt 0; "scope" := VStr "domain"; "domain_id" := VStr "memory" ]}.

Definition example_capabilities : gmap string pyval :=
  {[ "domain_id" := VStr "cpu"; "policy_trigger" := VStr "power";
     "power_domain" := VStr "secondary" ]}.

(** ** Clean steps that are returned *)

(** A step that [_get_clean_steps] makes for an interface and override
    priorities: a dict of the six keys of a step, whose interface is the one
    asked for, if one is, and whose priority is the override priority of its
    name, if there is one that is not [None]. *)
Definition made_for (interface : option string) (override : gmap string pyval)
    (step : pyval) : Prop :=
  ∃ d, step = VDict d ∧
       dom d = list_to_set ["step"; "priority"; "abortable"; "argsinfo";
                            "interface"; "tags"] ∧
       (∀ i, interface = Some i → d !! "interface" = Some (VStr i)) ∧
       (∀ name v, d !! "step" = Some (VStr name) → override !! name = Some v →
                  v ≠ VNone → d !! "priority" = Some v).

(** A clean-steps file of two entries, one of the deploy interface. *)
Definition example_steps : pyval :=
  VList [ VDict {[ "name" := VStr "erase_devices"; "interface" := VStr "deploy";
                   "priority" := VInt 10 ]};
          VDict {[ "name" := VStr "update_firmware"; "interface" := VStr "management";
                   "priority" := VInt 20 ]} ].

(** * Properties *)

(** ** Results and exceptions *)

Lemma only_bind {A B} (P : exn → Prop) (m : result A) (f : A → result B) :
  only P m → (∀ a, m = Ok a → only P (f a)) → only P (m ≫= f).
Proof.
  destruct m as [a|e]; simpl; intros Hm Hf; [by apply Hf | done].
Qed.

Lemma only_weaken {A} (P Q : exn → Prop) (r : result A) :
  (∀ e, P e → Q e) → only P r → only Q r.
Proof. destruct r; simpl; auto. Qed.

Lemma only_index {A} (l : list A) i : only (λ e, e = IndexError) (index l i).
Proof. unfold index. by destruct (l !! i). Qed.

Lemma only_getitem `{Countable K} {V} (d : gmap K V) k :
  only (λ e, e = KeyError) (getitem d k).
Proof. unfold getitem. by destruct (d !! k). Qed.

Lemma only_int_literal base s : only (λ e, e = ValueError) (int_literal base s).
Proof.
  unfold int_literal.
  repeat (case_match; simpl; try done).
Qed.

Lemma only_bytearray l : only (λ e, e = ValueError) (bytearray l).
Proof.
  induction l as [|z l IH]; simpl; [done|].
  repeat (case_match; simpl; try done).
  apply only_bind; [done | by intros].
Qed.

Lemma only_struct_unpack fmt bs : only (λ e, e = StructError) (struct_unpack fmt bs).
Proof. unfold struct_unpack. by case_match. Qed.

(** ** Days of the week *)

Section days.

(** The flags of the table are distinct single bits. *)
Lemma days_flags_disjoint d1 f1 d2 f2 :
  In (d1, f1) INTEL_NM_DAYS → In (d2, f2) INTEL_NM_DAYS →
  Z.land f1 f2 ≠ 0 ↔ d1 = d2.
Proof.
  unfold INTEL_NM_DAYS. simpl.
  intros H1 H2.
  repeat (destruct H1 as [H1|H1]; [injection H1 as <- <- | ]); try done;
  repeat (destruct H2 as [H2|H2]; [injection H2 as <- <- | ]); try done;
  by vm_compute.
Qed.

Lemma days_getitem_In d f :
  In (d, f) INTEL_NM_DAYS → ordered_getitem INTEL_NM_DAYS d = Ok f.
Proof.
  unfold INTEL_NM_DAYS. simpl.
  intros H.
  repeat (destruct H as [H|H]; [injection H as <- <-; reflexivity | ]).
  done.
Qed.

Lemma days_compose_from_lor days flags :
  Forall2 (λ d f, In (d, f) INTEL_NM_DAYS) days flags →
  ∀ pattern, _days_compose_from pattern days = Ok (fold_left Z.lor flags pattern).
Proof.
  induction 1 as [|d f days flags Hd _ IH]; intros pattern;
    cbn [_days_compose_from fold_left]; [done|].
  rewrite (days_getitem_In _ _ Hd). apply IH.
Qed.

Lemma fold_left_lor_land flags : ∀ pattern f,
  Z.land (fold_left Z.lor flags pattern) f ≠ 0 ↔
  Z.land pattern f ≠ 0 ∨ Exists (λ f', Z.land f' f ≠ 0) flags.
Proof.
  induction flags as [|g flags IH]; intros pattern f; simpl.
  - rewrite Exists_nil. tauto.
  - rewrite IH, Exists_cons, Z.land_lor_distr_l, Z.lor_eq_0_iff.
    destruct (Z.eq_dec (Z.land pattern f) 0), (Z.eq_dec (Z.land g f) 0); tauto.
Qed.

Lemma days_compose_selects days flags d f :
  Forall2 (λ d f, In (d, f) INTEL_NM_DAYS) days flags →
  In (d, f) INTEL_NM_DAYS →
  Z.land (fold_left Z.lor flags 0) f ≠ 0 ↔ In d days.
Proof.
  intros HF Hd. rewrite fold_left_lor_land, Z.land_0_l.
  induction HF as [|d' f' days flags Hd' _ IH]; simpl.
  - rewrite Exists_nil. tauto.
  - rewrite Exists_cons, (days_flags_disjoint _ _ _ _ Hd' Hd). tauto.
Qed.

Lemma day_selected_flag pattern d f :
  In (d, f) INTEL_NM_DAYS →
  day_selected pattern d = negb (Z.land pattern f =? 0).
Proof.
  intros Hd. unfold day_selected. by rewrite (days_getitem_In _ _ Hd).
Qed.

Lemma days_parse_by_flag pattern :
  _days_parse pattern =
  (List.filter (λ kv, negb (Z.land pattern kv.2 =? 0)) INTEL_NM_DAYS).*1.
Proof.
  unfold _days_parse, day_selected. simpl.
  repeat (destruct (Z.land pattern _ =? 0); simpl); reflexivity.
Qed.

(** C7. The bitmask of a list of days is the bitwise OR of their flags
    (monday and friday give 0x11); decomposing any bitmask gives the days
    of the table whose flag is set, in table order; so decomposing the
    bitmask of a list of days gives the days of the table that are in the
    list, in table order, whatever the order of the list. *)
Theorem days_compose_parse :
  _days_compose ["monday"; "friday"] = Ok 0x11 ∧
  _days_parse 0x11 = ["monday"; "friday"] ∧
  (∀ pattern,
     _days_parse pattern =
     (List.filter (λ kv, negb (Z.land pattern kv.2 =? 0)) INTEL_NM_DAYS).*1) ∧
  (∀ days flags,
     Forall2 (λ d f, In (d, f) INTEL_NM_DAYS) days flags →
     _days_compose days = Ok (fold_left Z.lor flags 0) ∧
     _days_parse (fold_left Z.lor flags 0) =
       List.filter (λ d, bool_decide (d ∈ days)) (INTEL_NM_DAYS.*1)).
Proof.
  split; [reflexivity|]. split; [reflexivity|].
  split; [apply days_parse_by_flag|].
  intros days flags HF. split.
  - by apply days_compose_from_lor.
  - unfold _days_parse. apply List.filter_ext_in.
    intros d Hd. apply in_map_iff in Hd as [[d' f] [<- Hd]]. simpl.
    rewrite (day_selected_flag _ _ _ Hd).
    pose proof (days_compose_selects _ _ _ _ HF Hd) as Hsel.
    destruct (Z.eqb_spec (Z.land (fold_left Z.lor flags 0) f) 0) as [E|E]; simpl.
    + symmetry. apply bool_decide_eq_false. rewrite list_elem_of_In. tauto.
    + symmetry. apply bool_decide_eq_true. rewrite list_elem_of_In. tauto.
Qed.

Lemma days_compose_parse_witness :
  _days_compose ["sunday"; "monday"; "sunday"] = Ok 0x41 ∧
  _days_parse 0x41 = ["monday"; "sunday"].
Proof.
  destruct days_compose_parse as (_ & _ & _ & H).
  destruct (H ["sunday"; "monday"; "sunday"] [0x40; 0x01; 0x40]) as [H1 H2].
  - repeat constructor; simpl; tauto.
  - split; [exact H1 | exact H2].
Defined.

End days.

(** ** Decoding failures *)

Section parsing_errors.

Lemma handle_parsing_error_classified {A} (func : list string → result A) raw_data :
  only raw_fault (func raw_data) →
  classified (func raw_data) (_handle_parsing_error func raw_data).
Proof.
  unfold _handle_parsing_error, try_except, classified, only, raw_fault.
  destruct (func raw_data) as [a|e]; [done|].
  intros [->|[->|[->| ->]]]; reflexivity.
Qed.

Lemma only_raw_to_int raw_data : only (λ e, e = ValueError) (_raw_to_int raw_data).
Proof.
  induction raw_data as [|x rest IH]; simpl; [done|].
  apply only_bind; [apply only_int_literal|]. intros n _.
  apply only_bind; [done | by intros].
Qed.

Ltac raw_fault_step :=
  first
    [ apply only_bind;
      [ first
          [ eapply only_weaken; [|apply only_raw_to_int]; intros ? ->; unfold raw_fault; tauto
          | eapply only_weaken; [|apply only_index]; intros ? ->; unfold raw_fault; tauto
          | eapply only_weaken; [|apply only_getitem]; intros ? ->; unfold raw_fault; tauto
          | eapply only_weaken; [|apply only_bytearray]; intros ? ->; unfold raw_fault; tauto
          | eapply only_weaken; [|apply only_struct_unpack]; intros ? ->; unfold raw_fault; tauto ]
      | intros ? _ ]
    | exact I ].

Lemma parse_policy_body_faults raw_data : only raw_fault (parse_policy_body raw_data).
Proof. unfold parse_policy_body. repeat raw_fault_step. Qed.

Lemma parse_policy_suspend_loop_faults raw_int nums : ∀ suspends,
  only raw_fault (parse_policy_suspend_loop raw_int nums suspends).
Proof.
  induction nums as [|num rest IH]; intros suspends; simpl; [done|].
  repeat raw_fault_step. apply IH.
Qed.

Lemma parse_policy_suspend_body_faults raw_data :
  only raw_fault (parse_policy_suspend_body raw_data).
Proof.
  unfold parse_policy_suspend_body. repeat raw_fault_step.
  apply parse_policy_suspend_loop_faults.
Qed.

Lemma parse_capabilities_body_faults raw_data :
  only raw_fault (parse_capabilities_body raw_data).
Proof. unfold parse_capabilities_body. repeat raw_fault_step. Qed.

Lemma parse_version_body_faults raw_data : only raw_fault (parse_version_body raw_data).
Proof. unfold parse_version_body. repeat raw_fault_step. Qed.

(** C3. Each wrapped parser returns what its body returns, and reports
    every failure of the body as an [IPMIFailure] naming its cause: an
    [IndexError] or [struct.error] as wrong length, a [KeyError] as
    corrupted, a [ValueError] as cannot be converted; the body raises
    nothing else, so no raw fault gets out. For [parse_capabilities]: a
    truncated response has wrong length, a domain nibble without table
    entry is corrupted, a byte that is no hexadecimal literal cannot be
    converted. *)
Theorem parse_failures_classified :
  (∀ raw_data, classified (parse_policy_body raw_data) (parse_policy raw_data)) ∧
  (∀ raw_data,
     classified (parse_policy_suspend_body raw_data) (parse_policy_suspend raw_data)) ∧
  (∀ raw_data,
     classified (parse_capabilities_body raw_data) (parse_capabilities raw_data)) ∧
  (∀ raw_data, classified (parse_version_body raw_data) (parse_version raw_data)) ∧
  parse_capabilities (take 12 (capabilities_response "0x01"))
    = Raise (IPMIFailure msg_wrong_length) ∧
  parse_capabilities (capabilities_response "0x0F")
    = Raise (IPMIFailure msg_corrupted) ∧
  parse_capabilities (capabilities_response "0xZZ")
    = Raise (IPMIFailure msg_cannot_convert) ∧
  (λ capabilities : gmap string pyval,
     (capabilities !! "domain_id", capabilities !! "power_domain"))
    <$> parse_capabilities (capabilities_response "0x81")
    = Ok (Some (VStr "cpu"), Some (VStr "secondary")).
Proof.
  split; [intros; apply handle_parsing_error_classified, parse_policy_body_faults|].
  split; [intros; apply handle_parsing_error_classified, parse_policy_suspend_body_faults|].
  split; [intros; apply handle_parsing_error_classified, parse_capabilities_body_faults|].
  split; [intros; apply handle_parsing_error_classified, parse_version_body_faults|].
  split; [by vm_compute|]. split; [by vm_compute|]. split; [by vm_compute|].
  by vm_compute.
Qed.

End parsing_errors.

(** ** Memory requirement *)

Section memory.

Lemma round53_small n : Z.abs n < 2 ^ 53 → round53 n = n.
Proof.
  intros Hn. unfold round53.
  assert (Z.log2 (Z.abs n) - 52 ≤ 0) as Hk.
  { destruct (Z.eq_dec (Z.abs n) 0) as [->|Hz]; [done|].
    assert (Z.log2 (Z.abs n) < 53); [|lia].
    apply Z.log2_lt_pow2; lia. }
  apply Z.leb_le in Hk. by rewrite Hk.
Qed.

Lemma int_div_Mi_floor PY3 n :
  (PY3 = true → 0 ≤ n < 2 ^ 53) → int_div_Mi PY3 n = Ok (n / 2 ^ 20).
Proof.
  intros Hn. unfold int_div_Mi, Mi. destruct PY3; [|done].
  destruct (Hn eq_refl) as [H0 H53].
  rewrite round53_small by lia.
  rewrite Z.quot_div_nonneg by lia.
  assert (0 ≤ n / 2 ^ 20 < 2 ^ 53) as Hq.
  { split; [apply Z.div_pos; lia|].
    apply Z.div_lt_upper_bound; lia. }
  assert (2 ^ 53 < 2 ^ 1024) as Hbig by (apply Z.pow_lt_mono_r; lia).
  assert (Z.abs (n / 2 ^ 20) < 2 ^ 1024) as Hlt by lia.
  apply Z.ltb_lt in Hlt. by rewrite Hlt.
Qed.

(** C8, as the code has it. The memory requirement is
    [floor(image_size / 2^20)] plus the configured extra memory, for every
    size under Python 2 and for the sizes from 0 to below 2^53 under
    Python 3, where the quotient is a float. *)
Theorem calculate_memory_req_formula CONF PY3 download_size task image_source image_size :
  instance_info (task_node task) !! "image_source" = Some image_source →
  download_size (context task) image_source = Ok image_size →
  (PY3 = true → 0 ≤ image_size < 2 ^ 53) →
  _calculate_memory_req CONF PY3 download_size task
    = Ok (image_size / 2 ^ 20 + ansible_extra_memory CONF).
Proof.
  intros Hsrc Hsize Hrange. unfold _calculate_memory_req, getitem.
  rewrite Hsrc. simpl. rewrite Hsize. simpl.
  by rewrite (int_div_Mi_floor _ _ Hrange).
Qed.

(** An image of exactly 2 * 2^20 bytes and an extra memory of 10 give 12,
    on both interpreters. *)
Lemma calculate_memory_req_formula_witness :
  _calculate_memory_req example_conf false (λ _ _, Ok (2 * 2 ^ 20))
    (example_task {[ "image_source" := VStr "http://image" ]}) = Ok 12 ∧
  _calculate_memory_req example_conf true (λ _ _, Ok (2 * 2 ^ 20))
    (example_task {[ "image_source" := VStr "http://image" ]}) = Ok 12.
Proof.
  split.
  - apply (calculate_memory_req_formula example_conf false (λ _ _, Ok (2 * 2 ^ 20))
             (example_task {[ "image_source" := VStr "http://image" ]})
             (VStr "http://image") (2 * 2 ^ 20)).
    + reflexivity.
    + reflexivity.
    + discriminate.
  - apply (calculate_memory_req_formula example_conf true (λ _ _, Ok (2 * 2 ^ 20))
             (example_task {[ "image_source" := VStr "http://image" ]})
             (VStr "http://image") (2 * 2 ^ 20)).
    + reflexivity.
    + reflexivity.
    + intros _. vm_compute. split; [discriminate | reflexivity].
Defined.

(** C8 as stated fails under Python 3 for a size of 2^73 - 1 bytes: the
    float quotient is rounded up to 2^53, the floor is 2^53 - 1. *)
Lemma calculate_memory_req_py3_rounds :
  let image_size := 2 ^ 73 - 1 in
  _calculate_memory_req example_conf true (λ _ _, Ok image_size)
    (example_task {[ "image_source" := VStr "http://image" ]})
    = Ok (2 ^ 53 + 10) ∧
  image_size / 2 ^ 20 + ansible_extra_memory example_conf = 2 ^ 53 - 1 + 10.
Proof. split; by vm_compute. Qed.

End memory.

(** ** Slave address and channel number *)

Section slave_and_channel.

Lemma get_substring s : ∀ n m k,
  (k < m)%nat → String.get k (String.substring n m s) = String.get (n + k) s.
Proof.
  induction s as [|c s IH]; intros n m k Hk.
  - destruct n, m; simpl; by destruct k.
  - destruct n as [|n]; simpl.
    + destruct m as [|m]; [lia|]. destruct k as [|k]; simpl; [done|].
      rewrite IH by lia. done.
    + apply IH, Hk.
Qed.

Lemma substring_substring s : ∀ n m k,
  (k ≤ m)%nat → String.substring 0 k (String.substring n m s) = String.substring n k s.
Proof.
  induction s as [|c s IH]; intros n m k Hk.
  - destruct n, m, k; reflexivity.
  - destruct n as [|n]; simpl.
    + destruct k as [|k]; [by destruct m|].
      destruct m as [|m]; [lia|]. simpl. f_equal. apply IH. lia.
    + apply IH, Hk.
Qed.

Lemma get_app_skip s1 s2 k :
  String.get (String.length s1 + k) (s1 +:+ s2) = String.get k s2.
Proof. induction s1 as [|c s1 IH]; simpl; [done | apply IH]. Qed.

Lemma substring_app_skip s1 s2 n m :
  String.substring (String.length s1 + n) m (s1 +:+ s2) = String.substring n m s2.
Proof. induction s1 as [|c s1 IH]; simpl; [done | apply IH]. Qed.

Lemma hexlify_app a b : hexlify (a ++ b) = hexlify a +:+ hexlify b.
Proof.
  induction a as [|x a IH]; simpl; [done|].
  by rewrite IH.
Qed.

Lemma hexlify_length a : String.length (hexlify a) = (2 * length a)%nat.
Proof.
  induction a as [|x a IH]; [done|].
  change (String.length (hexlify (x :: a))) with (S (S (String.length (hexlify a)))).
  rewrite IH. simpl. lia.
Qed.

(** The function on a text in which the prefix is found at [i]. *)
Lemma parse_slave_and_channel_found PY3 content i c :
  String.index 0 "5701000d01" (hexlify content) = Some i →
  String.get (i + 12) (hexlify content) = Some c →
  parse_slave_and_channel PY3 content
    = Ok (Some ("0x" +:+ String.substring (i + 10) 2 (hexlify content),
                "0x0" +:+ String c "")).
Proof.
  intros Hi Hc. unfold parse_slave_and_channel, decode, find, slice, str_index.
  assert ((if PY3 then hexlify content else hexlify content) = hexlify content)
    as -> by by destruct PY3.
  rewrite Hi.
  assert ((Z.of_nat i =? -1) = false) as -> by (apply Z.eqb_neq; lia).
  simpl negb. cbv iota. rewrite Nat2Z.id.
  change (String.length "5701000d01") with 10%nat.
  replace (i + 10 + 4 - (i + 10))%nat with 4%nat by lia.
  rewrite get_substring by lia.
  replace (i + 10 + 2)%nat with (i + 12)%nat by lia.
  rewrite Hc. simpl.
  rewrite substring_substring by lia. done.
Qed.

(** C9, as the code has it. When the prefix does not occur in the
    hexadecimal text of the file, the call returns nothing and does not
    raise. When its first occurrence is followed by at least three
    hexadecimal digits, the call returns "0x" with the two digits after the
    occurrence and "0x0" with the third; for an occurrence at a byte
    boundary followed by two bytes these are the byte after the prefix and
    the high nibble of the next one, in lower-case digits: the prefix
    followed by 0xAB 0xCD gives "0xab" and "0x0c". *)
Theorem parse_slave_and_channel_spec PY3 :
  (∀ content,
     String.index 0 "5701000d01" (hexlify content) = None →
     parse_slave_and_channel PY3 content = Ok None) ∧
  (∀ content i c,
     String.index 0 "5701000d01" (hexlify content) = Some i →
     String.get (i + 12) (hexlify content) = Some c →
     parse_slave_and_channel PY3 content
       = Ok (Some ("0x" +:+ String.substring (i + 10) 2 (hexlify content),
                   "0x0" +:+ String c ""))) ∧
  (∀ before slave next rest,
     let content := (before ++ NM_PREFIX ++ slave :: next :: rest)%list in
     String.index 0 "5701000d01" (hexlify content) = Some (2 * length before)%nat →
     parse_slave_and_channel PY3 content
       = Ok (Some ("0x" +:+ hexlify_byte slave,
                   "0x0" +:+ String (hex_digit false (Z.of_N (Byte.to_N next) / 16)) ""))) ∧
  parse_slave_and_channel PY3 (NM_PREFIX ++ [xab; xcd]) = Ok (Some ("0xab", "0x0c")).
Proof.
  split; [|split; [|split]].
  - intros content Hi. unfold parse_slave_and_channel, decode, find.
    assert ((if PY3 then hexlify content else hexlify content) = hexlify content)
      as -> by by destruct PY3.
    by rewrite Hi.
  - intros content i c. apply parse_slave_and_channel_found.
  - intros before slave next rest content Hi.
    assert (hexlify content
            = hexlify before +:+
              ("5701000d01" +:+ hexlify_byte slave +:+ hexlify_byte next +:+ hexlify rest))
      as Htext.
    { unfold content. rewrite hexlify_app. reflexivity. }
    rewrite (parse_slave_and_channel_found PY3 content (2 * length before)
               (hex_digit false (Z.of_N (Byte.to_N next) / 16)) Hi).
    + rewrite Htext, <- hexlify_length, substring_app_skip. reflexivity.
    + rewrite Htext, <- hexlify_length, get_app_skip. reflexivity.
  - by destruct PY3.
Qed.

Lemma parse_slave_and_channel_spec_witness :
  parse_slave_and_channel true ([x20; x00] ++ NM_PREFIX ++ [x2c; x60; xff])
    = Ok (Some ("0x2c", "0x06")).
Proof.
  destruct (parse_slave_and_channel_spec true) as (_ & _ & H & _).
  apply (H [x20; x00] x2c x60 [xff]).
  reflexivity.
Defined.

(** C9 as stated fails on a file that ends one byte after the prefix:
    the call raises [IndexError] and returns no pair. *)
Lemma parse_slave_and_channel_truncated :
  String.index 0 "5701000d01" (hexlify (NM_PREFIX ++ [xab])) = Some 0%nat ∧
  parse_slave_and_channel true (NM_PREFIX ++ [xab]) = Raise IndexError ∧
  parse_slave_and_channel false (NM_PREFIX ++ [xab]) = Raise IndexError.
Proof. repeat split; reflexivity. Qed.

End slave_and_channel.

(** ** Partitioning information *)

Section partitioning.

Variable CONF : conf.
Variable urlparse_scheme : pyval → result string.

Lemma check_root_gb (root_gb : pyval) error_msg :
  check_for_missing_params (<["root_gb" := root_gb]> ∅) error_msg
  = if truthy root_gb then Ok tt
    else Raise (MissingParameterValue error_msg ["root_gb"]).
Proof.
  unfold check_for_missing_params.
  change (map_to_list (<["root_gb" := root_gb]> (∅ : gmap string pyval)))
    with [("root_gb", root_gb)].
  simpl. by destruct (truthy root_gb).
Qed.

Lemma parse_partitioning_info_missing node :
  truthy (dict_get (instance_info node) "root_gb") = false →
  _parse_partitioning_info CONF urlparse_scheme node = Raise root_gb_missing.
Proof.
  intros Hroot. unfold _parse_partitioning_info.
  by rewrite check_root_gb, Hroot.
Qed.

Lemma coerce_params_ok (root_gb swap_mb ephemeral_gb : pyval) r s e :
  int root_gb = Ok r → int swap_mb = Ok s → int ephemeral_gb = Ok e →
  coerce_params DISK_LAYOUT_PARAMS
    (<["ephemeral_gb" := ephemeral_gb]>
       (<["swap_mb" := swap_mb]> (<["root_gb" := root_gb]> ∅)))
  = Ok (<["ephemeral_gb" := VInt e]>
          (<["swap_mb" := VInt s]> (<["root_gb" := VInt r]> ∅))).
Proof.
  intros Hr Hs He. unfold DISK_LAYOUT_PARAMS. cbn [coerce_params].
  unfold getitem. simplify_map_eq. rewrite Hr. simpl.
  simplify_map_eq. rewrite Hs. simpl. simplify_map_eq. rewrite He. simpl.
  reflexivity.
Qed.

(** What the function computes once the three sizes are integers and
    [root_gb] is not empty. *)
Lemma parse_partitioning_info_eval node r s e :
  let info := instance_info node in
  int (dict_get info "root_gb") = Ok r →
  int (dict_get_default info "swap_mb" (VInt 0)) = Ok s →
  int (dict_get_default info "ephemeral_gb" (VInt 0)) = Ok e →
  truthy (dict_get info "root_gb") = true →
  _parse_partitioning_info CONF urlparse_scheme node =
    (i_info ←
       (if e =? 0 then
          Ok (if s =? 0
              then ({[ "swap_mb" := VInt s; "ephemeral_gb" := VInt e ]} : gmap string pyval)
              else {[ "ephemeral_gb" := VInt e ]})
        else
          b ← try_except
                 (bool_from_string (dict_get_default info "preserve_ephemeral" (VBool false)))
                 (λ ex, match ex with
                        | ValueError =>
                            Raise (InvalidParameterValue "preserve_ephemeral" (inr ex))
                        | _ => Raise ex
                        end);
          Ok (<["preserve_ephemeral" := VStr (if b : bool then "yes" else "no")]>
               (<["ephemeral_format" :=
                    if truthy (dict_get info "ephemeral_format")
                    then dict_get info "ephemeral_format"
                    else VStr (pxe_default_ephemeral_format CONF)]>
                  (if s =? 0 then ({[ "swap_mb" := VInt s ]} : gmap string pyval) else ∅))));
     let i_info := <["ironic_partitions" := VList (partition_plan r s e)]> i_info in
     if truthy (dict_get info "configdrive") then
       scheme ← urlparse_scheme (dict_get info "configdrive");
       if String.eqb scheme "http" || String.eqb scheme "https" then
         Ok (<["configdrive" := dict_get info "configdrive"]> i_info, [])
       else
         Ok (<["configdrive" := VStr "file"]> i_info,
             [(_get_configdrive_path CONF (uuid node), dict_get info "configdrive")])
     else Ok (i_info, [])).
Proof.
  intros info Hr Hs He Hroot. unfold _parse_partitioning_info.
  fold info. rewrite check_root_gb, Hroot.
  cbn [mbind result_bind].
  rewrite (coerce_params_ok _ _ _ _ _ _ Hr Hs He).
  cbn [mbind result_bind].
  generalize (bool_from_string (dict_get_default info "preserve_ephemeral" (VBool false))).
  generalize (dict_get info "ephemeral_format").
  generalize (dict_get info "configdrive").
  generalize (_get_configdrive_path CONF (uuid node)).
  generalize (pxe_default_ephemeral_format CONF).
  clear. intros dflt path cd fmt bres.
  unfold pop, getitem, mul_int. simplify_map_eq.
  cbn [mbind result_bind isinstance_int]. simplify_map_eq.
  unfold ne_zero, partition_plan, try_except. cbn [isinstance_int].
  change (truthy (VInt s)) with (negb (s =? 0)).
  destruct (s =? 0); cbn [negb mbind result_bind]; simplify_map_eq.
  all: cbn [mbind result_bind isinstance_int].
  all: destruct (e =? 0); cbn [negb mbind result_bind].
  all: try (destruct bres as [b|ex]; [|by destruct ex]).
  all: destruct (truthy fmt).
  all: destruct (truthy cd); [destruct (urlparse_scheme cd) as [sch|]; [|reflexivity]|].
  all: try (cbn [mbind result_bind];
            destruct (String.eqb sch "http" || String.eqb sch "https")).
  all: reflexivity.
Qed.

(** C5. With [root_gb], [swap_mb] and [ephemeral_gb] coercible to the
    integers [r], [s] and [e]: a plan that the function returns is root
    (1024*r MiB), then swap (s MiB) iff s is not zero, then ephemeral
    (1024*e MiB) iff e is not zero, and with an ephemeral partition
    [ephemeral_format] is the one of the node, or the default when unset;
    and the function does return a plan when [root_gb] is not empty, the
    [preserve_ephemeral] of an ephemeral partition is a boolean word and the
    scheme of a config drive can be read. *)
Theorem parse_partitioning_info_plan node r s e :
  let info := instance_info node in
  int (dict_get info "root_gb") = Ok r →
  int (dict_get_default info "swap_mb" (VInt 0)) = Ok s →
  int (dict_get_default info "ephemeral_gb" (VInt 0)) = Ok e →
  (∀ i_info writes,
     _parse_partitioning_info CONF urlparse_scheme node = Ok (i_info, writes) →
     i_info !! "ironic_partitions" = Some (VList (partition_plan r s e)) ∧
     (e ≠ 0 →
      i_info !! "ephemeral_format" =
        Some (if truthy (dict_get info "ephemeral_format")
              then dict_get info "ephemeral_format"
              else VStr (pxe_default_ephemeral_format CONF)))) ∧
  (truthy (dict_get info "root_gb") = true →
   (e ≠ 0 →
    ∃ b, bool_from_string (dict_get_default info "preserve_ephemeral" (VBool false)) = Ok b) →
   (truthy (dict_get info "configdrive") = true →
    ∃ scheme, urlparse_scheme (dict_get info "configdrive") = Ok scheme) →
   ∃ i_info writes,
     _parse_partitioning_info CONF urlparse_scheme node = Ok (i_info, writes)).
Proof.
  intros info Hr Hs He.
  destruct (truthy (dict_get info "root_gb")) eqn:Hroot.
  2: { split; [|done]. intros i_info writes.
       by rewrite (parse_partitioning_info_missing _ Hroot). }
  rewrite (parse_partitioning_info_eval _ _ _ _ Hr Hs He Hroot). fold info.
  generalize (dict_get info "configdrive") (_get_configdrive_path CONF (uuid node)).
  intros cd path. unfold try_except.
  split.
  - intros i_info writes.
    destruct (Z.eqb_spec e 0) as [He0|He0]; cbn [mbind result_bind].
    + destruct (truthy cd);
        [destruct (urlparse_scheme cd) as [sch|]; [|done]; cbn [mbind result_bind];
         destruct (String.eqb sch "http" || String.eqb sch "https")|];
        intros [= <- <-]; (split; [by simplify_map_eq | done]).
    + destruct (bool_from_string _) as [b|ex]; [|by destruct ex].
      cbn [mbind result_bind].
      destruct (truthy cd);
        [destruct (urlparse_scheme cd) as [sch|]; [|done]; cbn [mbind result_bind];
         destruct (String.eqb sch "http" || String.eqb sch "https")|];
        intros [= <- <-]; (split; [by simplify_map_eq | intros _; by simplify_map_eq]).
  - intros _ Hpres Hcd.
    destruct (Z.eqb_spec e 0) as [He0|He0]; cbn [mbind result_bind].
    + destruct (truthy cd); [destruct (Hcd eq_refl) as [sch ->]; cbn [mbind result_bind];
                             destruct (String.eqb sch "http" || String.eqb sch "https")|];
        eauto.
    + destruct (Hpres He0) as [b ->]. cbn [mbind result_bind].
      destruct (truthy cd); [destruct (Hcd eq_refl) as [sch ->]; cbn [mbind result_bind];
                             destruct (String.eqb sch "http" || String.eqb sch "https")|];
        eauto.
Qed.

End partitioning.

Section partitioning_failures.

Variable CONF : conf.
Variable urlparse_scheme : pyval → result string.

Lemma coerce_params_root_invalid (root_gb swap_mb ephemeral_gb : pyval) :
  int root_gb = Raise ValueError →
  coerce_params DISK_LAYOUT_PARAMS
    (<["ephemeral_gb" := ephemeral_gb]>
       (<["swap_mb" := swap_mb]> (<["root_gb" := root_gb]> ∅)))
  = Raise (InvalidParameterValue "root_gb" (inl root_gb)).
Proof.
  intros Hr. unfold DISK_LAYOUT_PARAMS. cbn [coerce_params].
  unfold getitem. simplify_map_eq. by rewrite Hr.
Qed.

Lemma coerce_params_swap_invalid (root_gb swap_mb ephemeral_gb : pyval) r :
  int root_gb = Ok r → int swap_mb = Raise ValueError →
  coerce_params DISK_LAYOUT_PARAMS
    (<["ephemeral_gb" := ephemeral_gb]>
       (<["swap_mb" := swap_mb]> (<["root_gb" := root_gb]> ∅)))
  = Raise (InvalidParameterValue "swap_mb" (inl swap_mb)).
Proof.
  intros Hr Hs. unfold DISK_LAYOUT_PARAMS. cbn [coerce_params].
  unfold getitem. simplify_map_eq. rewrite Hr. simpl.
  simplify_map_eq. by rewrite Hs.
Qed.

Lemma coerce_params_ephemeral_invalid (root_gb swap_mb ephemeral_gb : pyval) r s :
  int root_gb = Ok r → int swap_mb = Ok s → int ephemeral_gb = Raise ValueError →
  coerce_params DISK_LAYOUT_PARAMS
    (<["ephemeral_gb" := ephemeral_gb]>
       (<["swap_mb" := swap_mb]> (<["root_gb" := root_gb]> ∅)))
  = Raise (InvalidParameterValue "ephemeral_gb" (inl ephemeral_gb)).
Proof.
  intros Hr Hs He. unfold DISK_LAYOUT_PARAMS. cbn [coerce_params].
  unfold getitem. simplify_map_eq. rewrite Hr. simpl.
  simplify_map_eq. rewrite Hs. simpl. simplify_map_eq. by rewrite He.
Qed.

(** C6, as the code has it. The function raises [MissingParameterValue]
    for [root_gb], and returns no plan, when [root_gb] is absent, and also
    when it is present but empty or zero. When [root_gb] is not empty, it
    raises [InvalidParameterValue] naming the first of [root_gb],
    [swap_mb], [ephemeral_gb] on whose value [int] raises [ValueError] (a
    string that is no integer literal), those before it being coercible. *)
Theorem parse_partitioning_info_failures node :
  let info := instance_info node in
  let root_gb := dict_get info "root_gb" in
  let swap_mb := dict_get_default info "swap_mb" (VInt 0) in
  let ephemeral_gb := dict_get_default info "ephemeral_gb" (VInt 0) in
  let call := _parse_partitioning_info CONF urlparse_scheme node in
  (info !! "root_gb" = None → call = Raise root_gb_missing) ∧
  (truthy root_gb = false → call = Raise root_gb_missing) ∧
  (truthy root_gb = true → int root_gb = Raise ValueError →
   call = Raise (InvalidParameterValue "root_gb" (inl root_gb))) ∧
  (∀ r, truthy root_gb = true → int root_gb = Ok r →
        int swap_mb = Raise ValueError →
        call = Raise (InvalidParameterValue "swap_mb" (inl swap_mb))) ∧
  (∀ r s, truthy root_gb = true → int root_gb = Ok r → int swap_mb = Ok s →
          int ephemeral_gb = Raise ValueError →
          call = Raise (InvalidParameterValue "ephemeral_gb" (inl ephemeral_gb))).
Proof.
  intros info root_gb swap_mb ephemeral_gb call.
  split; [|split; [|split; [|split]]].
  - intros Habs. apply parse_partitioning_info_missing.
    fold info. unfold dict_get. by rewrite Habs.
  - apply parse_partitioning_info_missing.
  - intros Hroot Hr. unfold call, _parse_partitioning_info.
    fold info root_gb swap_mb ephemeral_gb.
    rewrite check_root_gb, Hroot. cbn [mbind result_bind].
    by rewrite (coerce_params_root_invalid _ _ _ Hr).
  - intros r Hroot Hr Hs. unfold call, _parse_partitioning_info.
    fold info root_gb swap_mb ephemeral_gb.
    rewrite check_root_gb, Hroot. cbn [mbind result_bind].
    by rewrite (coerce_params_swap_invalid _ _ _ _ Hr Hs).
  - intros r s Hroot Hr Hs He. unfold call, _parse_partitioning_info.
    fold info root_gb swap_mb ephemeral_gb.
    rewrite check_root_gb, Hroot. cbn [mbind result_bind].
    by rewrite (coerce_params_ephemeral_invalid _ _ _ _ _ Hr Hs He).
Qed.

End partitioning_failures.

Section partitioning_examples.

(** Root 10 GiB, swap 512 MiB, ephemeral 5 GiB: the plan is root (10240),
    swap (512), ephemeral (5120), and the format is the default one. *)
Lemma parse_partitioning_info_plan_witness :
  let node := example_node {[ "root_gb" := VInt 10; "swap_mb" := VStr "512";
                              "ephemeral_gb" := VInt 5 ]} in
  ∃ i_info writes,
    _parse_partitioning_info example_conf (λ _, Ok "") node = Ok (i_info, writes) ∧
    i_info !! "ironic_partitions"
      = Some (VList [partition "root" (VInt 10240) "yes" "no";
                     partition "swap" (VInt 512) "no" "yes";
                     partition "ephemeral" (VInt 5120) "no" "no"]) ∧
    i_info !! "ephemeral_format" = Some (VStr "ext4").
Proof.
  intros node.
  destruct (parse_partitioning_info_plan example_conf (λ _, Ok "") node 10 512 5
              eq_refl eq_refl eq_refl) as [Hplan Hreturns].
  destruct Hreturns as (i_info & writes & Hcall).
  - reflexivity.
  - intros _. exists false. reflexivity.
  - intros _. exists "". reflexivity.
  - exists i_info, writes. split; [exact Hcall|].
    destruct (Hplan i_info writes Hcall) as [Hparts Hformat].
    split; [exact Hparts | apply Hformat; discriminate].
Defined.

(** A swap size that is no integer literal is reported by name. *)
Lemma parse_partitioning_info_failures_witness :
  _parse_partitioning_info example_conf (λ _, Ok "")
    (example_node {[ "root_gb" := VInt 10; "swap_mb" := VStr "1G" ]})
  = Raise (InvalidParameterValue "swap_mb" (inl (VStr "1G"))).
Proof.
  destruct (parse_partitioning_info_failures example_conf (λ _, Ok "")
              (example_node {[ "root_gb" := VInt 10; "swap_mb" := VStr "1G" ]}))
    as (_ & _ & _ & Hswap & _).
  apply (Hswap 10); reflexivity.
Defined.

(** C6 as stated fails: an empty [root_gb] cannot be coerced to an integer
    and is reported as missing, not as invalid; and a [swap_mb] that is
    [None] lets the [TypeError] of [int] through. *)
Lemma parse_partitioning_info_not_invalid :
  int (VStr "") = Raise ValueError ∧
  _parse_partitioning_info example_conf (λ _, Ok "")
    (example_node {[ "root_gb" := VStr "" ]}) = Raise root_gb_missing ∧
  int VNone = Raise TypeError ∧
  _parse_partitioning_info example_conf (λ _, Ok "")
    (example_node {[ "root_gb" := VInt 10; "swap_mb" := VNone ]}) = Raise TypeError.
Proof. repeat split; reflexivity. Qed.

End partitioning_examples.

(** ** Clean steps *)

Section clean_steps.

Variable CONF : conf.
Variable load_yaml : string → result pyval.

Lemma clean_steps_loop_faults interface override internal_steps : ∀ steps,
  only entry_fault (clean_steps_loop interface override internal_steps steps).
Proof.
  induction internal_steps as [|params rest IH]; intros steps;
    cbn [clean_steps_loop]; [done|].
  unfold entry_fault in *.
  destruct params as [| | | | |d]; try (simpl; tauto).
  cbn [method_get mbind result_bind val_getitem]. unfold getitem.
  destruct (d !! "interface") as [clean_if|]; [|simpl; tauto].
  cbn [mbind result_bind].
  destruct (match interface with Some i => negb (eq_str clean_if i) | None => false end);
    [apply IH|].
  unfold override_get.
  destruct (dict_get_default d "name" VNone); cbn [mbind result_bind];
    try (simpl; tauto).
  all: repeat match goal with
       | |- context [match ?x with VNone => _ | _ => _ end] => destruct x
       | |- context [match ?m !! ?k with Some _ => _ | None => _ end] => destruct (m !! k)
       end; cbn [mbind result_bind]; try apply IH; try (simpl; tauto).
Qed.

Lemma clean_steps_loop_step interface override params rest steps :
  name_hashable params = true →
  clean_steps_loop interface override (VDict params :: rest) steps
  = if lacks_required_key interface override params then Raise KeyError
    else clean_steps_loop interface override rest
           (steps ++ option_list (clean_step_of interface override params))%list.
Proof.
  intros Hname. cbn [clean_steps_loop method_get mbind result_bind val_getitem].
  unfold lacks_required_key, clean_step_of, getitem, name_hashable in *.
  unfold dict_get, dict_get_default in *.
  destruct (params !! "interface") as [clean_if|]; [|reflexivity].
  cbn [mbind result_bind default from_option id].
  change (match interface with Some i => negb (eq_str clean_if i) | None => false end)
    with (filtered_out interface clean_if).
  destruct (filtered_out interface clean_if);
    [cbn [option_list]; by rewrite app_nil_r|].
  destruct (params !! "name") as [name|]; cbn [default from_option id] in *.
  - destruct name; try done; cbn [override_get mbind result_bind].
    4: { unfold dict_get.
         destruct (override !! s) as [[]|]; cbn [default from_option id mbind result_bind];
           try reflexivity;
           destruct (params !! "priority"); reflexivity. }
    all: destruct (params !! "priority"); reflexivity.
  - cbn [override_get mbind result_bind].
    destruct (params !! "priority"); reflexivity.
Qed.

Lemma clean_steps_loop_spec interface override entries : ∀ steps,
  forallb name_hashable entries = true →
  clean_steps_loop interface override (VDict <$> entries) steps
  = if existsb (lacks_required_key interface override) entries
    then Raise KeyError
    else Ok (steps ++ omap (clean_step_of interface override) entries)%list.
Proof.
  induction entries as [|params rest IH]; intros steps Hnames.
  - simpl. by rewrite app_nil_r.
  - cbn [forallb] in Hnames. apply andb_prop in Hnames as [Hname Hrest].
    cbn [fmap list_fmap existsb omap list_omap].
    rewrite (clean_steps_loop_step _ _ _ _ _ Hname).
    destruct (lacks_required_key interface override params) eqn:Hlacks;
      cbn [orb]; [reflexivity|].
    change (list_fmap _ _ VDict rest) with (VDict <$> rest).
    rewrite (IH _ Hrest).
    destruct (existsb _ rest); [reflexivity|].
    destruct (clean_step_of interface override params);
      cbn [option_list]; [by rewrite <- app_assoc | by rewrite app_nil_r].
Qed.

(** C10, as the code has it. Only a failure to open or parse the file
    becomes [NodeCleaningFailure]; once the file is parsed the function
    raises nothing but [KeyError], [TypeError] or [AttributeError]. For a
    file that is a list of mappings with names that can be looked up, it
    raises [KeyError] exactly when some entry has no [interface], or passes
    the interface filter, has no override priority for its name and has no
    [priority]; otherwise it returns the steps of the entries that pass the
    filter, in file order. *)
Theorem get_clean_steps_key_error task interface override_priorities file :
  let path := os_path_join (ansible_playbooks_path CONF) file in
  let call := _get_clean_steps CONF load_yaml task interface override_priorities in
  let override := override_of override_priorities in
  dict_get_default (driver_info (task_node task)) "clean_steps" (VStr DEFAULT_CLEAN_STEPS)
    = VStr file →
  (∀ e, load_yaml path = Raise e →
        call = Raise (NodeCleaningFailure (uuid (task_node task)) e)) ∧
  (∀ internal_steps, load_yaml path = Ok internal_steps → only entry_fault call) ∧
  (∀ entries,
     load_yaml path = Ok (VList (VDict <$> entries)) →
     forallb name_hashable entries = true →
     call = if existsb (lacks_required_key interface override) entries
            then Raise KeyError
            else Ok (omap (clean_step_of interface override) entries)).
Proof.
  intros path call override Hfile.
  unfold call, _get_clean_steps. rewrite Hfile. cbn [mbind result_bind].
  fold path. fold (override_of override_priorities). fold override.
  split; [|split].
  - intros e ->. reflexivity.
  - intros internal_steps ->. cbn [try_except mbind result_bind].
    destruct internal_steps; cbn [iterate mbind result_bind];
      try (unfold entry_fault; simpl; tauto);
      apply clean_steps_loop_faults.
  - intros entries -> Hnames. cbn [try_except iterate mbind result_bind].
    by rewrite clean_steps_loop_spec.
Qed.

End clean_steps.

Section clean_steps_examples.

(** An entry without [interface] raises [KeyError], with the arguments
    the driver passes. *)
Lemma get_clean_steps_key_error_witness :
  _get_clean_steps example_conf
    (load_example (VList [VDict {[ "name" := VStr "erase_devices";
                                   "priority" := VInt 10 ]}]))
    (example_task ∅) (Some "deploy") (Some {[ "erase_devices" := VNone ]})
  = Raise KeyError.
Proof.
  destruct (get_clean_steps_key_error example_conf
              (load_example (VList [VDict {[ "name" := VStr "erase_devices";
                                             "priority" := VInt 10 ]}]))
              (example_task ∅) (Some "deploy") (Some {[ "erase_devices" := VNone ]})
              "clean_steps.yaml" eq_refl) as (_ & _ & Hlist).
  exact (Hlist [ {[ "name" := VStr "erase_devices"; "priority" := VInt 10 ]} ]
           eq_refl eq_refl).
Defined.

(** C10 as stated fails: with the interface filter the driver passes, an
    entry of another interface that has no [priority] is skipped and the
    call returns; and an entry without [priority] whose name has an
    override priority gives a step. *)
Lemma get_clean_steps_missing_priority_returns :
  _get_clean_steps example_conf
    (load_example (VList [VDict {[ "name" := VStr "update_firmware";
                                   "interface" := VStr "management" ]}]))
    (example_task ∅) (Some "deploy") None
  = Ok [] ∧
  length <$> _get_clean_steps example_conf
    (load_example (VList [VDict {[ "name" := VStr "erase_devices";
                                   "interface" := VStr "deploy" ]}]))
    (example_task ∅) (Some "deploy") (Some {[ "erase_devices" := VInt 10 ]})
  = Ok 1%nat.
Proof. split; reflexivity. Qed.

End clean_steps_examples.

(** ** [set_policy] and its argument *)

Section set_policy_effect.

Lemma apply_defaults_eq policy :
  apply_defaults policy
  = (match policy !! "policy_trigger" with Some _ => Ok tt | None => Raise KeyError end,
     with_defaults policy).
Proof.
  unfold apply_defaults, with_defaults, contains, setitem, subscript, getitem.
  unfold mbind, policyM_bind, mret, policyM_ret.
  destruct (policy !! "cpu_power_correction") as [c|] eqn:Hc;
    destruct (policy !! "storage") as [s|] eqn:Hs;
    destruct (policy !! "policy_trigger") as [t|] eqn:Ht.
  all: repeat (rewrite ?lookup_insert_ne by done; rewrite ?Hc, ?Hs, ?Ht; cbn [negb]).
  all: try reflexivity.
  all: by destruct (eq_str t "none" || eq_str t "boot").
Qed.

Lemma with_defaults_trigger policy :
  with_defaults policy !! "policy_trigger" = policy !! "policy_trigger".
Proof.
  unfold with_defaults.
  destruct (policy !! "cpu_power_correction") as [c|] eqn:Hc;
    destruct (policy !! "storage") as [s|] eqn:Hs;
    destruct (policy !! "policy_trigger") as [t|] eqn:Ht;
    simplify_map_eq; try done.
  all: by destruct (eq_str t "none" || eq_str t "boot"); simplify_map_eq.
Qed.

Lemma with_defaults_frame policy k :
  k ≠ "cpu_power_correction" → k ≠ "storage" → k ≠ "trigger_limit" →
  with_defaults policy !! k = policy !! k.
Proof.
  intros H1 H2 H3. unfold with_defaults.
  repeat case_match; by simplify_map_eq.
Qed.

Lemma with_defaults_correction policy :
  with_defaults policy !! "cpu_power_correction"
  = Some (default (VStr "auto") (policy !! "cpu_power_correction")).
Proof.
  unfold with_defaults.
  destruct (policy !! "cpu_power_correction") as [c|] eqn:Hc;
    repeat case_match; by simplify_map_eq.
Qed.

Lemma with_defaults_storage policy :
  with_defaults policy !! "storage"
  = Some (default (VStr "persistent") (policy !! "storage")).
Proof.
  unfold with_defaults.
  destruct (policy !! "storage") as [c|] eqn:Hc;
    repeat case_match; by simplify_map_eq.
Qed.

Lemma with_defaults_trigger_limit policy :
  with_defaults policy !! "trigger_limit"
  = match policy !! "policy_trigger" with
    | Some trigger =>
        if eq_str trigger "none" || eq_str trigger "boot" then Some (VInt 0)
        else policy !! "trigger_limit"
    | None => policy !! "trigger_limit"
    end.
Proof.
  unfold with_defaults.
  destruct (policy !! "cpu_power_correction") as [c|] eqn:Hc;
    destruct (policy !! "storage") as [s|] eqn:Hs;
    destruct (policy !! "policy_trigger") as [t|] eqn:Ht.
  all: repeat (rewrite ?lookup_insert_ne by done; rewrite ?Hc, ?Hs, ?Ht).
  all: try reflexivity.
  all: destruct (eq_str t "none" || eq_str t "boot").
  all: by rewrite ?lookup_insert_eq, ?lookup_insert_ne by done.
Qed.

Lemma with_defaults_idempotent policy :
  with_defaults (with_defaults policy) = with_defaults policy.
Proof.
  apply map_eq. intros k.
  destruct (decide (k = "cpu_power_correction")) as [->|Hk1].
  { rewrite !with_defaults_correction. reflexivity. }
  destruct (decide (k = "storage")) as [->|Hk2].
  { rewrite !with_defaults_storage. reflexivity. }
  destruct (decide (k = "trigger_limit")) as [->|Hk3].
  { rewrite (with_defaults_trigger_limit (with_defaults policy)).
    rewrite with_defaults_trigger, with_defaults_trigger_limit.
    destruct (policy !! "policy_trigger") as [t|]; [|reflexivity].
    by destruct (eq_str t "none" || eq_str t "boot"). }
  by rewrite !with_defaults_frame.
Qed.

Lemma reads_ret {A} (a : A) : reads (mret a).
Proof. by intros policy. Qed.

Lemma reads_lift {A} (r : result A) : reads (lift r).
Proof. by intros policy. Qed.

Lemma reads_subscript k : reads (subscript k).
Proof. by intros policy. Qed.

Lemma reads_bind {A B} (m : policyM A) (f : A → policyM B) :
  reads m → (∀ a, reads (f a)) → reads (m ≫= f).
Proof.
  intros Hm Hf policy. unfold mbind, policyM_bind.
  specialize (Hm policy). destruct (m policy) as [[a|e] policy']; simpl in *; subst.
  - apply Hf.
  - done.
Qed.

Lemma set_policy_split policy :
  set_policy policy
  = match policy !! "policy_trigger" with
    | Some _ => build_command (with_defaults policy)
    | None => (Raise KeyError, with_defaults policy)
    end.
Proof.
  pose proof (apply_defaults_eq policy) as Hdef.
  unfold apply_defaults, with_defaults in *.
  unfold set_policy.
  unfold contains, setitem, subscript, getitem in *.
  unfold mbind, policyM_bind, mret, policyM_ret in *.
  destruct (policy !! "cpu_power_correction") as [c|] eqn:Hc;
    destruct (policy !! "storage") as [s|] eqn:Hs;
    destruct (policy !! "policy_trigger") as [t|] eqn:Ht.
  all: repeat (rewrite ?lookup_insert_ne by done; rewrite ?Hc, ?Hs, ?Ht; cbn [negb]).
  all: try reflexivity.
  all: by destruct (eq_str t "none" || eq_str t "boot").
Qed.

Lemma build_command_reads : reads build_command.
Proof.
  unfold build_command.
  repeat first
    [ apply reads_ret | apply reads_lift | apply reads_subscript
    | apply reads_bind; [|intros ?]
    | match goal with |- reads (if ?c then _ else _) => destruct c end
    | match goal with |- reads (match ?x with Some _ => _ | None => _ end) => destruct x end ].
Qed.

(** C4, as the code has it. A call of [set_policy] changes its argument
    at three keys only: it stores the defaults of [cpu_power_correction]
    ("auto") and [storage] ("persistent") when they are absent, and stores
    0 as [trigger_limit] when the trigger is none or boot; every other key
    is left as it was. A second call on the dict that the first one leaves
    returns the same result and changes nothing. *)
Theorem set_policy_effect policy r policy' :
  set_policy policy = (r, policy') →
  (∀ k, k ≠ "cpu_power_correction" → k ≠ "storage" → k ≠ "trigger_limit" →
        policy' !! k = policy !! k) ∧
  policy' !! "cpu_power_correction"
    = Some (default (VStr "auto") (policy !! "cpu_power_correction")) ∧
  policy' !! "storage" = Some (default (VStr "persistent") (policy !! "storage")) ∧
  policy' = with_defaults policy ∧
  set_policy policy' = (r, policy').
Proof.
  intros Hcall.
  assert (policy' = with_defaults policy) as ->.
  { rewrite set_policy_split in Hcall.
    destruct (policy !! "policy_trigger").
    - pose proof (build_command_reads (with_defaults policy)) as Hreads.
      rewrite Hcall in Hreads. done.
    - by injection Hcall. }
  split; [intros k; apply with_defaults_frame|].
  split; [apply with_defaults_correction|].
  split; [apply with_defaults_storage|].
  split; [reflexivity|].
  rewrite set_policy_split in Hcall |- *.
  rewrite with_defaults_trigger, with_defaults_idempotent. exact Hcall.
Qed.

End set_policy_effect.

Section set_policy_examples.

Lemma set_policy_effect_witness :
  (set_policy (example_policy false)).2 !! "storage" = Some (VStr "persistent") ∧
  (set_policy (example_policy false)).2 !! "policy_id" = Some (VInt 10) ∧
  set_policy (set_policy (example_policy false)).2 = set_policy (example_policy false).
Proof.
  destruct (set_policy_effect (example_policy false)
              (set_policy (example_policy false)).1
              (set_policy (example_policy false)).2)
    as (Hframe & _ & Hstorage & _ & Hagain).
  - reflexivity.
  - split; [exact Hstorage|]. split; [by rewrite Hframe|].
    rewrite Hagain. reflexivity.
Defined.

(** C4 as stated fails: the call stores the default [storage] and
    [cpu_power_correction] into its argument and overwrites the
    [trigger_limit] of a policy whose trigger is none. *)
Lemma set_policy_changes_argument :
  example_policy false !! "storage" = None ∧
  (set_policy (example_policy false)).2 !! "storage" = Some (VStr "persistent") ∧
  example_policy false !! "trigger_limit" = Some (VInt 7) ∧
  (set_policy (example_policy false)).2 !! "trigger_limit" = Some (VInt 0).
Proof. repeat split; reflexivity. Qed.

(** C1 fails on the code for a disabled policy of the cpu domain: the byte
    after the header is "0x00", and the code of the domain is 0x01; enabled,
    the byte is "0x11". *)
Lemma set_policy_disabled_first_byte :
  (λ cmd, cmd !! 5%nat) <$> (set_policy (example_policy false)).1 = Ok (Some "0x00") ∧
  (λ cmd, cmd !! 5%nat) <$> (set_policy (example_policy true)).1 = Ok (Some "0x11") ∧
  (domain ← table_getitem INTEL_NM_DOMAINS (VStr "cpu"); _hex (VInt domain)) = Ok "0x01".
Proof. repeat split; reflexivity. Qed.

End set_policy_examples.

(** ** Bytes, hexadecimal strings and packed fields *)

Section bytes.

Lemma byte_value_range b : 0 ≤ byte_value b < 256.
Proof.
  unfold byte_value. pose proof (Byte.to_N_bounded b). lia.
Qed.

Lemma int16_hexlify_byte b : int16 ("0x" +:+ hexlify_byte b) = Ok (byte_value b).
Proof. destruct b; reflexivity. Qed.

Lemma bytehex_hexlify data : _bytehex (hexlify data) = hexlify_byte <$> data.
Proof.
  induction data as [|b data IH]; [reflexivity|].
  change (_bytehex (hexlify (b :: data)))
    with (hexlify_byte b :: _bytehex (hexlify data)).
  by rewrite IH.
Qed.

Lemma raw_to_int_app l1 l2 :
  _raw_to_int (l1 ++ l2)
  = n1 ← _raw_to_int l1; n2 ← _raw_to_int l2; Ok (n1 ++ n2)%list.
Proof.
  induction l1 as [|x l1 IH]; cbn [_raw_to_int app].
  - cbn [mbind result_bind]. by destruct (_raw_to_int l2).
  - destruct (int16 x) as [n|]; cbn [mbind result_bind]; [|done].
    rewrite IH. destruct (_raw_to_int l1); cbn [mbind result_bind]; [|done].
    by destruct (_raw_to_int l2).
Qed.

Lemma raw_to_int_hexarray data : _raw_to_int (_hexarray data) = Ok (byte_value <$> data).
Proof.
  unfold _hexarray. rewrite bytehex_hexlify.
  induction data as [|b data IH]; [reflexivity|].
  cbn [fmap list_fmap _raw_to_int] in *. rewrite int16_hexlify_byte.
  cbn [mbind result_bind]. by rewrite IH.
Qed.

Lemma byte_of_value b : Byte.of_N (Z.to_N (byte_value b)) = Some b.
Proof. unfold byte_value. by rewrite N2Z.id, Byte.of_to_N. Qed.

Lemma bytearray_values data : bytearray (byte_value <$> data) = Ok data.
Proof.
  induction data as [|b data IH]; [reflexivity|].
  cbn [fmap list_fmap bytearray] in *.
  pose proof (byte_value_range b) as [Hlo Hhi].
  apply Z.leb_le in Hlo. apply Z.ltb_lt in Hhi. rewrite Hlo, Hhi.
  cbn [andb]. rewrite byte_of_value, IH. reflexivity.
Qed.

Lemma le_bytes_length n : ∀ z, length (le_bytes n z) = n.
Proof. induction n as [|n IH]; intros z; simpl; [done | by rewrite IH]. Qed.

Lemma le_value_le_bytes n : ∀ z, 0 ≤ z < 256 ^ Z.of_nat n → le_value (le_bytes n z) = z.
Proof.
  induction n as [|n IH]; intros z Hz.
  - simpl in *. lia.
  - cbn [le_bytes le_value].
    assert (0 ≤ z `mod` 256 < 256) as Hm by (apply Z.mod_pos_bound; lia).
    destruct (Byte.of_N (Z.to_N (z `mod` 256))) as [b|] eqn:Hb.
    + cbn [default from_option id]. apply Byte.to_of_N in Hb. rewrite Hb, Z2N.id by lia.
      rewrite IH.
      * pose proof (Z.div_mod z 256). lia.
      * rewrite Nat2Z.inj_succ, Z.pow_succ_r in Hz by lia.
        split; [apply Z.div_pos; lia | apply Z.div_lt_upper_bound; lia].
    + apply Byte.of_N_None_iff in Hb. lia.
Qed.

Lemma struct_pack_HIHH a b c d :
  0 ≤ a < 2 ^ 16 → 0 ≤ b < 2 ^ 32 → 0 ≤ c < 2 ^ 16 → 0 ≤ d < 2 ^ 16 →
  struct_pack [2; 4; 2; 2]%nat [VInt a; VInt b; VInt c; VInt d]
  = Ok (le_bytes 2 a ++ le_bytes 4 b ++ le_bytes 2 c ++ le_bytes 2 d)%list.
Proof.
  intros Ha Hb Hc Hd. cbn [struct_pack pack_field isinstance_int].
  change (256 ^ Z.of_nat 2) with (2 ^ 16). change (256 ^ Z.of_nat 4) with (2 ^ 32).
  repeat match goal with
  | H : 0 ≤ ?x < ?n |- context [(0 <=? ?x) && (?x <? ?n)] =>
      replace ((0 <=? x) && (x <? n)) with true
        by (symmetry; apply andb_true_intro; split; [apply Z.leb_le | apply Z.ltb_lt]; lia)
  end.
  cbn [mbind result_bind]. by rewrite app_nil_r.
Qed.

Lemma struct_unpack_HIHH a b c d :
  0 ≤ a < 2 ^ 16 → 0 ≤ b < 2 ^ 32 → 0 ≤ c < 2 ^ 16 → 0 ≤ d < 2 ^ 16 →
  struct_unpack [2; 4; 2; 2]%nat
    (le_bytes 2 a ++ le_bytes 4 b ++ le_bytes 2 c ++ le_bytes 2 d)
  = Ok [a; b; c; d].
Proof.
  intros Ha Hb Hc Hd. unfold struct_unpack.
  rewrite !length_app, !le_bytes_length. cbn [fold_right Nat.add Nat.eqb].
  cbn [unpack_fields].
  rewrite take_app_length' by (symmetry; apply le_bytes_length).
  rewrite drop_app_length' by (symmetry; apply le_bytes_length).
  rewrite take_app_length' by (symmetry; apply le_bytes_length).
  rewrite drop_app_length' by (symmetry; apply le_bytes_length).
  rewrite take_app_length' by (symmetry; apply le_bytes_length).
  rewrite drop_app_length' by (symmetry; apply le_bytes_length).
  rewrite firstn_all2 by (rewrite le_bytes_length; lia).
  rewrite !le_value_le_bytes; [reflexivity|..]; assumption.
Qed.

End bytes.

(** ** The policy round trip *)

Section policy_round_trip.

(** The pairs of a table, from a lookup in it. *)
Ltac table_cases H :=
  apply elem_of_map_to_list in H;
  match type of H with
  | _ ∈ map_to_list ?t =>
      let l := eval vm_compute in (map_to_list t) in
      change (map_to_list t) with l in H
  end;
  repeat (apply elem_of_cons in H as [H|H]; [injection H as -> ->|]);
  [..|by apply elem_of_nil in H].

Lemma domain_byte d dc :
  INTEL_NM_DOMAINS !! d = Some dc →
  int16 ("0x" +:+ format_02X (Z.lor dc 0x10)) = Ok (Z.lor dc 0x10) ∧
  INTEL_NM_DOMAINS_REV !! (Z.land (Z.lor dc 0x10) 0x0F) = Some d ∧
  Z.land (Z.lor dc 0x10) 0x10 ≠ 0.
Proof. intros H. table_cases H; repeat split; done. Qed.

Lemma trigger_byte t tc c cc s sc :
  INTEL_NM_TRIGGERS !! t = Some tc →
  INTEL_NM_CPU_CORRECTION !! c = Some cc →
  INTEL_NM_STORAGE !! s = Some sc →
  let b := Z.lor (Z.lor (Z.lor tc cc) sc) 0x10 in
  int16 ("0x" +:+ format_02X b) = Ok b ∧
  INTEL_NM_TRIGGERS_REV !! (Z.land b 0x0F) = Some t ∧
  INTEL_NM_CPU_CORRECTION_REV !! (Z.land b 0x60) = Some c ∧
  INTEL_NM_STORAGE_REV !! (Z.land b 0x80) = Some s.
Proof.
  intros Ht Hc Hs. table_cases Ht; table_cases Hc; table_cases Hs;
    repeat split; done.
Qed.

Lemma action_byte a ac pd pdc :
  INTEL_NM_ACTIONS !! a = Some ac →
  INTEL_NM_POWER_DOMAIN !! pd = Some pdc →
  let b := Z.lor ac pdc in
  int16 ("0x" +:+ format_02X b) = Ok b ∧
  INTEL_NM_ACTIONS_REV !! (Z.land b 0x01) = Some a ∧
  INTEL_NM_POWER_DOMAIN_REV !! (Z.land b 0x80) = Some pd.
Proof.
  intros Ha Hpd. table_cases Ha; table_cases Hpd; repeat split; done.
Qed.

Lemma sent_trigger_limit_range f : valid f → 0 ≤ sent_trigger_limit f < 2 ^ 16.
Proof.
  intros Hv. unfold sent_trigger_limit.
  destruct (_ || _); [lia | apply (v_trigger_limit f Hv)].
Qed.

Lemma set_policy_command policy f :
  holds policy f → valid f →
  set_policy policy = (Ok (command_of f), with_defaults policy).
Proof.
  intros Hh Hv. rewrite set_policy_split, (h_policy_trigger _ _ Hh).
  pose proof (with_defaults_frame policy) as Hframe.
  pose proof (with_defaults_correction policy) as Hcorr.
  pose proof (with_defaults_storage policy) as Hstor.
  pose proof (with_defaults_trigger_limit policy) as Htl.
  rewrite (h_cpu_power_correction _ _ Hh) in Hcorr.
  rewrite (h_storage _ _ Hh) in Hstor.
  rewrite (h_policy_trigger _ _ Hh), (h_trigger_limit _ _ Hh) in Htl.
  cbn [eq_str] in Htl.
  assert (with_defaults policy !! "trigger_limit" = Some (VInt (sent_trigger_limit f)))
    as Htl'.
  { rewrite Htl. unfold sent_trigger_limit. by destruct (_ || _). }
  clear Htl.
  destruct (v_domain_id f Hv) as [dc Hdc], (v_policy_trigger f Hv) as [tc Htc],
    (v_cpu_power_correction f Hv) as [cc Hcc], (v_storage f Hv) as [sc Hsc],
    (v_action f Hv) as [ac Hac], (v_power_domain f Hv) as [pdc Hpdc].
  pose proof (struct_pack_HIHH _ _ _ _ (v_target_limit f Hv) (v_correction_time f Hv)
                (sent_trigger_limit_range f Hv) (v_reporting_period f Hv)) as Hpack.
  unfold command_of, first_byte, trigger_byte_of, action_byte_of, code, packed_values.
  rewrite Hdc, Htc, Hcc, Hsc, Hac, Hpdc. cbn [default from_option id].
  generalize dependent (with_defaults policy). intros Q Hframe Hcorr Hstor Htl.
  unfold build_command, subscript, lift, getitem.
  unfold mbind, policyM_bind, mret, policyM_ret.
  repeat (progress
    (cbv beta iota;
     rewrite ?Hframe by done;
     rewrite ?(h_enable _ _ Hh), ?(h_domain_id _ _ Hh), ?(h_policy_id _ _ Hh),
       ?(h_policy_trigger _ _ Hh), ?(h_action _ _ Hh), ?(h_power_domain _ _ Hh),
       ?(h_target_limit _ _ Hh), ?(h_correction_time _ _ Hh),
       ?(h_reporting_period _ _ Hh), ?Hcorr, ?Hstor, ?Htl;
     cbn [truthy table_getitem isinstance_int _hex]; unfold getitem;
     rewrite ?Htc, ?Hcc, ?Hsc, ?Hac, ?Hpdc, ?Hpack)).
  destruct (p_enable f);
    repeat (progress
    (cbv beta iota;
     rewrite ?Hframe by done;
     rewrite ?(h_enable _ _ Hh), ?(h_domain_id _ _ Hh), ?(h_policy_id _ _ Hh),
       ?(h_policy_trigger _ _ Hh), ?(h_action _ _ Hh), ?(h_power_domain _ _ Hh),
       ?(h_target_limit _ _ Hh), ?(h_correction_time _ _ Hh),
       ?(h_reporting_period _ _ Hh), ?Hcorr, ?Hstor, ?Htl;
     cbn [truthy table_getitem isinstance_int _hex]; unfold getitem;
     rewrite ?Htc, ?Hcc, ?Hsc, ?Hac, ?Hpdc, ?Hpack, ?Hdc)); reflexivity.
Qed.

Lemma parse_policy_response f :
  valid f → p_enable f = true →
  ∃ out, parse_policy (policy_response (command_of f)) = Ok out ∧
    out !! "domain_id" = Some (VStr (p_domain_id f)) ∧
    out !! "enabled" = Some (VBool true) ∧
    out !! "policy_trigger" = Some (VStr (p_policy_trigger f)) ∧
    out !! "cpu_power_correction" = Some (VStr (p_cpu_power_correction f)) ∧
    out !! "storage" = Some (VStr (p_storage f)) ∧
    out !! "action" = Some (VStr (p_action f)) ∧
    out !! "power_domain" = Some (VStr (p_power_domain f)) ∧
    out !! "target_limit" = Some (VInt (p_target_limit f)) ∧
    out !! "correction_time" = Some (VInt (p_correction_time f)) ∧
    out !! "trigger_limit" = Some (VInt (sent_trigger_limit f)) ∧
    out !! "reporting_period" = Some (VInt (p_reporting_period f)) ∧
    out !! "policy_id" = None.
Proof.
  intros Hv Hen.
  destruct (v_domain_id f Hv) as [dc Hdc], (v_policy_trigger f Hv) as [tc Htc],
    (v_cpu_power_correction f Hv) as [cc Hcc], (v_storage f Hv) as [sc Hsc],
    (v_action f Hv) as [ac Hac], (v_power_domain f Hv) as [pdc Hpdc].
  destruct (domain_byte _ _ Hdc) as (Hb0 & Hdom & Hbit).
  destruct (trigger_byte _ _ _ _ _ _ Htc Hcc Hsc) as (Hb2 & Htrig & Hcorr & Hstor).
  destruct (action_byte _ _ _ _ Hac Hpdc) as (Hb3 & Hact & Hpd).
  pose proof (struct_unpack_HIHH _ _ _ _ (v_target_limit f Hv) (v_correction_time f Hv)
                (sent_trigger_limit_range f Hv) (v_reporting_period f Hv)) as Hunpack.
  fold (packed_values f) in Hunpack.
  unfold parse_policy, _handle_parsing_error, parse_policy_body.
  change (policy_response (command_of f))
    with (["0x57"; "0x01"; "0x00";
           "0x" +:+ format_02X (first_byte f);
           "0x" +:+ format_02X (trigger_byte_of f);
           "0x" +:+ format_02X (action_byte_of f)] ++ _hexarray (packed_values f))%list.
  unfold first_byte, trigger_byte_of, action_byte_of, code.
  rewrite Hen, Hdc, Htc, Hcc, Hsc, Hac, Hpdc. cbn [default from_option id].
  rewrite raw_to_int_app, raw_to_int_hexarray.
  cbn [_raw_to_int].
  change (int16 "0x57") with (Ok 0x57). change (int16 "0x01") with (Ok 0x01).
  change (int16 "0x00") with (Ok 0x00).
  rewrite Hb0, Hb2, Hb3.
  cbn [mbind result_bind app index lookup list_lookup drop].
  unfold getitem. rewrite Hdom, Htrig, Hcorr, Hstor, Hact, Hpd.
  cbn [mbind result_bind].
  rewrite drop_0, bytearray_values. cbn [mbind result_bind].
  rewrite Hunpack. cbn [mbind result_bind try_except].
  assert (truthy (VInt (Z.land (Z.lor dc 16) 16)) = true) as ->.
  { cbn [truthy]. by apply negb_true_iff, Z.eqb_neq. }
  eexists. split; [reflexivity|].
  unfold _add_to_dict.
  repeat split; reflexivity.
Qed.

(** For every valid policy the byte after the header is [first_byte]:
    the domain code is there only when the policy is enabled. *)
Lemma set_policy_first_byte policy f :
  holds policy f → valid f →
  (λ cmd, cmd !! 5%nat) <$> (set_policy policy).1
  = Ok (Some ("0x" +:+ format_02X (first_byte f))).
Proof. intros Hh Hv. by rewrite (set_policy_command _ _ Hh Hv). Qed.

(** C2, as the code has it. For a policy with valid names, numbers that
    fit their fields, an integer [target_limit] and [enable] true:
    [set_policy] returns a command, and [parse_policy] applied to the
    response frame of that command (manufacturer id, flags byte, and the
    bytes after the policy id) gives back [domain_id], [policy_trigger],
    [cpu_power_correction], [storage], [action], [power_domain],
    [target_limit], [correction_time], [reporting_period] and the
    [trigger_limit] that was sent (0 for the triggers none and boot); the
    result has no [policy_id]. *)
Theorem policy_round_trip policy f :
  holds policy f → valid f → p_enable f = true →
  ∃ cmd out,
    set_policy policy = (Ok cmd, with_defaults policy) ∧
    parse_policy (policy_response cmd) = Ok out ∧
    out !! "domain_id" = Some (VStr (p_domain_id f)) ∧
    out !! "enabled" = Some (VBool true) ∧
    out !! "policy_trigger" = Some (VStr (p_policy_trigger f)) ∧
    out !! "cpu_power_correction" = Some (VStr (p_cpu_power_correction f)) ∧
    out !! "storage" = Some (VStr (p_storage f)) ∧
    out !! "action" = Some (VStr (p_action f)) ∧
    out !! "power_domain" = Some (VStr (p_power_domain f)) ∧
    out !! "target_limit" = Some (VInt (p_target_limit f)) ∧
    out !! "correction_time" = Some (VInt (p_correction_time f)) ∧
    out !! "trigger_limit" = Some (VInt (sent_trigger_limit f)) ∧
    out !! "reporting_period" = Some (VInt (p_reporting_period f)) ∧
    out !! "policy_id" = None.
Proof.
  intros Hh Hv Hen.
  destruct (parse_policy_response f Hv Hen) as (out & Hout).
  exists (command_of f), out.
  split; [by apply set_policy_command | exact Hout].
Qed.

Lemma policy_round_trip_witness :
  ∃ cmd out,
    set_policy (example_policy true) = (Ok cmd, with_defaults (example_policy true)) ∧
    parse_policy (policy_response cmd) = Ok out ∧
    out !! "domain_id" = Some (VStr "cpu") ∧
    out !! "enabled" = Some (VBool true) ∧
    out !! "policy_trigger" = Some (VStr "none") ∧
    out !! "cpu_power_correction" = Some (VStr "auto") ∧
    out !! "storage" = Some (VStr "persistent") ∧
    out !! "action" = Some (VStr "alert") ∧
    out !! "power_domain" = Some (VStr "primary") ∧
    out !! "target_limit" = Some (VInt 100) ∧
    out !! "correction_time" = Some (VInt 2000) ∧
    out !! "trigger_limit" = Some (VInt 0) ∧
    out !! "reporting_period" = Some (VInt 5) ∧
    out !! "policy_id" = None.
Proof.
  apply (policy_round_trip (example_policy true) example_fields).
  - constructor; reflexivity.
  - constructor; try (eexists; reflexivity); simpl; lia.
  - reflexivity.
Defined.

(** C2 as stated fails: [parse_policy] applied to the command that
    [set_policy] returns is a decode failure, the command being longer
    than a response and laid out differently. *)
Lemma parse_policy_of_command_fails :
  parse_policy <$> (set_policy (example_policy true)).1
  = Ok (Raise (IPMIFailure msg_wrong_length)).
Proof. reflexivity. Qed.

End policy_round_trip.

(** ** Hexadecimal text *)

Section hex.

Lemma digit_val_hex_digit upper d :
  0 ≤ d < 16 → digit_val 16 (hex_digit upper d) = Some d.
Proof.
  intros Hd.
  assert (d ∈ (seqZ 0 16)) as Hin by (apply elem_of_seqZ; lia).
  destruct upper; vm_compute in Hin;
    repeat (apply elem_of_cons in Hin as [->|Hin]; [reflexivity|]);
    by apply elem_of_nil in Hin.
Qed.

Lemma is_space_hex_digit upper d :
  0 ≤ d < 16 → is_space (hex_digit upper d) = false.
Proof.
  intros Hd.
  assert (d ∈ (seqZ 0 16)) as Hin by (apply elem_of_seqZ; lia).
  destruct upper; vm_compute in Hin;
    repeat (apply elem_of_cons in Hin as [->|Hin]; [reflexivity|]);
    by apply elem_of_nil in Hin.
Qed.

Lemma hex_digits_fuel_value fuel upper : ∀ n acc,
  0 ≤ n < 16 ^ Z.of_nat (S fuel) →
  ∃ ds, hex_digits_fuel (S fuel) upper n acc = (ds ++ acc)%list ∧ ds ≠ [] ∧
        Forall (λ c, is_space c = false) ds ∧
        ∀ a, digits_val 16 a (ds ++ acc)%list
             = digits_val 16 (a * 16 ^ Z.of_nat (length ds) + n) acc.
Proof.
  induction fuel as [|fuel IH]; intros n acc Hn;
    assert (0 ≤ n mod 16 < 16) as Hm by (apply Z.mod_pos_bound; lia);
    pose proof (Z.div_mod n 16 ltac:(lia)) as Hdm;
    cbn [hex_digits_fuel]; destruct (Z.eqb_spec (n / 16) 0) as [Hq|Hq].
  1, 3: exists [hex_digit upper (n mod 16)]; split; [done|]; split; [done|];
      (split; [by repeat constructor; apply is_space_hex_digit|]);
      intros a; cbn [app digits_val length];
      rewrite digit_val_hex_digit by done; f_equal; lia.
  - exfalso. apply Hq. apply Z.div_small. change (16 ^ Z.of_nat 1) with 16 in Hn. lia.
  - destruct (IH (n / 16) (hex_digit upper (n mod 16) :: acc)) as (ds & E & Hne & Hsp & Hv).
    { split; [apply Z.div_pos; lia|].
      apply Z.div_lt_upper_bound; [lia|].
      rewrite (Nat2Z.inj_succ (S fuel)), Z.pow_succ_r in Hn by lia. lia. }
    exists (ds ++ [hex_digit upper (n mod 16)])%list.
    rewrite <- !app_assoc. cbn [app]. split; [exact E|].
    split; [by destruct ds|].
    split; [apply Forall_app; split; [done|by repeat constructor; apply is_space_hex_digit]|].
    intros a. rewrite Hv. cbn [digits_val]. rewrite digit_val_hex_digit by done.
    f_equal. rewrite length_app. cbn [length].
    rewrite Nat2Z.inj_add. change (Z.of_nat 1) with 1.
    rewrite Z.pow_add_r, Z.pow_1_r by lia. lia.
Qed.

Lemma hex_digits_value upper n :
  0 ≤ n →
  ∃ ds, hex_digits upper n = ds ∧ ds ≠ [] ∧ Forall (λ c, is_space c = false) ds ∧
        ∀ a, digits_val 16 a ds = Some (a * 16 ^ Z.of_nat (length ds) + n).
Proof.
  intros Hn. unfold hex_digits.
  destruct (hex_digits_fuel_value (Z.to_nat (Z.log2 n)) upper n []) as (ds & E & Hne & Hsp & Hv).
  { split; [done|].
    destruct (Z.eq_dec n 0) as [->|Hz]; [done|].
    rewrite Nat2Z.inj_succ, Z2Nat.id by apply Z.log2_nonneg.
    pose proof (Z.log2_spec n ltac:(lia)) as [_ Hlt].
    eapply Z.lt_le_trans; [exact Hlt|].
    apply Z.pow_le_mono_l. lia. }
  exists ds. rewrite E, app_nil_r. split; [done|]. split; [done|]. split; [done|].
  intros a. specialize (Hv a). by rewrite app_nil_r in Hv.
Qed.

Lemma lstrip_nonspace l :
  Forall (λ c, is_space c = false) l → lstrip l = l.
Proof. destruct 1 as [|c l Hc _]; [done|]. cbn [lstrip]. by rewrite Hc. Qed.

Lemma strip_nonspace l :
  Forall (λ c, is_space c = false) l → strip (string_of_list_ascii l) = l.
Proof.
  intros Hl. unfold strip. rewrite list_ascii_of_string_of_list_ascii.
  rewrite (lstrip_nonspace l Hl), (lstrip_nonspace (rev l)) by by apply Forall_rev.
  apply rev_involutive.
Qed.

Lemma hex_string ds : "0x" +:+ string_of_list_ascii ds
  = string_of_list_ascii ("0"%char :: "x"%char :: ds).
Proof. reflexivity. Qed.

(** The text [_hex] makes of a number that is not negative is a literal of
    that number. *)
Lemma int16_format_02X n : 0 ≤ n → int16 ("0x" +:+ format_02X n) = Ok n.
Proof.
  intros Hn. unfold format_02X.
  destruct (Z.ltb_spec n 0) as [?|_]; [lia|].
  destruct (hex_digits_value true n Hn) as (ds & -> & Hne & Hsp & Hv).
  set (body := match ds with [d] => ["0"%char; d] | _ => ds end).
  assert (Forall (λ c, is_space c = false) body ∧ body ≠ [] ∧
          digits_val 16 0 body = Some n) as (Hsp' & Hne' & Hv').
  { subst body. destruct ds as [|d [|d' ds]]; [done| |].
    - split; [by constructor|]. split; [done|].
      specialize (Hv 0). cbn [digits_val] in Hv |- *.
      change (digit_val 16 "0") with (Some 0). exact Hv.
    - split; [done|]. split; [done|]. by rewrite Hv. }
  clearbody body. cbv zeta.
  rewrite hex_string. unfold int16, int_literal.
  rewrite strip_nonspace by by repeat constructor.
  cbv iota beta. change (16 =? 16) with true. cbv iota beta.
  destruct body as [|c body]; [done|]. by rewrite Hv'.
Qed.

(** A negative number is written with its sign after the prefix, which is
    no literal. *)
Lemma int16_format_02X_negative n : n < 0 → int16 ("0x" +:+ format_02X n) = Raise ValueError.
Proof.
  intros Hn. unfold format_02X.
  destruct (Z.ltb_spec n 0) as [_|?]; [|lia].
  destruct (hex_digits_value true (- n) ltac:(lia)) as (ds & -> & Hne & Hsp & Hv).
  rewrite hex_string. unfold int16, int_literal.
  rewrite strip_nonspace by by repeat constructor.
  reflexivity.
Qed.

(** X1. What [_hex] writes, [_raw_to_int] reads back, for a number that is
    not negative (of any size); a negative number is written with the sign
    after the prefix, which [_raw_to_int] refuses. *)
Theorem hex_raw_to_int n :
  ∃ h, _hex (VInt n) = Ok h ∧
       _raw_to_int [h] = if 0 <=? n then Ok [n] else Raise ValueError.
Proof.
  eexists. split; [reflexivity|]. cbn [_raw_to_int].
  destruct (Z.leb_spec 0 n) as [Hn|Hn].
  - by rewrite int16_format_02X.
  - by rewrite int16_format_02X_negative.
Qed.

Lemma hexarray_length data : length (_hexarray data) = length data.
Proof.
  unfold _hexarray. by rewrite bytehex_hexlify, !length_fmap.
Qed.

(** X2. The bytes given to [_hexarray] come back from [_raw_to_int] and
    [bytearray], one item for each byte. *)
Theorem hexarray_round_trip data :
  length (_hexarray data) = length data ∧
  (_raw_to_int (_hexarray data) ≫= bytearray) = Ok data.
Proof.
  split; [apply hexarray_length|].
  rewrite raw_to_int_hexarray. cbn [mbind result_bind]. apply bytearray_values.
Qed.

End hex.

(** ** Reverse tables *)

Section reverse.

(** X3. The reverse of a dict without repeated values maps a value to its
    key, and has no other entry. *)
Theorem reverse_dict_lookup d k v :
  no_repeated_value d → (_reverse_dict d !! v = Some k ↔ d !! k = Some v).
Proof.
  intros Hinj. unfold _reverse_dict.
  rewrite <- elem_of_list_to_map.
  - rewrite list_elem_of_fmap. split.
    + intros ([k' v'] & [= -> ->] & Hin). by apply elem_of_map_to_list in Hin.
    + intros Hk. exists (k, v). split; [done|]. by apply elem_of_map_to_list.
  - rewrite <- list_fmap_compose. exact Hinj.
Qed.

End reverse.

(** ** Patterns of days *)

Section day_patterns.

Lemma ordered_getitem_spec (d : list (string * Z)) k :
  match ordered_getitem d k with
  | Ok v => In (k, v) d
  | Raise e => e = KeyError ∧ k ∉ d.*1
  end.
Proof.
  induction d as [|[k' v] d IH]; cbn [ordered_getitem].
  - split; [done|]. apply not_elem_of_nil.
  - destruct (String.eqb_spec k' k) as [->|Hne]; [by left|].
    destruct (ordered_getitem d k) as [v'|e]; [by right|].
    destruct IH as [-> IH]. split; [done|].
    cbn [fmap list_fmap fst]. rewrite not_elem_of_cons. by split.
Qed.

Lemma days_compose_from_outcome days : ∀ pattern,
  match _days_compose_from pattern days with
  | Ok _ => ∃ flags, Forall2 (λ d f, In (d, f) INTEL_NM_DAYS) days flags
  | Raise e => e = KeyError ∧ ∃ d, d ∈ days ∧ ¬ known_day d
  end.
Proof.
  induction days as [|d days IH]; intros pattern; cbn [_days_compose_from].
  - by exists [].
  - pose proof (ordered_getitem_spec INTEL_NM_DAYS d) as Hd.
    destruct (ordered_getitem INTEL_NM_DAYS d) as [f|e]; cbn [mbind result_bind].
    + specialize (IH (Z.lor pattern f)).
      destruct (_days_compose_from (Z.lor pattern f) days) as [p|e].
      * destruct IH as [flags IH]. exists (f :: flags). by constructor.
      * destruct IH as [-> (d' & Hd' & Hk)]. split; [done|].
        exists d'. split; [by right | done].
    + destruct Hd as [-> Hd]. split; [done|]. exists d. split; [by left | done].
Qed.

Lemma flag_in_mask d f : In (d, f) INTEL_NM_DAYS → Z.land f 0x7F = f.
Proof.
  unfold INTEL_NM_DAYS. simpl. intros H.
  repeat (destruct H as [H|H]; [injection H as <- <-; reflexivity | ]).
  done.
Qed.

Lemma fold_lor_in_mask days flags :
  Forall2 (λ d f, In (d, f) INTEL_NM_DAYS) days flags →
  ∀ pattern, Z.land pattern 0x7F = pattern →
  Z.land (fold_left Z.lor flags pattern) 0x7F = fold_left Z.lor flags pattern.
Proof.
  induction 1 as [|d f days flags Hd _ IH]; intros pattern Hp; cbn [fold_left]; [done|].
  apply IH. by rewrite Z.land_lor_distr_l, Hp, (flag_in_mask _ _ Hd).
Qed.

Lemma in_mask_range pattern : Z.land pattern 0x7F = pattern ↔ 0 ≤ pattern < 0x80.
Proof.
  change 0x7F with (Z.ones 7). rewrite Z.land_ones by lia.
  change (2 ^ 7) with 128. split.
  - intros <-. apply Z.mod_pos_bound. lia.
  - intros H. by apply Z.mod_small.
Qed.

Lemma land_pow2 p i :
  0 ≤ i → Z.land p (2 ^ i) = if Z.land p (2 ^ i) =? 0 then 0 else 2 ^ i.
Proof.
  intros Hi.
  assert (Z.land p (2 ^ i) = if Z.testbit p i then 2 ^ i else 0) as E.
  { apply Z.bits_inj'. intros m Hm.
    rewrite Z.land_spec, Z.pow2_bits_eqb by done.
    destruct (Z.eqb_spec i m) as [->|Hne].
    - destruct (Z.testbit p m); [by rewrite Z.pow2_bits_true | by rewrite Z.bits_0].
    - rewrite andb_false_r.
      destruct (Z.testbit p i); [by rewrite Z.pow2_bits_false | by rewrite Z.bits_0]. }
  rewrite E at 2. destruct (Z.testbit p i); [|done].
  assert (0 < 2 ^ i) by (apply Z.pow_pos_nonneg; lia).
  destruct (Z.eqb_spec (2 ^ i) 0); [lia | done].
Qed.

Lemma filter_flags_In sel :
  Forall2 (λ d f, In (d, f) INTEL_NM_DAYS)
    (List.filter sel INTEL_NM_DAYS).*1 (List.filter sel INTEL_NM_DAYS).*2.
Proof.
  assert (∀ l : list (string * Z), (∀ x, In x l → In x INTEL_NM_DAYS) →
            Forall2 (λ d f, In (d, f) INTEL_NM_DAYS) l.*1 l.*2) as H.
  { induction l as [|[d f] l IH]; intros Hl; cbn; constructor.
    - apply Hl. by left.
    - apply IH. intros x Hx. apply Hl. by right. }
  apply H. intros x Hx. by apply List.filter_In in Hx as [Hx _].
Qed.

(** Composing what a pattern decomposes to gives back its seven low bits. *)
Lemma days_compose_of_parse pattern :
  _days_compose (_days_parse pattern) = Ok (Z.land pattern 0x7F).
Proof.
  rewrite days_parse_by_flag. unfold _days_compose.
  rewrite (days_compose_from_lor _ _ (filter_flags_In _)). f_equal.
  change 0x7F with (Z.lor (2 ^ 0) (Z.lor (2 ^ 1) (Z.lor (2 ^ 2) (Z.lor (2 ^ 3)
                     (Z.lor (2 ^ 4) (Z.lor (2 ^ 5) (2 ^ 6))))))).
  rewrite !Z.land_lor_distr_r.
  rewrite (land_pow2 pattern 0), (land_pow2 pattern 1), (land_pow2 pattern 2),
    (land_pow2 pattern 3), (land_pow2 pattern 4), (land_pow2 pattern 5),
    (land_pow2 pattern 6) by lia.
  unfold INTEL_NM_DAYS. cbn [List.filter snd].
  change (2 ^ 0) with 1. change (2 ^ 1) with 2. change (2 ^ 2) with 4.
  change (2 ^ 3) with 8. change (2 ^ 4) with 16. change (2 ^ 5) with 32.
  change (2 ^ 6) with 64.
  repeat (destruct (Z.land pattern _ =? 0); cbn [negb]); reflexivity.
Qed.

Lemma days_parse_of_flags days flags :
  Forall2 (λ d f, In (d, f) INTEL_NM_DAYS) days flags →
  _days_parse (fold_left Z.lor flags 0) =
    List.filter (λ d, bool_decide (d ∈ days)) (INTEL_NM_DAYS.*1).
Proof.
  intros HF. unfold _days_parse. apply List.filter_ext_in.
  intros d Hd. apply in_map_iff in Hd as [[d' f] [<- Hd]]. simpl.
  rewrite (day_selected_flag _ _ _ Hd).
  pose proof (days_compose_selects _ _ _ _ HF Hd) as Hsel.
  destruct (Z.eqb_spec (Z.land (fold_left Z.lor flags 0) f) 0) as [E|E]; simpl.
  + symmetry. apply bool_decide_eq_false. rewrite list_elem_of_In. tauto.
  + symmetry. apply bool_decide_eq_true. rewrite list_elem_of_In. tauto.
Qed.

(** X4. Decomposing a pattern and composing the days found gives the seven
    low bits of the pattern: the bits above sunday are dropped, nothing else
    is lost. *)
Theorem days_parse_compose pattern :
  _days_compose (_days_parse pattern) = Ok (Z.land pattern 0x7F) ∧
  _days_parse (Z.land pattern 0x7F) = _days_parse pattern.
Proof.
  split; [apply days_compose_of_parse|].
  rewrite !days_parse_by_flag. f_equal. apply List.filter_ext_in.
  intros [d f] Hd. cbn [snd].
  by rewrite <- Z.land_assoc, (Z.land_comm 0x7F), (flag_in_mask _ _ Hd).
Qed.

(** X5. The pattern of a list of days depends only on which days are in the
    list, not on their order or on repetitions; so does the failure. *)
Theorem days_compose_set days1 days2 :
  (∀ d, d ∈ days1 ↔ d ∈ days2) → _days_compose days1 = _days_compose days2.
Proof.
  intros Hset. unfold _days_compose.
  pose proof (days_compose_from_outcome days1 0) as H1.
  pose proof (days_compose_from_outcome days2 0) as H2.
  destruct (_days_compose_from 0 days1) as [p1|e1] eqn:E1,
           (_days_compose_from 0 days2) as [p2|e2] eqn:E2.
  - destruct H1 as [flags1 H1], H2 as [flags2 H2].
    rewrite (days_compose_from_lor _ _ H1) in E1.
    rewrite (days_compose_from_lor _ _ H2) in E2.
    injection E1 as <-. injection E2 as <-.
    pose proof (days_compose_of_parse (fold_left Z.lor flags1 0)) as C1.
    pose proof (days_compose_of_parse (fold_left Z.lor flags2 0)) as C2.
    rewrite (fold_lor_in_mask _ _ H1 0 eq_refl) in C1.
    rewrite (fold_lor_in_mask _ _ H2 0 eq_refl) in C2.
    rewrite (days_parse_of_flags _ _ H1) in C1.
    rewrite (days_parse_of_flags _ _ H2) in C2.
    rewrite <- C1, <- C2. f_equal. apply List.filter_ext.
    intros d. apply bool_decide_ext, Hset.
  - exfalso. destruct H1 as [flags1 H1], H2 as [_ (d & Hd & Hk)].
    apply Hk. apply Hset in Hd.
    apply list_elem_of_lookup in Hd as [i Hi].
    destruct (Forall2_lookup_l _ _ _ _ _ H1 Hi) as (f & _ & Hf).
    unfold known_day. apply list_elem_of_fmap. exists (d, f). split; [done|].
    by apply list_elem_of_In.
  - exfalso. destruct H2 as [flags2 H2], H1 as [_ (d & Hd & Hk)].
    apply Hk. apply Hset in Hd.
    apply list_elem_of_lookup in Hd as [i Hi].
    destruct (Forall2_lookup_l _ _ _ _ _ H2 Hi) as (f & _ & Hf).
    unfold known_day. apply list_elem_of_fmap. exists (d, f). split; [done|].
    by apply list_elem_of_In.
  - destruct H1 as [-> _], H2 as [-> _]. done.
Qed.

(** X6. [_days_compose] either returns a pattern of the seven day bits, all
    days being in the table, or raises [KeyError], some day not being in
    it. *)
Theorem days_compose_outcome days :
  match _days_compose days with
  | Ok pattern => 0 ≤ pattern < 0x80 ∧ Forall known_day days
  | Raise e => e = KeyError ∧ Exists (λ d, ¬ known_day d) days
  end.
Proof.
  unfold _days_compose.
  pose proof (days_compose_from_outcome days 0) as H.
  destruct (_days_compose_from 0 days) as [p|e] eqn:E.
  - destruct H as [flags H]. rewrite (days_compose_from_lor _ _ H) in E.
    injection E as <-. split.
    + apply in_mask_range. by apply (fold_lor_in_mask _ _ H).
    + apply Forall_forall. intros d Hd.
      apply list_elem_of_lookup in Hd as [i Hi].
      destruct (Forall2_lookup_l _ _ _ _ _ H Hi) as (f & _ & Hf).
      apply list_elem_of_fmap. exists (d, f). split; [done|].
      by apply list_elem_of_In.
  - destruct H as [-> (d & Hd & Hk)]. split; [done|].
    apply Exists_exists. by exists d.
Qed.

End day_patterns.

(** ** Lengths of responses *)

Section responses.

Ltac ok_step H :=
  match type of H with
  | (?m ≫= _) = Ok _ =>
      let E := fresh "E" in
      destruct m eqn:E; cbn [mbind result_bind] in H; [|discriminate H]
  end.

Lemma raw_to_int_length raw_data : ∀ raw_int,
  _raw_to_int raw_data = Ok raw_int → length raw_int = length raw_data.
Proof.
  induction raw_data as [|x rest IH]; intros raw_int H; cbn [_raw_to_int] in H.
  - by injection H as <-.
  - ok_step H. ok_step H. injection H as <-. cbn [length]. f_equal. by apply IH.
Qed.

Lemma bytearray_length l : ∀ bs, bytearray l = Ok bs → length bs = length l.
Proof.
  induction l as [|z l IH]; intros bs H; cbn [bytearray] in H.
  - by injection H as <-.
  - destruct ((0 <=? z) && (z <? 256)); [|discriminate].
    destruct (Byte.of_N (Z.to_N z)); [|discriminate].
    ok_step H. injection H as <-. cbn [length]. f_equal. by apply IH.
Qed.

Lemma handle_parsing_error_ok {A} (func : list string → result A) raw_data a :
  _handle_parsing_error func raw_data = Ok a ↔ func raw_data = Ok a.
Proof.
  unfold _handle_parsing_error, try_except.
  destruct (func raw_data) as [a'|e]; [done|]. by destruct e.
Qed.

Lemma index_ok {A} (l : list A) i x : index l i = Ok x ↔ l !! i = Some x.
Proof. unfold index. destruct (l !! i); split; congruence. Qed.

(** X7. [parse_policy] accepts a response of sixteen items and no other:
    three of the manufacturer id, three of flags and codes, ten of packed
    values. *)
Theorem parse_policy_length raw_data policy :
  parse_policy raw_data = Ok policy → length raw_data = 16%nat.
Proof.
  unfold parse_policy. rewrite handle_parsing_error_ok.
  unfold parse_policy_body. intros H. cbv zeta in H.
  ok_step H. rename E into Hraw. apply raw_to_int_length in Hraw as <-.
  repeat (ok_step H; try match goal with
                         | E : getitem _ _ = Ok _ |- _ => clear E
                         | E : index _ 3 = Ok _ |- _ => clear E
                         | E : index _ 4 = Ok _ |- _ => clear E
                         end).
  match goal with E : bytearray _ = Ok _ |- _ => apply bytearray_length in E as Hlen end.
  match goal with E : struct_unpack _ _ = Ok _ |- _ => unfold struct_unpack in E end.
  match goal with
  | E : (if (?n =? ?m)%nat then _ else _) = Ok _ |- _ =>
      destruct (Nat.eqb_spec n m) as [Hn|]; [|discriminate E]
  end.
  rewrite Hlen, length_drop in Hn. cbn in Hn. lia.
Qed.

Lemma suspend_loop_ok raw_int : ∀ k a suspends,
  (4 + 3 * (a + k) ≤ length raw_int)%nat →
  ∃ l, parse_policy_suspend_loop raw_int (seq a k) suspends = Ok (suspends ++ l)%list ∧
       length l = k.
Proof.
  induction k as [|k IH]; intros a suspends Hlen; cbn [seq parse_policy_suspend_loop].
  - exists []. by rewrite app_nil_r.
  - destruct (lookup_lt_is_Some_2 raw_int (a * 3 + 4)%nat ltac:(lia)) as [x0 H0].
    destruct (lookup_lt_is_Some_2 raw_int (a * 3 + 4 + 1)%nat ltac:(lia)) as [x1 H1].
    destruct (lookup_lt_is_Some_2 raw_int (a * 3 + 4 + 2)%nat ltac:(lia)) as [x2 H2].
    apply index_ok in H0, H1, H2. rewrite H0, H1, H2. cbn [mbind result_bind].
    edestruct (IH (S a)) as (l & -> & Hl); [lia|].
    eexists (_ :: l). rewrite <- app_assoc. split; [reflexivity|]. cbn [length]. by rewrite Hl.
Qed.

Lemma suspend_loop_short raw_int : ∀ k a suspends,
  (0 < k)%nat → (length raw_int < 4 + 3 * (a + k))%nat →
  parse_policy_suspend_loop raw_int (seq a k) suspends = Raise IndexError.
Proof.
  induction k as [|k IH]; intros a suspends Hk Hlen; [lia|].
  cbn [seq parse_policy_suspend_loop]. unfold index.
  destruct (raw_int !! (a * 3 + 4)%nat) eqn:H0; cbn [mbind result_bind]; [|done].
  destruct (raw_int !! (a * 3 + 4 + 1)%nat) eqn:H1; cbn [mbind result_bind]; [|done].
  destruct (raw_int !! (a * 3 + 4 + 2)%nat) eqn:H2; cbn [mbind result_bind]; [|done].
  apply lookup_lt_Some in H2.
  destruct k as [|k]; [lia|]. apply IH; lia.
Qed.

(** X8. [parse_policy_suspend] returns as many periods as the fourth item
    says (none for a number that is not positive), when the data holds three
    items for each of them after the fourth; with fewer items it reports a
    wrong length. Items beyond those are ignored. *)
Theorem parse_policy_suspend_count raw_data raw_int policy_num :
  _raw_to_int raw_data = Ok raw_int → raw_int !! 3%nat = Some policy_num →
  if (policy_num <=? 0) || (4 + 3 * policy_num <=? Z.of_nat (length raw_int)) then
    ∃ suspends, parse_policy_suspend raw_data = Ok suspends ∧
                Z.of_nat (length suspends) = Z.max 0 policy_num
  else parse_policy_suspend raw_data = Raise (IPMIFailure msg_wrong_length).
Proof.
  intros Hraw Hnum.
  unfold parse_policy_suspend, _handle_parsing_error, parse_policy_suspend_body.
  rewrite Hraw. cbn [mbind result_bind].
  apply index_ok in Hnum as Hidx. rewrite Hidx. cbn [mbind result_bind].
  apply lookup_lt_Some in Hnum.
  destruct (Z.leb_spec policy_num 0) as [Hle|Hpos]; cbn [orb].
  - replace (Z.to_nat policy_num) with 0%nat by lia. exists []. split; [done|]. simpl. lia.
  - destruct (Z.leb_spec (4 + 3 * policy_num) (Z.of_nat (length raw_int))) as [Hfit|Hshort].
    + destruct (suspend_loop_ok raw_int (Z.to_nat policy_num) 0 []) as (l & -> & Hl); [lia|].
      exists l. split; [done|]. lia.
    + rewrite suspend_loop_short by lia. done.
Qed.

(** X9. [parse_version] succeeds exactly on data of at least eight items
    that all convert; it gives the four entries of a version. Shorter data
    has a wrong length, and no data is ever reported as corrupted. *)
Theorem parse_version_outcome raw_data :
  match _raw_to_int raw_data with
  | Ok raw_int =>
      if (8 <=? length raw_int)%nat then
        ∃ version, parse_version raw_data = Ok version ∧
                   dom version = list_to_set ["nm"; "ipmi"; "patch"; "firmware"]
      else parse_version raw_data = Raise (IPMIFailure msg_wrong_length)
  | Raise _ => parse_version raw_data = Raise (IPMIFailure msg_cannot_convert)
  end.
Proof.
  unfold parse_version, _handle_parsing_error, parse_version_body.
  pose proof (only_raw_to_int raw_data) as Honly.
  destruct (_raw_to_int raw_data) as [raw_int|e]; cbn [mbind result_bind].
  - destruct raw_int as [|a0 [|a1 [|a2 [|a3 [|a4 [|a5 [|a6 [|a7 rest]]]]]]]]; try done.
    cbn [length Nat.leb]. unfold index. cbn [lookup list_lookup mbind result_bind try_except].
    eexists. split; [reflexivity|].
    rewrite !dom_insert_L, dom_empty_L. cbn [list_to_set foldr]. set_solver.
  - simpl in Honly. by subst e.
Qed.

(** X10. [parse_capabilities] accepts a response only if it has at least
    twenty-one items, and ignores what follows them: with more items after
    it, as long as they convert, an accepted response gives the same
    capabilities. *)
Theorem parse_capabilities_tail raw_data capabilities :
  parse_capabilities raw_data = Ok capabilities →
  (21 ≤ length raw_data)%nat ∧
  ∀ extra, (∃ ints, _raw_to_int extra = Ok ints) →
           parse_capabilities (raw_data ++ extra) = Ok capabilities.
Proof.
  intros H.
  assert (21 ≤ length raw_data)%nat as Hlen.
  { unfold parse_capabilities in H. rewrite handle_parsing_error_ok in H.
    unfold parse_capabilities_body in H. cbv zeta in H.
    ok_step H. rename E into Hraw. apply raw_to_int_length in Hraw as <-.
    do 4 ok_step H.
    match goal with E : index _ 20 = Ok _ |- _ => apply index_ok, lookup_lt_Some in E end.
    lia. }
  split; [exact Hlen|]. intros extra [ints Hextra]. rewrite <- H.
  unfold parse_capabilities, _handle_parsing_error, parse_capabilities_body.
  rewrite raw_to_int_app, Hextra.
  destruct (_raw_to_int raw_data) as [raw_int|e] eqn:Hraw; cbn [mbind result_bind]; [|done].
  apply raw_to_int_length in Hraw. unfold index.
  rewrite !lookup_app_l by lia.
  rewrite drop_app_le, take_app_le by (rewrite ?length_drop; lia).
  done.
Qed.

End responses.

(** ** The schedule round trip *)

Section suspend.

Lemma known_days_flags days :
  Forall known_day days → ∃ flags, Forall2 (λ d f, In (d, f) INTEL_NM_DAYS) days flags.
Proof.
  induction 1 as [|d days Hd _ [flags IH]]; [by exists []|].
  apply list_elem_of_fmap in Hd as ([d' f] & -> & Hd). apply list_elem_of_In in Hd.
  exists (f :: flags). by constructor.
Qed.

Lemma days_pattern_known days :
  Forall known_day days →
  _days_compose days = Ok (days_pattern days) ∧ 0 ≤ days_pattern days ∧
  _days_parse (days_pattern days)
    = List.filter (λ d, bool_decide (d ∈ days)) (INTEL_NM_DAYS.*1).
Proof.
  intros Hk. destruct (known_days_flags days Hk) as [flags HF].
  unfold days_pattern, _days_compose. rewrite (days_compose_from_lor _ _ HF).
  split; [done|]. split.
  - apply (in_mask_range (fold_left Z.lor flags 0)). by apply (fold_lor_in_mask _ _ HF).
  - by apply days_parse_of_flags.
Qed.

Lemma days_compose_items_strings days : ∀ pattern,
  _days_compose_items pattern (VStr <$> days) = _days_compose_from pattern days.
Proof.
  induction days as [|d days IH]; intros pattern; [done|].
  cbn [fmap list_fmap _days_compose_items _days_compose_from days_getitem].
  destruct (ordered_getitem INTEL_NM_DAYS d); cbn [mbind result_bind]; [apply IH | done].
Qed.

Lemma days_compose_value_strings days :
  _days_compose_value (VList (VStr <$> days)) = _days_compose days.
Proof. apply days_compose_items_strings. Qed.

Lemma period_dict_getitem p :
  val_getitem (period_dict p) "start" = Ok (VInt (s_start p)) ∧
  val_getitem (period_dict p) "stop" = Ok (VInt (s_stop p)) ∧
  val_getitem (period_dict p) "days" = Ok (VList (VStr <$> s_days p)).
Proof.
  unfold period_dict, val_getitem, getitem. by simplify_map_eq.
Qed.

Lemma set_policy_suspend_loop_valid periods : ∀ cmd,
  Forall valid_period periods →
  set_policy_suspend_loop cmd (period_dict <$> periods)
  = Ok (cmd ++ (hex_text <$> flat_map period_numbers periods))%list.
Proof.
  induction periods as [|p periods IH]; intros cmd Hvalid.
  - cbn. by rewrite app_nil_r.
  - apply Forall_cons in Hvalid as [(_ & _ & Hdays) Hvalid].
    destruct (period_dict_getitem p) as (E1 & E2 & E3).
    destruct (days_pattern_known _ Hdays) as (Hc & _ & _).
    cbn [fmap list_fmap set_policy_suspend_loop].
    change (list_fmap _ _ period_dict periods) with (period_dict <$> periods).
    rewrite E1, E2, E3. cbn [mbind result_bind _hex].
    rewrite days_compose_value_strings, Hc. cbn [mbind result_bind _hex].
    rewrite IH by done. unfold _append_to_command. f_equal.
    rewrite <- !app_assoc. reflexivity.
Qed.

Lemma int16_hex_text n : 0 ≤ n → int16 (hex_text n) = Ok n.
Proof. apply int16_format_02X. Qed.

Lemma raw_to_int_hex_text ns :
  Forall (λ n, 0 ≤ n) ns → _raw_to_int (hex_text <$> ns) = Ok ns.
Proof.
  induction 1 as [|n ns Hn _ IH]; [done|].
  cbn [fmap list_fmap _raw_to_int].
  rewrite int16_hex_text by done. cbn [mbind result_bind].
  change (list_fmap _ _ hex_text ns) with (hex_text <$> ns). by rewrite IH.
Qed.

Lemma period_numbers_nonneg periods :
  Forall valid_period periods → Forall (λ n, 0 ≤ n) (flat_map period_numbers periods).
Proof.
  induction 1 as [|p periods (H1 & H2 & H3) _ IH]; [done|].
  cbn [flat_map period_numbers app].
  destruct (days_pattern_known _ H3) as (_ & Hp & _).
  by repeat constructor.
Qed.

Lemma period_numbers_length periods :
  length (flat_map period_numbers periods) = (3 * length periods)%nat.
Proof.
  induction periods as [|p periods IH]; cbn [flat_map]; [done|].
  rewrite length_app, IH. cbn [period_numbers length]. lia.
Qed.

Lemma parse_policy_suspend_loop_periods (head : list Z) before : ∀ periods suspends,
  length head = 4%nat → Forall valid_period periods →
  parse_policy_suspend_loop
    (head ++ flat_map period_numbers (before ++ periods))
    (seq (length before) (length periods)) suspends
  = Ok (suspends ++ (parsed_period <$> periods))%list.
Proof.
  intros periods. revert before.
  induction periods as [|p periods IH]; intros before suspends Hhead Hvalid.
  - cbn. by rewrite app_nil_r.
  - apply Forall_cons in Hvalid as [(_ & _ & Hdays) Hvalid].
    destruct (days_pattern_known _ Hdays) as (_ & _ & Hparse).
    cbn [length seq parse_policy_suspend_loop].
    assert (∀ j x, period_numbers p !! j = Some x →
                   index (head ++ flat_map period_numbers (before ++ p :: periods))
                         (length before * 3 + 4 + j) = Ok x) as Hidx.
    { intros j x Hj. apply index_ok.
      rewrite lookup_app_r by lia. rewrite flat_map_app. cbn [flat_map].
      rewrite lookup_app_r by (rewrite period_numbers_length; lia).
      rewrite period_numbers_length.
      replace (length before * 3 + 4 + j - length head - 3 * length before)%nat
        with j by lia.
      apply lookup_lt_Some in Hj as Hlt. by rewrite lookup_app_l. }
    rewrite <- (Nat.add_0_r (length before * 3 + 4)) at 1.
    rewrite (Hidx 0%nat (s_start p) eq_refl), (Hidx 1%nat (s_stop p) eq_refl),
      (Hidx 2%nat (days_pattern (s_days p)) eq_refl).
    cbn [mbind result_bind]. rewrite Hparse.
    specialize (IH (before ++ [p])%list).
    rewrite length_app, Nat.add_1_r, <- app_assoc in IH. cbn [app] in IH.
    rewrite IH by done. rewrite <- app_assoc. reflexivity.
Qed.

Lemma add_domain_policy_id_ok cmd data domain code policy_id :
  data !! "domain_id" = Some (VStr domain) → INTEL_NM_DOMAINS !! domain = Some code →
  data !! "policy_id" = Some (VInt policy_id) →
  _add_domain_policy_id cmd data = Ok (cmd ++ [hex_text code; hex_text policy_id])%list.
Proof.
  intros Hd Hc Hp. unfold _add_domain_policy_id, getitem, table_getitem, getitem.
  rewrite Hd. cbn [mbind result_bind]. rewrite Hc, Hp. cbn [mbind result_bind _hex].
  unfold _append_to_command. by rewrite <- app_assoc.
Qed.

(** X11. A schedule of suspend periods goes through [set_policy_suspend] and
    [parse_policy_suspend]: the response that carries the periods of the
    command decodes to the same periods in the same order, each with its
    start and stop and with the days of the table it names, in table order.
    The command has three items for each period after its eight of header,
    ids and count. *)
Theorem suspend_round_trip suspend domain policy_id periods :
  suspend !! "domain_id" = Some (VStr domain) →
  is_Some (INTEL_NM_DOMAINS !! domain) →
  suspend !! "policy_id" = Some (VInt policy_id) →
  suspend !! "periods" = Some (VList (period_dict <$> periods)) →
  Forall valid_period periods →
  ∃ cmd, set_policy_suspend suspend = Ok cmd ∧
         length cmd = (8 + 3 * length periods)%nat ∧
         parse_policy_suspend (suspend_response cmd) = Ok (parsed_period <$> periods).
Proof.
  intros Hd [code Hc] Hp Hperiods Hvalid.
  unfold set_policy_suspend.
  rewrite (add_domain_policy_id_ok _ _ _ _ _ Hd Hc Hp). cbn [mbind result_bind].
  unfold getitem. rewrite Hperiods. cbn [mbind result_bind len _hex Deploy.iterate].
  rewrite set_policy_suspend_loop_valid by done.
  eexists. split; [reflexivity|]. split.
  - unfold _append_to_command. rewrite !length_app, !length_fmap, period_numbers_length.
    change (length (_create_command_head INTEL_NM_SUSPEND_SET)) with 5%nat.
    cbn [length]. lia.
  - unfold suspend_response, _append_to_command.
    change (_create_command_head INTEL_NM_SUSPEND_SET)
      with ["0x2E"; "0xC5"; "0x57"; "0x01"; "0x00"].
    cbn [app drop]. rewrite length_fmap.
    change ("0x" +:+ format_02X (Z.of_nat (length periods)))
      with (hex_text (Z.of_nat (length periods))).
    change (INTEL_NM_ID ++ hex_text (Z.of_nat (length periods))
              :: (hex_text <$> flat_map period_numbers periods))%list
      with (INTEL_NM_ID ++ (hex_text <$> Z.of_nat (length periods)
              :: flat_map period_numbers periods))%list.
    unfold parse_policy_suspend, _handle_parsing_error, parse_policy_suspend_body.
    rewrite raw_to_int_app, raw_to_int_hex_text
      by (constructor; [lia | by apply period_numbers_nonneg]).
    change (_raw_to_int INTEL_NM_ID) with (Ok [0x57; 0x01; 0x00]).
    cbn [mbind result_bind app]. unfold index at 1.
    cbn [lookup list_lookup mbind result_bind]. rewrite Nat2Z.id.
    pose proof (parse_policy_suspend_loop_periods
                  [0x57; 0x01; 0x00; Z.of_nat (length periods)] [] periods []
                  eq_refl Hvalid) as Hloop.
    cbn [app length] in Hloop. rewrite Hloop. reflexivity.
Qed.

End suspend.

(** ** Requests *)

Section requests.

Lemma eq_str_true v s : eq_str v s = true → v = VStr s.
Proof.
  destruct v as [| | |t| |]; cbn; try discriminate.
  by intros ->%String.eqb_eq.
Qed.

Lemma add_domain_policy_id_app cmd data :
  _add_domain_policy_id cmd data = (λ ids, cmd ++ ids)%list <$> _add_domain_policy_id [] data.
Proof.
  unfold _add_domain_policy_id.
  destruct (getitem data "domain_id") as [d|]; cbn [mbind result_bind fmap result_fmap]; [|done].
  destruct (table_getitem INTEL_NM_DOMAINS d) as [c|];
    cbn [mbind result_bind fmap result_fmap _hex]; [|done].
  destruct (getitem data "policy_id") as [p|]; cbn [mbind result_bind fmap result_fmap]; [|done].
  destruct (_hex p) as [h|]; cbn [mbind result_bind fmap result_fmap]; [|done].
  unfold _append_to_command. by rewrite <- app_assoc.
Qed.

Lemma add_domain_policy_id_length data ids :
  _add_domain_policy_id [] data = Ok ids → length ids = 2%nat.
Proof.
  unfold _add_domain_policy_id.
  destruct (getitem data "domain_id") as [d|]; cbn [mbind result_bind]; [|done].
  destruct (table_getitem INTEL_NM_DOMAINS d) as [c|]; cbn [mbind result_bind _hex]; [|done].
  destruct (getitem data "policy_id") as [p|]; cbn [mbind result_bind]; [|done].
  destruct (_hex p) as [h|]; cbn [mbind result_bind]; [|done].
  by intros [= <-].
Qed.

(** X12. The four requests that address a policy send the same two items for
    it after their header, the code of the domain and the policy id, and
    fail together when these cannot be made; getting sends nothing more,
    removing a policy sends twelve zero items, removing the suspend periods
    one. *)
Theorem policy_requests_ids data :
  match _add_domain_policy_id [] data with
  | Ok ids =>
      length ids = 2%nat ∧
      get_policy data = Ok (_create_command_head INTEL_NM_POLICY_GET ++ ids)%list ∧
      remove_policy data
        = Ok (_create_command_head INTEL_NM_POLICY_SET ++ ids ++ replicate 12 "0x00")%list ∧
      get_policy_suspend data = Ok (_create_command_head INTEL_NM_SUSPEND_GET ++ ids)%list ∧
      remove_policy_suspend data
        = Ok (_create_command_head INTEL_NM_SUSPEND_SET ++ ids ++ ["0x00"])%list
  | Raise e =>
      get_policy data = Raise e ∧ remove_policy data = Raise e ∧
      get_policy_suspend data = Raise e ∧ remove_policy_suspend data = Raise e
  end.
Proof.
  unfold get_policy, remove_policy, get_policy_suspend, remove_policy_suspend.
  rewrite !(add_domain_policy_id_app (_create_command_head _)).
  destruct (_add_domain_policy_id [] data) as [ids|e] eqn:E;
    cbn [fmap result_fmap mbind result_bind]; [|done].
  split; [by eapply add_domain_policy_id_length|].
  unfold _append_to_command. by rewrite <- !app_assoc.
Qed.

Lemma add_domain_policy_id_insert cmd data k v :
  k ≠ "domain_id" → k ≠ "policy_id" →
  _add_domain_policy_id cmd (<[k := v]> data) = _add_domain_policy_id cmd data.
Proof.
  intros H1 H2. unfold _add_domain_policy_id, getitem.
  by rewrite !lookup_insert_ne by done.
Qed.

(** X13. Removing the suspend periods of a policy is setting an empty
    schedule: the two commands are the same. *)
Theorem remove_policy_suspend_empty data :
  remove_policy_suspend data = set_policy_suspend (<["periods" := VList []]> data).
Proof.
  unfold remove_policy_suspend, set_policy_suspend.
  rewrite add_domain_policy_id_insert by done.
  destruct (_add_domain_policy_id _ data) as [cmd|e]; cbn [mbind result_bind]; [|done].
  unfold getitem. rewrite lookup_insert_eq. reflexivity.
Qed.

(** X14. [control_policies] reads of its argument only what the scope calls
    for: two dicts that agree on [enable] and [scope], on [domain_id] for
    the scopes domain and policy, and on [policy_id] for the scope policy,
    give the same outcome, whatever else they hold or lack. *)
Theorem control_policies_reads control_data control_data' :
  (∀ k, k ∈ scope_reads (dict_get control_data "scope") →
        control_data !! k = control_data' !! k) →
  control_policies control_data = control_policies control_data'.
Proof.
  intros Hsame.
  assert (control_data' !! "enable" = control_data !! "enable") as He.
  { symmetry. apply Hsame. unfold scope_reads. repeat case_match; set_solver. }
  assert (control_data' !! "scope" = control_data !! "scope") as Hs.
  { symmetry. apply Hsame. unfold scope_reads. repeat case_match; set_solver. }
  unfold control_policies, getitem. rewrite He, Hs.
  destruct (control_data !! "enable") as [enable|]; [|done].
  unfold dict_get in Hsame.
  destruct (control_data !! "scope") as [scope|]; [|done].
  cbn [default from_option id] in Hsame.
  destruct (eq_str scope "global") eqn:Hg; [done|].
  unfold scope_reads in Hsame.
  destruct (eq_str scope "domain") eqn:Hdom.
  { rewrite <- (Hsame "domain_id") by set_solver. done. }
  destruct (eq_str scope "policy") eqn:Hpol; [|done].
  rewrite <- (Hsame "domain_id"), <- (Hsame "policy_id") by set_solver. done.
Qed.

(** X15. [control_policies] stops on the unbound local [flags] exactly when
    the dict has [enable] and a [scope] that is none of global, domain and
    policy; it never gets to the ids then. *)
Theorem control_policies_unbound control_data name :
  control_policies control_data = UnboundLocalError name ↔
  name = "flags" ∧ is_Some (control_data !! "enable") ∧
  ∃ scope, control_data !! "scope" = Some scope ∧
           scope ∉ [VStr "global"; VStr "domain"; VStr "policy"].
Proof.
  assert (∀ scope s, eq_str scope s = true ↔ scope = VStr s) as Heq.
  { intros scope s. destruct scope as [| | |t| |]; cbn; try (split; [done | congruence]).
    rewrite String.eqb_eq. split; congruence. }
  unfold control_policies, getitem.
  destruct (control_data !! "enable") as [enable|].
  2: { split; [done|]. by intros (_ & [? [=]] & _). }
  destruct (control_data !! "scope") as [scope|].
  2: { split; [done|]. by intros (_ & _ & ? & [=] & _). }
  destruct (eq_str scope "global") eqn:Hg.
  { apply Heq in Hg as ->. split; [done|].
    intros (_ & _ & ? & [= <-] & Hn). exfalso. apply Hn. repeat constructor. }
  destruct (eq_str scope "domain") eqn:Hdom.
  { apply Heq in Hdom as ->. split.
    - destruct (control_data !! "domain_id") as [d|]; cbn [mbind result_bind]; [|done].
      by destruct (table_getitem INTEL_NM_DOMAINS d).
    - intros (_ & _ & ? & [= <-] & Hn). exfalso. apply Hn. repeat constructor. }
  destruct (eq_str scope "policy") eqn:Hpol.
  { apply Heq in Hpol as ->. split.
    - destruct (control_data !! "domain_id") as [d|]; cbn [mbind result_bind]; [|done].
      destruct (table_getitem INTEL_NM_DOMAINS d); cbn [mbind result_bind]; [|done].
      by destruct (control_data !! "policy_id").
    - intros (_ & _ & ? & [= <-] & Hn). exfalso. apply Hn. repeat constructor. }
  split.
  - intros [= <-]. split; [done|]. split; [done|]. exists scope. split; [done|].
    rewrite !not_elem_of_cons. repeat split; try apply not_elem_of_nil.
    + intros ->. by rewrite (proj2 (Heq _ _) eq_refl) in Hg.
    + intros ->. by rewrite (proj2 (Heq _ _) eq_refl) in Hdom.
    + intros ->. by rewrite (proj2 (Heq _ _) eq_refl) in Hpol.
  - by intros (-> & _).
Qed.

(** X16. A control request has eight items. Its flags hold [enable] in bit 0
    and the scope above it: 0 for global, 1 for domain, 2 for policy. The
    policy id is sent as zero unless the scope is policy, and the domain as
    zero when the scope is global. *)
Theorem control_policies_flags control_data cmd :
  control_policies control_data = Ends (Ok cmd) →
  ∃ enable scope h,
    control_data !! "enable" = Some enable ∧
    control_data !! "scope" = Some (VStr scope) ∧
    length cmd = 8%nat ∧
    take 5 cmd = _create_command_head INTEL_NM_POLICY_CONTROL ∧
    cmd !! 5%nat = Some h ∧
    int16 h = Ok (Z.b2z (truthy enable) + 2 * scope_code scope) ∧
    (scope = "global" → cmd !! 6%nat = Some "0x00") ∧
    (scope ≠ "policy" → cmd !! 7%nat = Some "0x00").
Proof.
  unfold control_policies, getitem. intros H.
  destruct (control_data !! "enable") as [enable|]; [|discriminate].
  destruct (control_data !! "scope") as [scope|]; [|discriminate].
  destruct (eq_str scope "global") eqn:Hg.
  { apply eq_str_true in Hg as ->. injection H as <-.
    exists enable, "global". eexists. repeat split; try done.
    by destruct (truthy enable). }
  destruct (eq_str scope "domain") eqn:Hdom.
  { apply eq_str_true in Hdom as ->.
    destruct (control_data !! "domain_id") as [d|]; cbn [mbind result_bind] in H;
      [|discriminate].
    destruct (table_getitem INTEL_NM_DOMAINS d) as [c|]; cbn [mbind result_bind _hex] in H;
      [|discriminate].
    injection H as <-.
    exists enable, "domain". eexists. repeat split; try done.
    by destruct (truthy enable). }
  destruct (eq_str scope "policy") eqn:Hpol; [|discriminate].
  apply eq_str_true in Hpol as ->.
  destruct (control_data !! "domain_id") as [d|]; cbn [mbind result_bind] in H;
    [|discriminate].
  destruct (table_getitem INTEL_NM_DOMAINS d) as [c|]; cbn [mbind result_bind _hex] in H;
    [|discriminate].
  destruct (control_data !! "policy_id") as [p|]; cbn [mbind result_bind] in H;
    [|discriminate].
  destruct (_hex p) as [hp|] eqn:Hp; cbn [mbind result_bind] in H; [|discriminate].
  injection H as <-.
  exists enable, "policy". eexists. repeat split; try done.
  by destruct (truthy enable).
Qed.

End requests.

(** ** Frames of commands *)

Section frames.

Ltac table_cases H :=
  apply elem_of_map_to_list in H;
  match type of H with
  | _ ∈ map_to_list ?t =>
      let l := eval vm_compute in (map_to_list t) in
      change (map_to_list t) with l in H
  end;
  repeat (apply elem_of_cons in H as [H|H]; [injection H as -> ->|]);
  [..|by apply elem_of_nil in H].

Ltac innermost x :=
  lazymatch x with
  | match ?y with _ => _ end => innermost y
  | _ => constr:(x)
  end.

(** One step of a call that returned: the next thing it evaluated did not
    raise. *)
Ltac returned_step H :=
  cbv beta iota zeta in H; cbn [_hex] in H;
  lazymatch type of H with
  | (match ?x with _ => _ end) = _ =>
      let y := innermost x in destruct y eqn:?; try discriminate H
  end.

Lemma table_getitem_ok t x c :
  table_getitem t x = Ok c → ∃ s, x = VStr s ∧ t !! s = Some c.
Proof.
  destruct x as [| | |s| |]; cbn; try discriminate.
  unfold getitem. destruct (t !! s) as [c'|] eqn:E; [|discriminate].
  intros [= <-]. by exists s.
Qed.

Lemma struct_pack_length fmt : ∀ vs bs,
  struct_pack fmt vs = Ok bs → length bs = fold_right Nat.add 0%nat fmt.
Proof.
  induction fmt as [|n fmt IH]; intros [|v vs] bs H; cbn [struct_pack] in H;
    try discriminate.
  - by injection H as <-.
  - unfold pack_field in H. destruct (isinstance_int v) as [z|]; [|discriminate].
    destruct ((0 <=? z) && (z <? 256 ^ Z.of_nat n)); [|discriminate].
    cbn [mbind result_bind] in H.
    destruct (struct_pack fmt vs) as [bs'|] eqn:E; [|discriminate].
    cbn [mbind result_bind] in H. injection H as <-.
    rewrite length_app, le_bytes_length. cbn [fold_right]. f_equal. by eapply IH.
Qed.

Lemma add_flag_set b : Z.land (Z.lor b 0x10) 0x10 = 0x10.
Proof.
  rewrite Z.land_lor_distr_l. change 0x10 with (2 ^ 4).
  rewrite (land_pow2 b 4) by lia. rewrite Z.land_diag.
  by destruct (Z.land b (2 ^ 4) =? 0).
Qed.

Lemma build_command_frame policy cmd policy' :
  build_command policy = (Ok cmd, policy') →
  length cmd = 19%nat ∧
  take 5 cmd = _create_command_head INTEL_NM_POLICY_SET ∧
  ∃ h b, cmd !! 7%nat = Some h ∧ int16 h = Ok b ∧ Z.land b 0x10 = 0x10.
Proof.
  intros H.
  unfold build_command, mbind, policyM_bind, mret, policyM_ret, subscript, lift in H.
  do 40 try returned_step H.
  injection H as <- <-.
  match goal with E : struct_pack _ _ = Ok _ |- _ => apply struct_pack_length in E as Hlen end.
  change (_create_command_head INTEL_NM_POLICY_SET)
    with ["0x2E"; "0xC1"; "0x57"; "0x01"; "0x00"].
  unfold _append_to_command. cbn [app].
  split; [cbn [length]; by rewrite hexarray_length, Hlen|].
  split; [reflexivity|].
  eexists _, _. split; [reflexivity|].
  repeat match goal with
  | E : table_getitem _ _ = Ok _ |- _ => apply table_getitem_ok in E as (? & -> & E)
  end.
  split; [|apply add_flag_set].
  apply int16_format_02X.
  repeat match goal with
  | E : INTEL_NM_TRIGGERS !! _ = Some ?c |- _ =>
      assert (0 ≤ c) by (table_cases E; lia); clear E
  | E : INTEL_NM_CPU_CORRECTION !! _ = Some ?c |- _ =>
      assert (0 ≤ c) by (table_cases E; lia); clear E
  | E : INTEL_NM_STORAGE !! _ = Some ?c |- _ =>
      assert (0 ≤ c) by (table_cases E; lia); clear E
  end.
  rewrite !Z.lor_nonneg. lia.
Qed.

(** X17. Every command that [set_policy] returns has nineteen items: the
    header, four items of flags, id and codes, and ten of packed values; the
    item of the trigger has the flag 0x10, "add policy", set. *)
Theorem set_policy_frame policy cmd policy' :
  set_policy policy = (Ok cmd, policy') →
  length cmd = 19%nat ∧
  take 5 cmd = _create_command_head INTEL_NM_POLICY_SET ∧
  ∃ h b, cmd !! 7%nat = Some h ∧ int16 h = Ok b ∧ Z.land b 0x10 = 0x10.
Proof.
  rewrite set_policy_split.
  destruct (policy !! "policy_trigger"); [|discriminate].
  apply build_command_frame.
Qed.

(** X18. The request of [get_capabilities] has seven items that all read
    back as numbers; the last one holds the code of the trigger in its low
    four bits and the code of the power domain in bit 0x80, and of the
    bits between them only 0x10, the power policy flag. The names come from
    the three keys of the argument, which must be in their tables. *)
Theorem get_capabilities_fields data cmd :
  get_capabilities data = Ok cmd →
  ∃ domain trigger power_domain b1 b2,
    data !! "domain_id" = Some (VStr domain) ∧
    data !! "policy_trigger" = Some (VStr trigger) ∧
    data !! "power_domain" = Some (VStr power_domain) ∧
    _raw_to_int cmd = Ok [0x2E; 0xC9; 0x57; 0x01; 0x00; b1; b2] ∧
    INTEL_NM_DOMAINS !! domain = Some b1 ∧
    INTEL_NM_TRIGGERS !! trigger = Some (Z.land b2 0x0F) ∧
    INTEL_NM_POWER_DOMAIN !! power_domain = Some (Z.land b2 0x80) ∧
    Z.land b2 0x70 = 0x10.
Proof.
  intros H. unfold get_capabilities, mbind, result_bind in H.
  do 10 try returned_step H.
  injection H as <-.
  repeat match goal with
  | E : table_getitem _ _ = Ok _ |- _ => apply table_getitem_ok in E as (? & -> & E)
  end.
  repeat match goal with
  | E : getitem _ _ = Ok _ |- _ =>
      unfold getitem in E;
      match type of E with
      | match ?x with _ => _ end = _ => destruct x eqn:?; [injection E as ->|discriminate E]
      end
  end.
  repeat match goal with
  | E : INTEL_NM_DOMAINS !! _ = Some _ |- _ => table_cases E
  | E : INTEL_NM_TRIGGERS !! _ = Some _ |- _ => table_cases E
  | E : INTEL_NM_POWER_DOMAIN !! _ = Some _ |- _ => table_cases E
  end.
  all: eexists _, _, _, _, _; repeat split; reflexivity.
Qed.

End frames.

(** ** The partitioning dict *)

Section partitioning_result.

Variable CONF : conf.
Variable urlparse_scheme : pyval → result string.

(** A call that returns has found a [root_gb] that is not empty and three
    sizes that are integers. *)
Lemma parse_partitioning_info_returns node out :
  let info := instance_info node in
  _parse_partitioning_info CONF urlparse_scheme node = Ok out →
  truthy (dict_get info "root_gb") = true ∧
  ∃ r s e, int (dict_get info "root_gb") = Ok r ∧
           int (dict_get_default info "swap_mb" (VInt 0)) = Ok s ∧
           int (dict_get_default info "ephemeral_gb" (VInt 0)) = Ok e.
Proof.
  intros info H. unfold _parse_partitioning_info in H. fold info in H.
  rewrite check_root_gb in H.
  destruct (truthy (dict_get info "root_gb")); [|discriminate].
  split; [done|]. cbn [mbind result_bind] in H.
  unfold DISK_LAYOUT_PARAMS in H. cbn [coerce_params] in H.
  unfold getitem, try_except in H.
  rewrite lookup_insert_ne, lookup_insert_ne, lookup_insert_eq in H by done.
  cbn [mbind result_bind] in H.
  destruct (int (dict_get info "root_gb")) as [r|ex]; [|by destruct ex].
  cbn [mbind result_bind] in H.
  rewrite lookup_insert_ne, lookup_insert_ne, lookup_insert_eq in H by done.
  cbn [mbind result_bind] in H.
  destruct (int (dict_get_default info "swap_mb" (VInt 0))) as [s|ex]; [|by destruct ex].
  cbn [mbind result_bind] in H.
  rewrite lookup_insert_ne, lookup_insert_ne, lookup_insert_eq in H by done.
  cbn [mbind result_bind] in H.
  destruct (int (dict_get_default info "ephemeral_gb" (VInt 0))) as [e|ex]; [|by destruct ex].
  by exists r, s, e.
Qed.

(** X19. What [_parse_partitioning_info] does with a config drive: without
    one it writes no file and sets no [configdrive]; one that is an http or
    https URL is passed on as it is, and no file is written; any other is
    written to the one file at [_get_configdrive_path] of the node, and
    [configdrive] is "file". *)
Theorem parse_partitioning_info_configdrive node i_info writes :
  let configdrive := dict_get (instance_info node) "configdrive" in
  _parse_partitioning_info CONF urlparse_scheme node = Ok (i_info, writes) →
  if truthy configdrive then
    ∃ scheme, urlparse_scheme configdrive = Ok scheme ∧
      if String.eqb scheme "http" || String.eqb scheme "https"
      then writes = [] ∧ i_info !! "configdrive" = Some configdrive
      else writes = [(_get_configdrive_path CONF (uuid node), configdrive)] ∧
           i_info !! "configdrive" = Some (VStr "file")
  else writes = [] ∧ i_info !! "configdrive" = None.
Proof.
  intros configdrive H.
  destruct (parse_partitioning_info_returns _ _ H) as (Hroot & r & s & e & Hr & Hs & He).
  rewrite (parse_partitioning_info_eval _ _ _ _ _ _ Hr Hs He Hroot) in H.
  fold configdrive in H. revert H.
  generalize (_get_configdrive_path CONF (uuid node)). clearbody configdrive.
  intros path. unfold try_except.
  assert (∀ m : gmap string pyval, m !! "configdrive" = None →
    (let i_info := <["ironic_partitions" := VList (partition_plan r s e)]> m in
     if truthy configdrive then
       scheme ← urlparse_scheme configdrive;
       if String.eqb scheme "http" || String.eqb scheme "https" then
         Ok (<["configdrive" := configdrive]> i_info, [])
       else
         Ok (<["configdrive" := VStr "file"]> i_info, [(path, configdrive)])
     else Ok (i_info, [])) = Ok (i_info, writes) →
    if truthy configdrive then
      ∃ scheme, urlparse_scheme configdrive = Ok scheme ∧
        if String.eqb scheme "http" || String.eqb scheme "https"
        then writes = [] ∧ i_info !! "configdrive" = Some configdrive
        else writes = [(path, configdrive)] ∧ i_info !! "configdrive" = Some (VStr "file")
    else writes = [] ∧ i_info !! "configdrive" = None) as Hend.
  { intros m Hm. cbv zeta. destruct (truthy configdrive).
    - destruct (urlparse_scheme configdrive) as [sch|]; [|done].
      cbn [mbind result_bind]. intros H. exists sch. split; [done|].
      destruct (String.eqb sch "http" || String.eqb sch "https");
        injection H as <- <-; by rewrite lookup_insert_eq.
    - intros [= <- <-]. by rewrite lookup_insert_ne. }
  destruct (e =? 0); cbn [mbind result_bind].
  - apply Hend. by destruct (s =? 0); rewrite ?lookup_insert_ne, ?lookup_empty by done.
  - destruct (bool_from_string _) as [b|ex]; [|by destruct ex]. cbn [mbind result_bind].
    apply Hend. rewrite !lookup_insert_ne by done.
    by destruct (s =? 0); rewrite ?lookup_insert_ne, ?lookup_empty by done.
Qed.

(** X20. The keys of the dict that is returned: it has no key but
    [swap_mb], [ephemeral_gb], [ephemeral_format], [preserve_ephemeral],
    [ironic_partitions] and [configdrive], so [root_gb] is never there;
    [swap_mb] and [ephemeral_gb] are taken out when they make a partition
    and stay, as 0, when they do not; [preserve_ephemeral] is there with an
    ephemeral partition only, as the text "yes" or "no". *)
Theorem parse_partitioning_info_sizes node i_info writes :
  let info := instance_info node in
  _parse_partitioning_info CONF urlparse_scheme node = Ok (i_info, writes) →
  ∃ s e, int (dict_get_default info "swap_mb" (VInt 0)) = Ok s ∧
         int (dict_get_default info "ephemeral_gb" (VInt 0)) = Ok e ∧
         (∀ k, k ∉ ["swap_mb"; "ephemeral_gb"; "ephemeral_format";
                    "preserve_ephemeral"; "ironic_partitions"; "configdrive"] →
               i_info !! k = None) ∧
         i_info !! "swap_mb" = (if s =? 0 then Some (VInt 0) else None) ∧
         i_info !! "ephemeral_gb" = (if e =? 0 then Some (VInt 0) else None) ∧
         match i_info !! "preserve_ephemeral" with
         | Some v => e ≠ 0 ∧ (v = VStr "yes" ∨ v = VStr "no")
         | None => e = 0
         end.
Proof.
  intros info H.
  destruct (parse_partitioning_info_returns _ _ H) as (Hroot & r & s & e & Hr & Hs & He).
  rewrite (parse_partitioning_info_eval _ _ _ _ _ _ Hr Hs He Hroot) in H.
  fold info in H. exists s, e. split; [done|]. split; [done|]. revert H.
  generalize (_get_configdrive_path CONF (uuid node)) (dict_get info "configdrive")
    (dict_get info "ephemeral_format").
  intros path cd fmt. unfold try_except.
  destruct (Z.eqb_spec e 0) as [He0|He0]; cbn [mbind result_bind].
  2: destruct (bool_from_string _) as [b|ex]; [|by destruct ex]; cbn [mbind result_bind].
  all: destruct (truthy cd);
         [destruct (urlparse_scheme cd) as [sch|]; [|done];
          cbn [mbind result_bind];
          destruct (String.eqb sch "http" || String.eqb sch "https")|].
  all: intros [= <- <-].
  all: destruct (Z.eqb_spec s 0) as [Hs0|Hs0]; subst.
  all: split; [intros k Hk; rewrite !not_elem_of_cons in Hk;
               destruct Hk as (? & ? & ? & ? & ? & ? & _);
               by rewrite ?lookup_insert_ne, ?lookup_singleton_ne, ?lookup_empty by done|].
  all: rewrite ?lookup_insert_eq, ?lookup_insert_ne, ?lookup_empty by done.
  all: repeat split; try done.
  all: destruct b; auto.
Qed.

End partitioning_result.

(** ** Steps that are returned, and the driver's calls *)

Section clean_steps_made.

Variable CONF : conf.
Variable load_yaml : string → result pyval.

Lemma clean_steps_loop_made interface override internal_steps : ∀ steps out,
  clean_steps_loop interface override internal_steps steps = Ok out →
  ∃ new, out = (steps ++ new)%list ∧ (length new ≤ length internal_steps)%nat ∧
         Forall (made_for interface override) new.
Proof.
  induction internal_steps as [|params rest IH]; intros steps out H;
    cbn [clean_steps_loop] in H.
  - injection H as <-. exists []. by rewrite app_nil_r.
  - destruct params as [| | | | |d]; try discriminate.
    cbn [method_get mbind result_bind val_getitem] in H. unfold getitem in H.
    destruct (d !! "interface") as [clean_if|] eqn:Hif; [|discriminate].
    cbn [mbind result_bind] in H.
    destruct (match interface with Some i => negb (eq_str clean_if i) | None => false end)
      eqn:Hfilter.
    { destruct (IH _ _ H) as (new & -> & Hlen & Hnew).
      exists new. split; [done|]. split; [cbn [length]; lia | done]. }
    destruct (override_get override (dict_get_default d "name" VNone))
      as [new_priority|] eqn:Hover; [|discriminate].
    cbn [mbind result_bind] in H.
    assert (∃ priority,
              (∀ v, new_priority = v → v ≠ VNone → priority = v) ∧
              clean_steps_loop interface override rest
                (steps ++ [VDict {[ "step" := dict_get_default d "name" VNone;
                                    "priority" := priority;
                                    "abortable" := dict_get_default d "abortable" (VBool false);
                                    "argsinfo" := dict_get_default d "argsinfo" VNone;
                                    "interface" := clean_if;
                                    "tags" := dict_get_default d "tags" (VList []) ]}])
              = Ok out) as (priority & Hprio & H').
    { destruct new_priority; cbn [mbind result_bind] in H;
        try (eexists; split; [|exact H]; by intros ? <-).
      destruct (d !! "priority") as [priority|]; [|discriminate].
      exists priority. split; [by intros ? <-|exact H]. }
    clear H.
    destruct (IH _ _ H') as (new & -> & Hlen & Hnew).
    eexists (_ :: new). rewrite <- app_assoc. split; [reflexivity|].
    split; [cbn [length]; lia|]. constructor; [|done].
    eexists. split; [reflexivity|]. split; [|split].
    + rewrite !dom_insert_L, dom_singleton_L. cbn [list_to_set foldr]. set_solver.
    + intros i ->. apply negb_false_iff in Hfilter. apply eq_str_true in Hfilter as ->.
      by simplify_map_eq.
    + intros name v Hname Hv Hnone.
      rewrite lookup_insert_eq in Hname. injection Hname as Hname.
      rewrite Hname in Hover. cbn [override_get] in Hover. unfold dict_get in Hover.
      rewrite Hv in Hover. injection Hover as Hover.
      rewrite lookup_insert_ne, lookup_insert_eq by done. f_equal.
      by apply Hprio.
Qed.

(** X21. Every step that [_get_clean_steps] returns is a dict of the six
    keys of a step; when an interface is asked for, every step is of that
    interface; and a step whose name has an override priority that is not
    [None] has that priority. *)
Theorem get_clean_steps_made task interface override_priorities steps :
  _get_clean_steps CONF load_yaml task interface override_priorities = Ok steps →
  Forall (made_for interface (override_of override_priorities)) steps.
Proof.
  unfold _get_clean_steps. intros H.
  destruct (dict_get_default _ _ _) as [| | |file| |]; try discriminate.
  cbn [mbind result_bind] in H. unfold try_except in H.
  destruct (load_yaml _) as [internal_steps|]; [|discriminate].
  cbn [mbind result_bind] in H.
  destruct (iterate internal_steps) as [items|]; [|discriminate].
  cbn [mbind result_bind] in H.
  apply clean_steps_loop_made in H as (new & -> & _ & Hnew). exact Hnew.
Qed.

End clean_steps_made.

Section driver.

Variable CONF : conf.
Variable load_yaml : string → result pyval.
Variable erase_devices_priority : pyval.

(** X22. The clean steps of the deploy interface: every step that
    [get_clean_steps] returns is of the interface deploy, and the step
    erase_devices has the priority of the configuration, if one is set. *)
Theorem deploy_clean_steps task steps :
  get_clean_steps CONF load_yaml erase_devices_priority task = Ok steps →
  Forall (λ step, ∃ d, step = VDict d ∧
                       d !! "interface" = Some (VStr "deploy") ∧
                       (d !! "step" = Some (VStr "erase_devices") →
                        erase_devices_priority ≠ VNone →
                        d !! "priority" = Some erase_devices_priority)) steps.
Proof.
  unfold get_clean_steps, _get_clean_steps. intros H.
  destruct (dict_get_default _ _ _) as [| | |file| |]; try discriminate.
  cbn [mbind result_bind] in H. unfold try_except in H.
  destruct (load_yaml _) as [internal_steps|]; [|discriminate].
  cbn [mbind result_bind] in H.
  destruct (iterate internal_steps) as [items|]; [|discriminate].
  cbn [mbind result_bind] in H.
  apply clean_steps_loop_made in H as (new & -> & _ & Hnew).
  cbn [app]. eapply Forall_impl; [exact Hnew|].
  intros step (d & -> & _ & Hif & Hprio). exists d. split; [done|].
  split; [by apply Hif|]. intros Hname Hset.
  apply (Hprio "erase_devices"); [done| |done].
  cbn [truthy]. rewrite map_size_singleton. cbn [Nat.eqb negb].
  apply lookup_singleton_eq.
Qed.

(** X23. For the two actions of the driver, deploy and clean,
    [_parse_ansible_driver_info] fails only on a [driver_info] that holds a
    false value (an empty name, [None]) as the playbook of the action;
    without the key the playbook is the default of the action, the user
    "ansible" unless [deploy_username] is there, and the key file [None]
    unless [deploy_key_file] is. *)
Theorem parse_ansible_driver_info_defaults node action :
  action ∈ ["deploy"; "clean"] →
  match _parse_ansible_driver_info node action with
  | inl _ =>
      ∃ v, driver_info node !! (action +:+ "_playbook") = Some v ∧ truthy v = false
  | inr (playbook, user, key) =>
      truthy playbook = true ∧
      playbook = default (VStr (action +:+ ".yaml"))
                   (driver_info node !! (action +:+ "_playbook")) ∧
      user = default (VStr "ansible") (driver_info node !! "deploy_username") ∧
      key = default VNone (driver_info node !! "deploy_key_file")
  end.
Proof.
  intros Haction. unfold _parse_ansible_driver_info, dict_get_default, dict_get.
  assert (match DEFAULT_PLAYBOOKS !! action with
          | Some playbook => VStr playbook
          | None => VNone
          end = VStr (action +:+ ".yaml")) as ->.
  { apply elem_of_cons in Haction as [->|Haction]; [done|].
    apply elem_of_cons in Haction as [->|Haction]; [done|].
    by apply elem_of_nil in Haction. }
  destruct (driver_info node !! (action +:+ "_playbook")) as [v|];
    cbn [default from_option id].
  - destruct (truthy v) eqn:Hv; cbn [negb]; [done|]. by exists v.
  - assert (truthy (VStr (action +:+ ".yaml")) = true) as Hdefault.
    2: { rewrite Hdefault. cbn [negb]. by rewrite Hdefault. }
    apply elem_of_cons in Haction as [->|Haction]; [done|].
    apply elem_of_cons in Haction as [->|Haction]; [done|].
    by apply elem_of_nil in Haction.
Qed.

End driver.

(** ** Examples of the requests, responses and steps *)

Section request_examples.

(** The table of domains has no repeated code, so its reverse maps 0x01 to
    cpu. *)
Lemma reverse_dict_lookup_witness :
  _reverse_dict INTEL_NM_DOMAINS !! 0x01 = Some "cpu".
Proof.
  apply (reverse_dict_lookup INTEL_NM_DOMAINS "cpu" 0x01).
  - unfold no_repeated_value. apply (bool_decide_unpack _). by vm_compute.
  - reflexivity.
Defined.

(** Friday given twice and before monday changes nothing. *)
Lemma days_compose_set_witness :
  _days_compose ["friday"; "monday"; "friday"] = _days_compose ["monday"; "friday"].
Proof.
  apply days_compose_set. intros d. rewrite !elem_of_cons. tauto.
Defined.

(** The response for the example policy, which [parse_policy] accepts, has
    sixteen items. *)
Lemma parse_policy_length_witness :
  length (policy_response (command_of example_fields)) = 16%nat.
Proof.
  assert (returns (parse_policy (policy_response (command_of example_fields))) = true)
    as Hreturns by reflexivity.
  destruct (parse_policy (policy_response (command_of example_fields)))
    as [policy|] eqn:E; [|discriminate Hreturns].
  exact (parse_policy_length _ _ E).
Defined.

(** Eight items hold one period and an item that is ignored; they do not
    hold two periods. *)
Lemma parse_policy_suspend_count_witness :
  (∃ suspends,
     parse_policy_suspend ["0x57"; "0x01"; "0x00"; "0x01"; "0x08"; "0x12"; "0x11"; "0xFF"]
       = Ok suspends ∧
     Z.of_nat (length suspends) = 1) ∧
  parse_policy_suspend ["0x57"; "0x01"; "0x00"; "0x02"; "0x08"; "0x12"; "0x11"; "0xFF"]
    = Raise (IPMIFailure msg_wrong_length).
Proof.
  split.
  - exact (parse_policy_suspend_count
             ["0x57"; "0x01"; "0x00"; "0x01"; "0x08"; "0x12"; "0x11"; "0xFF"]
             [0x57; 0x01; 0x00; 0x01; 0x08; 0x12; 0x11; 0xFF] 1 eq_refl eq_refl).
  - exact (parse_policy_suspend_count
             ["0x57"; "0x01"; "0x00"; "0x02"; "0x08"; "0x12"; "0x11"; "0xFF"]
             [0x57; 0x01; 0x00; 0x02; 0x08; 0x12; 0x11; 0xFF] 2 eq_refl eq_refl).
Defined.

(** Two more items after a full capabilities response change nothing. *)
Lemma parse_capabilities_tail_witness :
  parse_capabilities (capabilities_response "0x81" ++ ["0xFF"; "0x00"])
  = parse_capabilities (capabilities_response "0x81").
Proof.
  assert (returns (parse_capabilities (capabilities_response "0x81")) = true)
    as Hreturns by reflexivity.
  destruct (parse_capabilities (capabilities_response "0x81"))
    as [capabilities|] eqn:E; [|discriminate Hreturns].
  destruct (parse_capabilities_tail _ _ E) as [_ Htail].
  apply Htail. by exists [0xFF; 0x00].
Defined.

(** The two example periods make a command of fourteen items and come
    back, friday and monday as monday and friday. *)
Lemma suspend_round_trip_witness :
  ∃ cmd, set_policy_suspend example_suspend = Ok cmd ∧
         length cmd = 14%nat ∧
         parse_policy_suspend (suspend_response cmd)
           = Ok (parsed_period <$> example_periods).
Proof.
  apply (suspend_round_trip example_suspend "cpu" 10 example_periods).
  - reflexivity.
  - by eexists.
  - reflexivity.
  - reflexivity.
  - repeat constructor; try (cbn; lia);
      apply (bool_decide_unpack _); by vm_compute.
Defined.

(** With the global scope the ids can be missing, or be anything. *)
Lemma control_policies_reads_witness :
  control_policies {[ "enable" := VBool true; "scope" := VStr "global" ]}
  = control_policies {[ "enable" := VBool true; "scope" := VStr "global";
                        "domain_id" := VInt 7; "policy_id" := VList [] ]}.
Proof.
  apply control_policies_reads. intros k Hk.
  apply elem_of_cons in Hk as [->|Hk]; [reflexivity|].
  apply elem_of_cons in Hk as [->|Hk]; [reflexivity|].
  by apply elem_of_nil in Hk.
Defined.

(** The command of the disabled example policy: nineteen items, and 0x10
    alone as the item of the trigger none. *)
Lemma set_policy_frame_witness :
  (λ cmd, (length cmd, cmd !! 7%nat)) <$> (set_policy (example_policy false)).1
  = Ok (19%nat, Some "0x10").
Proof.
  assert (returns (set_policy (example_policy false)).1 = true) as Hreturns by reflexivity.
  assert ((λ cmd, cmd !! 7%nat) <$> (set_policy (example_policy false)).1
          = Ok (Some "0x10")) as Hflags by reflexivity.
  destruct (set_policy (example_policy false)) as [[cmd|] policy'] eqn:E;
    [|discriminate Hreturns].
  destruct (set_policy_frame _ _ _ E) as (Hlen & _ & _).
  cbn in *. injection Hflags as ->. by rewrite Hlen.
Defined.

(** The capabilities request for cpu, power and secondary ends in 0x01 and
    0x92. *)
Lemma get_capabilities_fields_witness :
  ∃ domain trigger power_domain b1 b2,
    example_capabilities !! "domain_id" = Some (VStr domain) ∧
    example_capabilities !! "policy_trigger" = Some (VStr trigger) ∧
    example_capabilities !! "power_domain" = Some (VStr power_domain) ∧
    _raw_to_int ["0x2E"; "0xC9"; "0x57"; "0x01"; "0x00"; "0x01"; "0x92"]
      = Ok [0x2E; 0xC9; 0x57; 0x01; 0x00; b1; b2] ∧
    INTEL_NM_DOMAINS !! domain = Some b1 ∧
    INTEL_NM_TRIGGERS !! trigger = Some (Z.land b2 0x0F) ∧
    INTEL_NM_POWER_DOMAIN !! power_domain = Some (Z.land b2 0x80) ∧
    Z.land b2 0x70 = 0x10.
Proof.
  apply (get_capabilities_fields example_capabilities). reflexivity.
Defined.

(** A config drive that is no URL is written to the file of the node. *)
Lemma parse_partitioning_info_configdrive_witness :
  snd <$> _parse_partitioning_info example_conf (λ _, Ok "")
            (example_node {[ "root_gb" := VInt 10; "configdrive" := VStr "H4sIAAAA" ]})
  = Ok [("/tmp/1be26c0b-03f2-4d2e-ae87-c02d7f33c123.cndrive", VStr "H4sIAAAA")].
Proof.
  assert (returns (_parse_partitioning_info example_conf (λ _, Ok "")
                     (example_node {[ "root_gb" := VInt 10;
                                      "configdrive" := VStr "H4sIAAAA" ]})) = true)
    as Hreturns by reflexivity.
  destruct (_parse_partitioning_info example_conf (λ _, Ok "")
              (example_node {[ "root_gb" := VInt 10; "configdrive" := VStr "H4sIAAAA" ]}))
    as [[i_info writes]|] eqn:E; [|discriminate Hreturns].
  destruct (parse_partitioning_info_configdrive _ _ _ _ _ E) as (scheme & Hscheme & H).
  injection Hscheme as <-. destruct H as [-> _]. reflexivity.
Defined.

(** Root 10 GiB, no swap, ephemeral 5 GiB: of the sizes only the zero
    [swap_mb] is left. *)
Lemma parse_partitioning_info_sizes_witness :
  (λ out, (out.1 !! "root_gb", out.1 !! "swap_mb", out.1 !! "ephemeral_gb"))
    <$> _parse_partitioning_info example_conf (λ _, Ok "")
          (example_node {[ "root_gb" := VInt 10; "ephemeral_gb" := VStr "5" ]})
  = Ok (None, Some (VInt 0), None).
Proof.
  assert (returns (_parse_partitioning_info example_conf (λ _, Ok "")
                     (example_node {[ "root_gb" := VInt 10;
                                      "ephemeral_gb" := VStr "5" ]})) = true)
    as Hreturns by reflexivity.
  destruct (_parse_partitioning_info example_conf (λ _, Ok "")
              (example_node {[ "root_gb" := VInt 10; "ephemeral_gb" := VStr "5" ]}))
    as [[i_info writes]|] eqn:E; [|discriminate Hreturns].
  destruct (parse_partitioning_info_sizes _ _ _ _ _ E)
    as (s & e & Hs & He & Hkeys & Hswap & Heph & _).
  injection Hs as <-. injection He as <-.
  cbn [fmap result_fmap fst]. rewrite Hswap, Heph, (Hkeys "root_gb"); [reflexivity|].
  apply (bool_decide_unpack _). by vm_compute.
Defined.

(** Of the two example entries, the one of the deploy interface is
    returned. *)
Lemma get_clean_steps_made_witness :
  match _get_clean_steps example_conf (load_example example_steps) (example_task ∅)
          (Some "deploy") None with
  | Ok steps => length steps = 1%nat ∧ Forall (made_for (Some "deploy") ∅) steps
  | Raise _ => False
  end.
Proof.
  assert (length <$> _get_clean_steps example_conf (load_example example_steps)
                       (example_task ∅) (Some "deploy") None = Ok 1%nat)
    as Hlength by reflexivity.
  destruct (_get_clean_steps example_conf (load_example example_steps) (example_task ∅)
              (Some "deploy") None) as [steps|] eqn:E; [|discriminate Hlength].
  split; [by injection Hlength|].
  exact (get_clean_steps_made _ _ _ _ _ _ E).
Defined.

(** With a configured priority of 99 for erase_devices. *)
Lemma deploy_clean_steps_witness :
  match get_clean_steps example_conf (load_example example_steps) (VInt 99)
          (example_task ∅) with
  | Ok steps =>
      Forall (λ step, ∃ d, step = VDict d ∧
                           d !! "interface" = Some (VStr "deploy") ∧
                           (d !! "step" = Some (VStr "erase_devices") →
                            VInt 99 ≠ VNone → d !! "priority" = Some (VInt 99))) steps
  | Raise _ => False
  end.
Proof.
  assert (returns (get_clean_steps example_conf (load_example example_steps) (VInt 99)
                     (example_task ∅)) = true) as Hreturns by reflexivity.
  destruct (get_clean_steps example_conf (load_example example_steps) (VInt 99)
              (example_task ∅)) as [steps|] eqn:E; [|discriminate Hreturns].
  exact (deploy_clean_steps _ _ _ _ _ E).
Defined.

(** Cleaning with an empty [driver_info]: the default playbook and user. *)
Lemma parse_ansible_driver_info_defaults_witness :
  match _parse_ansible_driver_info (example_node ∅) "clean" with
  | inl _ => ∃ v, driver_info (example_node ∅) !! "clean_playbook" = Some v ∧
                  truthy v = false
  | inr (playbook, user, key) =>
      truthy playbook = true ∧
      playbook = default (VStr "clean.yaml")
                   (driver_info (example_node ∅) !! "clean_playbook") ∧
      user = default (VStr "ansible") (driver_info (example_node ∅) !! "deploy_username") ∧
      key = default VNone (driver_info (example_node ∅) !! "deploy_key_file")
  end.
Proof.
  apply (parse_ansible_driver_info_defaults (example_node ∅) "clean").
  apply (bool_decide_unpack _). by vm_compute.
Defined.

(** Disabling the policies of the memory domain: flags 0x02. *)
Lemma control_policies_flags_witness :
  control_policies example_control
    = Ends (Ok ["0x2E"; "0xC0"; "0x57"; "0x01"; "0x00"; "0x02"; "0x02"; "0x00"]) ∧
  int16 "0x02" = Ok (0 + 2 * scope_code "domain").
Proof.
  split; [reflexivity|].
  destruct (control_policies_flags example_control
              ["0x2E"; "0xC0"; "0x57"; "0x01"; "0x00"; "0x02"; "0x02"; "0x00"] eq_refl)
    as (enable & scope & h & He & Hs & _ & _ & Hh & Hflags & _).
  change (Some (VInt 0) = Some enable) in He.
  change (Some (VStr "domain") = Some (VStr scope)) in Hs.
  change (Some "0x02" = Some h) in Hh.
  injection He as <-. injection Hs as <-. injection Hh as <-. exact Hflags.
Defined.

End request_examples.
